(** * Validation rules of the RESPINOW forecast hub

    A shallow embedding of [validation_functions.py] and of the file
    classification of [main.py], with the properties of the validation
    engine proved over it.

    Conventions of the embedding.
    - A Python value that a check returns is [PyNone], a string or a list of
      strings; the strings are error messages, kept here as a message
      template (a constructor of [error]) with the data the f-string
      interpolates, not as rendered text.
    - A Python exception is the [Raise] branch of [res].
    - A calendar date is its day number ([Z], day 1 being 1 January of the
      year 1); a [pd.Timedelta] is a number of days.  Both are 64-bit counts
      of nanoseconds in pandas: the places where the code leaves that range
      are written out.
    - A parsed float is the rational it denotes ([Q], compared with
      [Qeq_bool]).
    - A character is the code point of its number: the texts of the model
      are the Python strings whose characters lie below U+0100.  The
      classes of characters the code asks for ([\d], [str.isnumeric]) are
      written out for all of these. *)

From Stdlib Require Import List String Ascii Bool Arith ZArith QArith Lia.
From Stdlib Require Import Permutation SetoidList SetoidPermutation.
Import ListNotations.

Close Scope Q_scope.
Open Scope string_scope.
Open Scope list_scope.

(** ** Python values and exceptions *)

Module Py.

Inductive exn :=
| AttributeError (name : string)   (* [df.name], no such column *)
| KeyError (name : string)         (* [df['name']], no such column *)
| KeyErrorIndex (names : list string)
    (* the [KeyError] of [duplicated] and of [.loc] with a list of labels:
       it holds the labels that are no columns *)
| IndexError                       (* [.iloc[0]] on an empty column *)
| ValueError                       (* a column assignment pandas refuses *)
| OverflowError
    (* a [pd.Timedelta] or a timestamp outside the 64-bit count of
       nanoseconds *)
| ParserError                      (* [pd.read_csv] cannot read the file *).

Inductive res (A : Type) :=
| Ret (a : A)
| Raise (e : exn).
Arguments Ret {A} a.
Arguments Raise {A} e.

Definition bind {A B} (m : res A) (k : A -> res B) : res B :=
  match m with
  | Ret a => k a
  | Raise e => Raise e
  end.

Notation "x <- m ;; k" := (bind m (fun x => k))
  (at level 61, m at next level, right associativity).

(** [os.path.basename]: what follows the last slash. *)
Fixpoint has_slash (p : string) : bool :=
  match p with
  | EmptyString => false
  | String c p' => Ascii.eqb c "/" || has_slash p'
  end.

Fixpoint basename (p : string) : string :=
  match p with
  | EmptyString => EmptyString
  | String c p' =>
      if has_slash p' then basename p'
      else if Ascii.eqb c "/" then p' else p
  end.

(** [s[:n]]. *)
Definition take (n : nat) (s : string) : string := substring 0 n s.

(** [needle in s] on strings. *)
Fixpoint contains (needle s : string) : bool :=
  prefix needle s ||
  match s with
  | EmptyString => false
  | String _ s' => contains needle s'
  end.

(** [s.replace(c, '')]: every occurrence of the character goes. *)
Fixpoint remove_char (c : ascii) (s : string) : string :=
  match s with
  | EmptyString => EmptyString
  | String a s' =>
      if Ascii.eqb a c then remove_char c s' else String a (remove_char c s')
  end.

Definition is_digit (a : ascii) : bool :=
  let n := nat_of_ascii a in (48 <=? n)%nat && (n <=? 57)%nat.

(** The numeric characters below U+0100: the ten digits, the superscripts
    two, three and one (U+00B2, U+00B3, U+00B9) and the fractions one
    quarter, one half and three quarters (U+00BC, U+00BD, U+00BE).  Of
    these only the ten digits are decimal digits, which is what [\d]
    asks for. *)
Definition is_numeric_char (a : ascii) : bool :=
  is_digit a ||
  existsb (Nat.eqb (nat_of_ascii a)) [178; 179; 185; 188; 189; 190]%nat.

Fixpoint all_numeric (s : string) : bool :=
  match s with
  | EmptyString => true
  | String a s' => is_numeric_char a && all_numeric s'
  end.

(** [str.isnumeric]: at least one character and all of them numeric. *)
Definition isnumeric (s : string) : bool :=
  match s with
  | EmptyString => false
  | _ => all_numeric s
  end.

End Py.
Import Py.

(** ** Regular expressions

    The two patterns of the repository use literals, [.], [\d], [.*],
    the capturing group [(.+)] and back-references.  [re_match] is
    [Pattern.match]: anchored at the start of the string, not at its end. *)

Module Re.

Inductive atom :=
| Chr (c : ascii)     (* a literal character *)
| Dot                 (* [.]: any character but a newline *)
| Dig                 (* [\d] *)
| DotStar             (* [.*] *)
| Grp                 (* [(.+)], the next capturing group *)
| Ref (n : nat).      (* [\n], counted from 0 here: [\1] is [Ref 0] *)

Definition regex := list atom.

Fixpoint lit (s : string) : regex :=
  match s with
  | EmptyString => []
  | String c s' => Chr c :: lit s'
  end.

Definition newline : ascii := "010"%char.

Definition dot (a : ascii) : bool := negb (Ascii.eqb a newline).

Fixpoint strip_prefix (p s : string) : option string :=
  match p with
  | EmptyString => Some s
  | String a p' =>
      match s with
      | EmptyString => None
      | String b s' => if Ascii.eqb a b then strip_prefix p' s' else None
      end
  end.

(** Backtracking match of the atoms [r] against a prefix of [s]; [gs] holds
    the groups captured so far. *)
Fixpoint matches (r : regex) (gs : list string) (s : string) {struct r}
  : bool :=
  match r with
  | [] => true
  | Chr c :: r' =>
      match s with
      | String a s' => Ascii.eqb a c && matches r' gs s'
      | EmptyString => false
      end
  | Dot :: r' =>
      match s with
      | String a s' => dot a && matches r' gs s'
      | EmptyString => false
      end
  | Dig :: r' =>
      match s with
      | String a s' => is_digit a && matches r' gs s'
      | EmptyString => false
      end
  | DotStar :: r' =>
      (fix star (s : string) : bool :=
         match s with
         | String a s' => (dot a && star s') || matches r' gs s
         | EmptyString => matches r' gs s
         end) s
  | Grp :: r' =>
      (fix plus (g s : string) : bool :=
         match s with
         | String a s' =>
             dot a &&
             (plus (String.append g (String a EmptyString)) s' ||
              matches r' (gs ++ [String.append g (String a EmptyString)]) s')
         | EmptyString => false
         end) EmptyString s
  | Ref n :: r' =>
      match nth_error gs n with
      | Some g =>
          match strip_prefix g s with
          | Some s' => matches r' gs s'
          | None => false
          end
      | None => false
      end
  end.

Definition re_match (r : regex) (s : string) : bool := matches r [] s.

End Re.
Import Re.

(** ** The parsed table

    [pd.read_csv(..., parse_dates = [...])] gives a [DataFrame]: a header
    ([df.columns]) and one row per line.  A row holds a typed cell for each
    of the eight schema columns; only [quantile] and [value] can be null.
    The header says which of the schema columns the file has: a read of a
    column outside the header raises before any cell is looked at, so the
    cells of an absent column are never observed.  The cells of every other
    column (those the file adds, and the helper columns the checks write)
    are kept per row under the column's name. *)

Module Frame.

Definition date := Z.

(** What [pd.to_datetime(...).date()] gives: a date, or [NaT]. *)
Inductive pydate :=
| NaT
| Day (d : date).

Inductive cell :=
| NaN
| Num (q : Q)
| Str (s : string)
| Flag (b : bool).

Record Row := mkRow {
  location : string;
  age_group : string;
  forecast_date : date;
  target_end_date : date;
  horizon : Z;
  type : string;
  quantile : option Q;       (* [None] is NaN *)
  value : option string;     (* [None] is NaN; [Some s]: [str] gives [s] *)
  others : list (string * cell)
}.

Record DataFrame := mkDF {
  columns : list string;
  rows : list Row
}.

Definition has (df : DataFrame) (name : string) : bool :=
  existsb (String.eqb name) (columns df).

(** Reading the columns [names] in turn: the first one the header lacks
    raises. *)
Fixpoint require (df : DataFrame) (e : string -> exn) (names : list string)
  : res unit :=
  match names with
  | [] => Ret tt
  | n :: names' => if has df n then require df e names' else Raise (e n)
  end.

(** *** Cells of the other columns *)

Fixpoint lookup (name : string) (l : list (string * cell)) : option cell :=
  match l with
  | [] => None
  | (k, c) :: l' => if String.eqb name k then Some c else lookup name l'
  end.

Fixpoint upsert (name : string) (c : cell) (l : list (string * cell))
  : list (string * cell) :=
  match l with
  | [] => [(name, c)]
  | (k, c') :: l' =>
      if String.eqb name k then (k, c) :: l' else (k, c') :: upsert name c l'
  end.

Definition other (name : string) (r : Row) : cell :=
  match lookup name (others r) with
  | Some c => c
  | None => NaN
  end.

Definition set_other (name : string) (c : cell) (r : Row) : Row :=
  mkRow (location r) (age_group r) (forecast_date r) (target_end_date r)
        (horizon r) (type r) (quantile r) (value r)
        (upsert name c (others r)).

Definition add_column (name : string) (cols : list string) : list string :=
  if existsb (String.eqb name) cols then cols else cols ++ [name].

(** [df[name] = df.apply(f, axis = 1)]: the column is written (or
    overwritten) with [f] of each row; a frame without rows gets a column
    without cells. *)
Definition assign (name : string) (f : Row -> cell) (df : DataFrame)
  : DataFrame :=
  mkDF (add_column name (columns df))
       (map (fun r => set_other name (f r) r) (rows df)).

(** [df.loc[mask, name] = s]: the rows of the mask get their cell of [s];
    the others keep theirs, or get NaN when the column is new. *)
Definition assign_where (name : string) (mask : Row -> bool)
  (f : Row -> cell) (df : DataFrame) : DataFrame :=
  mkDF (add_column name (columns df))
       (map (fun r =>
               if mask r then set_other name (f r) r
               else if has df name then r
               else set_other name NaN r)
            (rows df)).

(** *** Series operations *)

(** [Series.unique]: the distinct values in order of first appearance. *)
Fixpoint unique {A} (eqb : A -> A -> bool) (l : list A) : list A :=
  match l with
  | [] => []
  | x :: l' => x :: filter (fun y => negb (eqb x y)) (unique eqb l')
  end.

(** [Series.dropna]. *)
Fixpoint dropna {A} (l : list (option A)) : list A :=
  match l with
  | [] => []
  | Some a :: l' => a :: dropna l'
  | None :: l' => dropna l'
  end.

(** [Series.nunique]: nulls are not counted. *)
Definition nunique {A} (eqb : A -> A -> bool) (l : list (option A)) : nat :=
  List.length (unique eqb (dropna l)).

Definition isnull {A} (c : option A) : bool :=
  match c with None => true | Some _ => false end.

Definition count {A} (p : A -> bool) (l : list A) : nat :=
  List.length (filter p l).

(** Equality of nullable cells as [duplicated], [drop_duplicates] and
    [unique] see them: two nulls are the same value. *)
Definition opt_eqb {A} (eqb : A -> A -> bool) (a b : option A) : bool :=
  match a, b with
  | Some x, Some y => eqb x y
  | None, None => true
  | _, _ => false
  end.

(** [x in l] with the [==] of the cells. *)
Definition mem {A} (eqb : A -> A -> bool) (x : A) (l : list A) : bool :=
  existsb (eqb x) l.

(** *** Sorting, as [sort_values] and the group keys of [groupby] do *)

Section Sort.
Context {A : Type} (leb : A -> A -> bool).

Fixpoint insert (x : A) (l : list A) : list A :=
  match l with
  | [] => [x]
  | y :: l' => if leb x y then x :: l else y :: insert x l'
  end.

(** Stable: of two rows with equal keys the earlier one stays first. *)
Definition sort (l : list A) : list A := fold_right insert [] l.
End Sort.

Definition lex (c1 c2 : comparison) : comparison :=
  match c1 with Eq => c2 | _ => c1 end.

(** Nulls sort last. *)
Definition compare_quantile (a b : option Q) : comparison :=
  match a, b with
  | Some x, Some y => Qcompare x y
  | Some _, None => Lt
  | None, Some _ => Gt
  | None, None => Eq
  end.

Definition not_gt (c : comparison) : bool :=
  match c with Gt => false | _ => true end.

End Frame.
Import Frame.

(** ** Error messages and results of the checks *)

Definition key4 := (string * string * Z * date)%type.

Inductive error :=
| NamingConvention
    (* The file does not follow the naming convention for submissions or
       is located in the wrong directory. *)
| FilenameDateFormat (prefix : string)
    (* Date of filename in wrong format: {prefix}. Should be yyyy-mm-dd. *)
| MultipleForecastDates (vals : list (option string))
    (* The file contains multiple forecast dates: {vals}. ... *)
| ColumnDateFormat (c : option string)
    (* Date in column 'forecast_date' in wrong format: {c}. ... *)
| DateMismatch (file : string) (d : pydate)
    (* Date of filename {file} does not match column 'forecast_date': {d}. *)
| NotMadeToday (d : pydate) (today : date)
    (* The forecast is not made today. Date of the forecast: {d},
       today: {today}. *)
| InvalidEntries (key : string) (vals : list cell)
    (* Invalid entries in column '{key}': {vals} *)
| MissingColumns (cols : list string)
    (* The following columns are missing: {cols}. Please add them. *)
| UnexpectedColumns (cols : list string)
    (* The following columns are not accepted: {cols}. Please remove them. *)
| WrongTargetDates (triples : list (date * date * Z))
    (* The following target_end_dates are wrong: {table of the triples} *)
| MissingValues (n : nat)
    (* Missing values in column 'value' are not allowed. {n} values are
       missing. *)
| NonNumeric (vals : list string)
    (* Non-numeric entries in column 'value' are not allowed: {vals}. *)
| MeanWithQuantile (n : nat)
    (* Rows with type "mean" should have NA in column 'quantile'. This was
       violated {n} time(s). *)
| Duplicated (n : nat) (table : list Row)
    (* Duplicated targets present. Check the following {n} rows. {table} *)
| IncompleteQuantiles (groups : list (key4 * list (option Q)))
    (* Not all quantiles were provided in the following setting(s): {groups} *)
| FatalError (check : string)
    (* Fatal error: {check} could not be completed. *)
| NotValidSubmission
    (* File is not a valid submission. *).

(** What a check returns: nothing, one message or a list of messages. *)
Inductive pyval :=
| PyNone
| PyStr (e : error)
| PyList (l : list error).

(** [if result:] *)
Definition truthy (v : pyval) : bool :=
  match v with
  | PyNone => false
  | PyStr _ => true
  | PyList l => negb (Nat.eqb (List.length l) 0)
  end.

(** [result if isinstance(result, list) else [result]], for a truthy
    result. *)
Definition as_list (v : pyval) : list error :=
  match v with
  | PyNone => []
  | PyStr e => [e]
  | PyList l => l
  end.

(** [if len(errors) > 0: return errors], else falling off the end. *)
Definition return_if_any (errors : list error) : pyval :=
  if (0 <? List.length errors)%nat then PyList errors else PyNone.

(** ** Constants *)

(** [SUBMISSION_PATTERN]:
    [forecasts/submissions.*/(.+)/(.+)/(.+)/\d\d\d\d-\d\d-\d\d-\1-\2-\3.csv] *)
Definition SUBMISSION_PATTERN : regex :=
  lit "forecasts/submissions" ++ [DotStar; Chr "/"; Grp; Chr "/"; Grp;
  Chr "/"; Grp; Chr "/"; Dig; Dig; Dig; Dig; Chr "-"; Dig; Dig; Chr "-";
  Dig; Dig; Chr "-"; Ref 0; Chr "-"; Ref 1; Chr "-"; Ref 2; Dot] ++ lit "csv".

Definition VALID_COLUMNS : list string :=
  ["location"; "age_group"; "forecast_date"; "target_end_date"; "horizon";
   "type"; "quantile"; "value"].

Definition LOCATION_CODES : list string :=
  ["DE"; "DE-BB-BE"; "DE-BW"; "DE-BY"; "DE-HE"; "DE-MV"; "DE-NI-HB";
   "DE-NW"; "DE-RP-SL"; "DE-SH-HH"; "DE-SN"; "DE-ST"; "DE-TH"].

Definition VALID_QUANTILES : list Q :=
  [25 # 1000; 1 # 10; 1 # 4; 1 # 2; 3 # 4; 9 # 10; 975 # 1000]%Q.

Definition VALID_TYPES : list string := ["mean"; "quantile"].

Definition VALID_AGE_GROUPS : list string :=
  ["00+"; "00-04"; "05-14"; "15-34"; "35-59"; "60-79"; "80+"; "60+"].

Definition VALID_HORIZONS : list Z := [-3; -2; -1; 0; 1; 2; 3; 4]%Z.

(** ** The checks on the path and on the parsed table *)

Definition check_filepath (filepath : string) : pyval :=
  if re_match SUBMISSION_PATTERN filepath then PyNone
  else PyStr NamingConvention.

(** A check on the table returns its result, or raises, and leaves the
    shared table in some state. *)
Definition check := DataFrame -> res pyval * DataFrame.

Definition not_in {A} (eqb : A -> A -> bool) (l : list A) (x : A) : bool :=
  negb (mem eqb x l).

Definition report_invalid (kv : string * list cell) : list error :=
  if (0 <? List.length (snd kv))%nat then [InvalidEntries (fst kv) (snd kv)]
  else [].

Definition check_column_values (df : DataFrame) : res pyval * DataFrame :=
  (_ <- require df AttributeError ["location"] ;;
   let invalid_location :=
     filter (not_in String.eqb LOCATION_CODES)
            (unique String.eqb (map location (rows df))) in
   _ <- require df KeyError ["quantile"] ;;
   let invalid_quantile :=
     filter (not_in Qeq_bool VALID_QUANTILES)
            (unique Qeq_bool (dropna (map quantile (rows df)))) in
   _ <- require df AttributeError ["type"] ;;
   let invalid_type :=
     filter (not_in String.eqb VALID_TYPES)
            (unique String.eqb (map type (rows df))) in
   _ <- require df AttributeError ["age_group"] ;;
   let invalid_age_group :=
     filter (not_in String.eqb VALID_AGE_GROUPS)
            (unique String.eqb (map age_group (rows df))) in
   _ <- require df AttributeError ["horizon"] ;;
   let invalid_horizon :=
     filter (not_in Z.eqb VALID_HORIZONS)
            (unique Z.eqb (map horizon (rows df))) in
   let invalid_values :=
     [("location", map Str invalid_location);
      ("quantile", map Num invalid_quantile);
      ("type", map Str invalid_type);
      ("age_group", map Str invalid_age_group);
      ("horizon", map (fun h => Num (inject_Z h)) invalid_horizon)] in
   let errors := flat_map report_invalid invalid_values in
   Ret (return_if_any errors),
   df).

Definition check_header (df : DataFrame) : res pyval * DataFrame :=
  let missing_cols := filter (not_in String.eqb (columns df)) VALID_COLUMNS in
  let additional_cols :=
    filter (not_in String.eqb VALID_COLUMNS) (columns df) in
  let errors := [] in
  let errors :=
    if (0 <? List.length missing_cols)%nat
    then errors ++ [MissingColumns missing_cols] else errors in
  let errors :=
    if (0 <? List.length additional_cols)%nat
    then errors ++ [UnexpectedColumns additional_cols] else errors in
  (Ret (return_if_any errors), df).

(** [x.forecast_date + pd.Timedelta(weeks = x.horizon, days = -4)] *)
Definition expected_target_date (x : Row) : date :=
  (forecast_date x + (7 * horizon x + -4))%Z.

(** The day number of 1 January 1970, from which timestamps count. *)
Definition EPOCH : date := 719163%Z.

(** The whole days that fit a 64-bit count of nanoseconds: 106751.  A
    [pd.Timedelta] holds that many days at most, and a timestamp lies at
    most that many days from 1970. *)
Definition MAX_DAYS : Z := ((2 ^ 63 - 1) / (86400 * 10 ^ 9))%Z.

Definition timedelta_fits (days : Z) : bool := (Z.abs days <=? MAX_DAYS)%Z.

Definition timestamp_fits (d : date) : bool :=
  (Z.abs (d - EPOCH) <=? MAX_DAYS)%Z.

(** The lambda of [check_target_dates] computes on the row: the
    [pd.Timedelta] can be built and added to the forecast date. *)
Definition computes (x : Row) : bool :=
  timedelta_fits (7 * horizon x + -4) &&
  timestamp_fits (expected_target_date x).

(** [x.target_end_date != x.forecast_date + pd.Timedelta(...)] *)
Definition target_flag (x : Row) : cell :=
  Flag (negb (target_end_date x =? expected_target_date x)%Z).

Definition triple := (date * date * Z)%type.

Definition triple_of (x : Row) : triple :=
  (forecast_date x, target_end_date x, horizon x).

Definition triple_eqb (a b : triple) : bool :=
  let '(f1, t1, h1) := a in
  let '(f2, t2, h2) := b in
  (f1 =? f2)%Z && (t1 =? t2)%Z && (h1 =? h2)%Z.

(** A cell used as a boolean mask. *)
Definition mask_of (c : cell) : bool :=
  match c with Flag b => b | _ => false end.

(** On a table without rows [df.apply] never runs the lambda on a row:
    it gives a copy of the table, and the assignment of a table to the one
    column [invalid_target_date] is refused with a [ValueError] unless the
    table has exactly one column.  In that one case the column is written
    and the selection of the three columns raises, since two of them at
    least are not there.  On a table with rows the lambda runs row by
    row: it raises for the first column the header lacks, and for a row
    whose dates leave the range. *)
Definition check_target_dates (df : DataFrame) : res pyval * DataFrame :=
  match rows df with
  | [] =>
      match columns df with
      | [_] =>
          let df := assign "invalid_target_date" target_flag df in
          (Raise (KeyErrorIndex
                    (filter (fun c => negb (has df c))
                            ["forecast_date"; "target_end_date"; "horizon"])),
           df)
      | _ => (Raise ValueError, df)
      end
  | _ :: _ =>
      match require df AttributeError
                    ["target_end_date"; "forecast_date"; "horizon"] with
      | Raise e => (Raise e, df)
      | Ret _ =>
          if negb (forallb computes (rows df)) then (Raise OverflowError, df)
          else
            let df := assign "invalid_target_date" target_flag df in
            let invalid_target_dates :=
              unique triple_eqb
                (map triple_of
                   (filter (fun x => mask_of (other "invalid_target_date" x))
                           (rows df))) in
            if (0 <? List.length invalid_target_dates)%nat
            then (Ret (PyStr (WrongTargetDates invalid_target_dates)), df)
            else (Ret PyNone, df)
      end
  end.

(** [astype(str)] on a cell of the [value] column. *)
Definition astype_str (c : option string) : string :=
  match c with
  | Some s => s
  | None => "nan"
  end.

Definition check_value (df : DataFrame) : res pyval * DataFrame :=
  match require df AttributeError ["value"] with
  | Raise e => (Raise e, df)
  | Ret _ =>
      let errors := [] in
      let n := count isnull (map value (rows df)) in
      let errors :=
        if (0 <? n)%nat then errors ++ [MissingValues n] else errors in
      let non_numeric_values :=
        dropna
          (filter (fun c => negb (isnumeric (remove_char "." (astype_str c))))
                  (map value (rows df))) in
      let errors :=
        if (0 <? List.length non_numeric_values)%nat
        then errors ++ [NonNumeric non_numeric_values] else errors in
      (Ret (return_if_any errors), df)
  end.

Definition check_mean (df : DataFrame) : res pyval * DataFrame :=
  match (_ <- require df AttributeError ["type"] ;;
         require df KeyError ["quantile"]) with
  | Raise e => (Raise e, df)
  | Ret _ =>
      let n :=
        count (fun q => negb (isnull q))
              (map quantile
                   (filter (fun r => String.eqb (type r) "mean") (rows df))) in
      if (0 <? n)%nat then (Ret (PyStr (MeanWithQuantile n)), df)
      else (Ret PyNone, df)
  end.

(** The seven key columns of [check_duplicates]. *)
Definition KEY7 : list string :=
  ["location"; "age_group"; "forecast_date"; "target_end_date"; "horizon";
   "type"; "quantile"].

Definition key7_eqb (a b : Row) : bool :=
  String.eqb (location a) (location b) &&
  String.eqb (age_group a) (age_group b) &&
  (forecast_date a =? forecast_date b)%Z &&
  (target_end_date a =? target_end_date b)%Z &&
  (horizon a =? horizon b)%Z &&
  String.eqb (type a) (type b) &&
  opt_eqb Qeq_bool (quantile a) (quantile b).

Definition key7_compare (a b : Row) : comparison :=
  lex (String.compare (location a) (location b))
 (lex (String.compare (age_group a) (age_group b))
 (lex (forecast_date a ?= forecast_date b)%Z
 (lex (target_end_date a ?= target_end_date b)%Z
 (lex (horizon a ?= horizon b)%Z
 (lex (String.compare (type a) (type b))
      (compare_quantile (quantile a) (quantile b))))))).

Definition key7_leb (a b : Row) : bool := not_gt (key7_compare a b).

(** [df.duplicated(subset = KEY7, keep = False)]: every row whose key
    occurs more than once. *)
Definition duplicated (l : list Row) (r : Row) : bool :=
  (1 <? count (key7_eqb r) l)%nat.

(** On a table with rows [df.duplicated] first looks for the key columns
    and raises one [KeyError] that holds those the header lacks (it
    collects them as a set: the order in which they are listed here, that
    of the keys, is not the code's).  On a table without rows it gives the
    empty mask at once, and it is [sort_values] that raises, for the first
    key column the header lacks. *)
Definition check_duplicates (df : DataFrame) : res pyval * DataFrame :=
  match rows df, filter (fun c => negb (has df c)) KEY7 with
  | _ :: _, c :: missing => (Raise (KeyErrorIndex (c :: missing)), df)
  | [], c :: _ => (Raise (KeyError c), df)
  | _, [] =>
      let df_duplicated := filter (duplicated (rows df)) (rows df) in
      let df_duplicated := sort key7_leb df_duplicated in
      let n := List.length df_duplicated in
      if (0 <? n)%nat then (Ret (PyStr (Duplicated n df_duplicated)), df)
      else (Ret PyNone, df)
  end.

(** The four group keys of [check_quantiles]. *)
Definition KEY4 : list string :=
  ["location"; "age_group"; "horizon"; "target_end_date"].

Definition key4_of (r : Row) : key4 :=
  (location r, age_group r, horizon r, target_end_date r).

Definition key4_eqb (a b : key4) : bool :=
  let '(l1, a1, h1, t1) := a in
  let '(l2, a2, h2, t2) := b in
  String.eqb l1 l2 && String.eqb a1 a2 && (h1 =? h2)%Z && (t1 =? t2)%Z.

Definition key4_compare (a b : key4) : comparison :=
  let '(l1, a1, h1, t1) := a in
  let '(l2, a2, h2, t2) := b in
  lex (String.compare l1 l2)
 (lex (String.compare a1 a2)
 (lex (h1 ?= h2)%Z (t1 ?= t2)%Z)).

Definition key4_leb (a b : key4) : bool := not_gt (key4_compare a b).

Definition same_group (r x : Row) : bool := key4_eqb (key4_of r) (key4_of x).

(** [df.no_quantiles != 7] and [df.no_quantiles.notnull()] on a cell. *)
Definition ne_7 (c : cell) : bool :=
  match c with
  | Num q => negb (Qeq_bool q (7 # 1)%Q)
  | _ => true
  end.

Definition notnull (c : cell) : bool :=
  match c with NaN => false | _ => true end.

(** [... == 0.5] on a cell of the [quantile] column. *)
Definition is_median (q : option Q) : bool :=
  match q with
  | Some x => Qeq_bool x (1 # 2)%Q
  | None => false
  end.

Definition not_mean (r : Row) : bool := negb (String.eqb (type r) "mean").

(** [groupby(KEY4)['quantile'].transform('nunique')] on the rows [sub]:
    for a row, the number of distinct non-null quantiles of its group. *)
Definition transform_nunique (sub : list Row) (r : Row) : nat :=
  nunique Qeq_bool (map quantile (filter (same_group r) sub)).

(** [groupby(KEY4)['quantile'].unique()]: per group, in the order of the
    keys, the quantile cells present. *)
Definition quantiles_by_group (l : list Row)
  : list (key4 * list (option Q)) :=
  map (fun k =>
         (k, unique (opt_eqb Qeq_bool)
                    (map quantile
                         (filter (fun r => key4_eqb k (key4_of r)) l))))
      (sort key4_leb (unique key4_eqb (map key4_of l))).

Definition check_quantiles (df : DataFrame) : res pyval * DataFrame :=
  match (_ <- require df AttributeError ["type"] ;;
         _ <- require df KeyError KEY4 ;;
         require df KeyError ["quantile"]) with
  | Raise e => (Raise e, df)
  | Ret _ =>
      let sub := filter not_mean (rows df) in
      let df :=
        assign_where "no_quantiles" not_mean
          (fun r => Num (inject_Z (Z.of_nat (transform_nunique sub r))))
          df in
      let incomplete_quantiles :=
        filter (fun r => ne_7 (other "no_quantiles" r) &&
                         notnull (other "no_quantiles" r))
               (rows df) in
      let only_mean :=
        forallb (fun r => String.eqb (type r) "mean") (rows df) in
      let only_median :=
        forallb is_median
                (map quantile
                     (filter (fun r => String.eqb (type r) "quantile")
                             (rows df))) in
      if (0 <? List.length incomplete_quantiles)%nat &&
         negb (only_mean || only_median)
      then (Ret (PyStr (IncompleteQuantiles
                          (quantiles_by_group incomplete_quantiles))), df)
      else (Ret PyNone, df)
  end.

(** ** The checks that read the file *)

(** The table as [pd.read_csv(filepath)] gives it, without date parsing:
    per column the cells as read, [None] for an empty cell. *)
Definition RawFrame := list (string * list (option string)).

Fixpoint raw_column (df : RawFrame) (name : string)
  : res (list (option string)) :=
  match df with
  | [] => Raise (AttributeError name)
  | (k, col) :: df' =>
      if String.eqb name k then Ret col else raw_column df' name
  end.

(** [.iloc[0]] *)
Definition iloc0 {A} (col : list A) : res A :=
  match col with
  | [] => Raise IndexError
  | c :: _ => Ret c
  end.

Definition checks : list (string * check) :=
  [("check_header", check_header);
   ("check_column_values", check_column_values);
   ("check_value", check_value);
   ("check_mean", check_mean);
   ("check_duplicates", check_duplicates);
   ("check_target_dates", check_target_dates);
   ("check_quantiles", check_quantiles)].

(** [errors.extend(result if isinstance(result, list) else [result])]
    under [if result:]. *)
Definition extend (errors : list error) (result : pyval) : list error :=
  if truthy result then errors ++ as_list result else errors.

(** One turn of the loop of [check_forecast], with its [try]/[except]. *)
Definition run_check (st : list error * DataFrame) (c : string * check)
  : list error * DataFrame :=
  let '(errors, df) := st in
  match snd c df with
  | (Ret result, df') => (extend errors result, df')
  | (Raise _, df') =>
      (errors ++ [FatalError (fst c)], df')
  end.

Section Validation.

(** What the environment gives: date parsing
    ([pd.to_datetime(s).date()], [None] when it raises), the current
    date in the zone Europe/Berlin, and the two reads of a file. *)
Variable to_date : string -> option pydate.
Variable today : date.
Variable read_csv : string -> res RawFrame.
Variable read_csv_parse_dates : string -> res DataFrame.

(** [pd.to_datetime(c).date()] on a cell: a null cell gives [NaT], and so
    does its [date()], without raising. *)
Definition cell_to_date (c : option string) : option pydate :=
  match c with
  | Some s => to_date s
  | None => Some NaT
  end.

(** [a != b] on what [date()] gives: [NaT] differs from everything. *)
Definition date_differs (a b : pydate) : bool :=
  match a, b with
  | Day x, Day y => negb (x =? y)%Z
  | _, _ => true
  end.

(** [abs(d - today).days > 1] *)
Definition stale (d : pydate) : bool :=
  match d with
  | Day x => (1 <? Z.abs (x - today))%Z
  | NaT => false  (* not reached: [NaT] differs from the date of the column *)
  end.

Definition check_forecast_date (filepath : string) : res pyval :=
  let prefix := take 10 (basename filepath) in
  match to_date prefix with
  | None => Ret (PyStr (FilenameDateFormat prefix))
  | Some file_forecast_date =>
      df <- read_csv filepath ;;
      col <- raw_column df "forecast_date" ;;
      if (1 <? nunique String.eqb col)%nat then
        Ret (PyStr (MultipleForecastDates
                      (unique (opt_eqb String.eqb) col)))
      else
        match (c <- iloc0 col ;; Ret (cell_to_date c)) with
        | Ret (Some column_forecast_date) =>
            if date_differs file_forecast_date column_forecast_date then
              Ret (PyStr (DateMismatch (basename filepath)
                                       column_forecast_date))
            else if negb (contains "retrospective" filepath) &&
                    stale file_forecast_date then
              Ret (PyStr (NotMadeToday file_forecast_date today))
            else Ret PyNone
        | _ =>
            (* the handler reads the first cell again for its message *)
            c <- iloc0 col ;;
            Ret (PyStr (ColumnDateFormat c))
        end
  end.

Definition check_forecast (filepath : string) : res (list error) :=
  let errors := [] in
  let result := check_filepath filepath in
  let errors := extend errors result in
  result <- check_forecast_date filepath ;;
  let errors := extend errors result in
  df <- read_csv_parse_dates filepath ;;
  Ret (fst (fold_left run_check checks (errors, df))).

End Validation.

(** ** [main.py]: which changed files are forecasts *)

Module Main.

(** [pat]: [submissions/.*/(.+)/\d\d\d\d-\d\d-\d\d-.*\1.csv] *)
Definition pat : regex :=
  lit "submissions/" ++ [DotStar; Chr "/"; Grp; Chr "/"; Dig; Dig; Dig; Dig;
  Chr "-"; Dig; Dig; Chr "-"; Dig; Dig; Chr "-"; DotStar; Ref 0; Dot] ++
  lit "csv".

(** A file of the pull request. *)
Record File := mkFile {
  filename : string;
  status : string
}.

Definition File_eqb (a b : File) : bool :=
  String.eqb (filename a) (filename b) && String.eqb (status a) (status b).

Definition forecasts (files_changed : list File) : list File :=
  filter (fun file => re_match pat (filename file)) files_changed.

Definition other_files (files_changed : list File) : list File :=
  filter (fun file => negb (mem File_eqb file (forecasts files_changed)))
         files_changed.

(** [all_errors]: a dict from file name to messages, in insertion order. *)
Definition dict := list (string * list error).

Fixpoint setitem (k : string) (v : list error) (d : dict) : dict :=
  match d with
  | [] => [(k, v)]
  | (k', v') :: d' =>
      if String.eqb k k' then (k', v) :: d' else (k', v') :: setitem k v d'
  end.

Fixpoint getitem (k : string) (d : dict) : option (list error) :=
  match d with
  | [] => None
  | (k', v) :: d' => if String.eqb k k' then Some v else getitem k d'
  end.

(** The loop over [other_files], run on the dict the validation of the
    downloaded forecasts has filled. *)
Definition flag_other_files (files_changed : list File) (all_errors : dict)
  : dict :=
  fold_left (fun d file => setitem (filename file) [NotValidSubmission] d)
            (other_files files_changed) all_errors.

End Main.

(** * Notions of the statements, and example files *)

(** ** Tables of the examples, and what the checks look at *)

(** The rows whose target date is not the expected one. *)
Definition wrong_target (r : Row) : bool :=
  negb (target_end_date r =? forecast_date r + 7 * horizon r - 4)%Z.

(** The dates of a row stay within what pandas can hold: the
    [pd.Timedelta] of [7 * horizon - 4] days is at most 106751 days long,
    and the expected target date lies at most 106751 days from 1 January
    1970 (day 719163). *)
Definition within_range (r : Row) : Prop :=
  (Z.abs (7 * horizon r - 4) <= 106751 /\
   Z.abs (forecast_date r + 7 * horizon r - 4 - 719163) <= 106751)%Z.

(** Two rows of one forecast of 9 November 2023 (day 738833), horizons 1
    and 2, with the right target dates. *)
Definition row_h1 : Row :=
  mkRow "DE" "00+" 738833%Z 738836%Z 1%Z "mean" None (Some "10.5") [].

Definition row_h2 : Row :=
  mkRow "DE" "00+" 738833%Z 738843%Z 2%Z "mean" None (Some "12") [].

Definition df_two_means : DataFrame := mkDF VALID_COLUMNS [row_h1; row_h2].

(** A row of horizon 2 whose target date is one day late, and one of
    horizon 20000, too far for a [pd.Timedelta]. *)
Definition row_one_day_late : Row :=
  mkRow "DE" "00+" 738833%Z 738844%Z 2%Z "mean" None (Some "12") [].

Definition df_one_day_late : DataFrame :=
  mkDF VALID_COLUMNS [row_h1; row_one_day_late; row_one_day_late].

Definition row_far : Row :=
  mkRow "DE" "00+" 738833%Z 738836%Z 20000%Z "mean" None (Some "12") [].

Definition df_far : DataFrame := mkDF VALID_COLUMNS [row_far].

(** The header of the schema and no row. *)
Definition df_header_only : DataFrame := mkDF VALID_COLUMNS [].

(** A header of one column and no row. *)
Definition df_one_column : DataFrame := mkDF ["location"] [].

(** The value rule in the words of the spec: a cell is numeric when it is
    all digits after stripping a single decimal point. *)
Fixpoint strip_one_point (s : string) : string :=
  match s with
  | EmptyString => EmptyString
  | String a s' => if Ascii.eqb a "." then s' else String a (strip_one_point s')
  end.

Definition numeric_after_one_point (s : string) : bool :=
  isnumeric (strip_one_point s).

(** A table with one row whose value cell reads [1.2.3]. *)
Definition row_two_points : Row :=
  mkRow "DE" "00+" 738833%Z 738836%Z 1%Z "mean" None (Some "1.2.3") [].

Definition df_two_points : DataFrame := mkDF VALID_COLUMNS [row_two_points].

(** The rows an outcome of [check_duplicates] reports. *)
Definition reported_rows (out : res pyval) : list Row :=
  match out with
  | Ret (PyStr (Duplicated _ table)) => table
  | _ => []
  end.

Definition df_dup_a : DataFrame := mkDF VALID_COLUMNS [row_h1; row_h2; row_h1].
Definition df_dup_b : DataFrame := mkDF VALID_COLUMNS [row_h1; row_h1; row_h2].

(** The columns [check_quantiles] reads. *)
Definition QUANTILE_COLUMNS : list string := "type" :: KEY4 ++ ["quantile"].

(** A row of an incomplete group: not of type mean, and its group does not
    show exactly 7 distinct quantiles. *)
Definition incomplete (l : list Row) (r : Row) : bool :=
  not_mean r && negb (transform_nunique (filter not_mean l) r =? 7)%nat.

Definition only_mean (l : list Row) : bool :=
  forallb (fun r => String.eqb (type r) "mean") l.

Definition only_median (l : list Row) : bool :=
  forallb is_median
          (map quantile (filter (fun r => String.eqb (type r) "quantile") l)).

(** The rows [check_quantiles] takes as incomplete, on any table: a row
    of type mean counts only through a [no_quantiles] cell the file brought
    along. *)
Definition incomplete_row (df : DataFrame) (r : Row) : bool :=
  if not_mean r
  then negb (transform_nunique (filter not_mean (rows df)) r =? 7)%nat
  else has df "no_quantiles" &&
       (ne_7 (other "no_quantiles" r) && notnull (other "no_quantiles" r)).

Definition quantiles_verdict (df : DataFrame) : pyval :=
  if (0 <? List.length (filter (incomplete_row df) (rows df)))%nat &&
     negb (only_mean (rows df) || only_median (rows df))
  then PyStr (IncompleteQuantiles
                (quantiles_by_group (filter (incomplete_row df) (rows df))))
  else PyNone.

Definition require_quantile_columns (df : DataFrame) : res unit :=
  _ <- require df AttributeError ["type"] ;;
  _ <- require df KeyError KEY4 ;;
  require df KeyError ["quantile"].







(** ** Paths *)

Local Notation "a +++ b" := (String.append a b)
  (at level 60, right associativity).

Fixpoint no_newline (s : string) : bool :=
  match s with
  | EmptyString => true
  | String a s' => dot a && no_newline s'
  end.

(** What the atoms say: [denotes r gs s] when [r] matches a prefix of [s],
    the groups captured before being [gs]. *)
Fixpoint denotes (r : regex) (gs : list string) (s : string) : Prop :=
  match r with
  | [] => True
  | Chr c :: r' => exists s', s = String c s' /\ denotes r' gs s'
  | Dot :: r' =>
      exists a s', s = String a s' /\ dot a = true /\ denotes r' gs s'
  | Dig :: r' =>
      exists a s', s = String a s' /\ is_digit a = true /\ denotes r' gs s'
  | DotStar :: r' =>
      exists w s', s = w +++ s' /\ no_newline w = true /\ denotes r' gs s'
  | Grp :: r' =>
      exists g s', s = g +++ s' /\ g <> EmptyString /\ no_newline g = true /\
                   denotes r' (gs ++ [g]) s'
  | Ref n :: r' =>
      exists g s', nth_error gs n = Some g /\ s = g +++ s' /\ denotes r' gs s'
  end.

(** The shape [dddd-dd-dd]. *)
Definition date_shape (d : string) : bool :=
  match d with
  | String y1 (String y2 (String y3 (String y4 (String h1
      (String m1 (String m2 (String h2 (String d1 (String d2 EmptyString)))))))))
    => is_digit y1 && is_digit y2 && is_digit y3 && is_digit y4 &&
       Ascii.eqb h1 "-" && is_digit m1 && is_digit m2 &&
       Ascii.eqb h2 "-" && is_digit d1 && is_digit d2
  | _ => false
  end.

(** A non-empty run of characters without a newline: what [(.+)] takes. *)
Definition segment (g : string) : Prop :=
  g <> EmptyString /\ no_newline g = true.

Ltac break :=
  repeat match goal with
         | H : exists _, _ |- _ => destruct H
         | H : _ /\ _ |- _ => destruct H
         end.

Fixpoint no_slash (s : string) : bool :=
  match s with
  | EmptyString => true
  | String a s' => negb (Ascii.eqb a "/") && no_slash s'
  end.

(** The grammar in the words of the spec,
    [.../submissions.../<A>/<B>/<C>/YYYY-MM-DD-<A>-<B>-<C>.csv]: three path
    segments, then a file named by a date and the same three segments. *)
Definition submission_grammar (path : string) : Prop :=
  exists before after A B C d,
    path = before +++ "/submissions" +++ after +++ "/" +++ A +++ "/" +++ B +++
           "/" +++ C +++ "/" +++ d +++ "-" +++ A +++ "-" +++ B +++ "-" +++
           C +++ ".csv" /\
    (A <> EmptyString /\ no_slash A = true) /\
    (B <> EmptyString /\ no_slash B = true) /\
    (C <> EmptyString /\ no_slash C = true) /\
    date_shape d = true.

Definition readme : Main.File := Main.mkFile "README.md" "modified".

(** A file that [pat] takes as a forecast and the path matcher rejects,
    under the name it has in the pull request and under the one it is
    downloaded to. *)
Definition loose_forecast : Main.File :=
  Main.mkFile "submissions/x/c/2023-11-09-c.csv" "added".

(** ** The loop of the orchestrator and the steps of the date check *)

(** What each check of [cs] gives when they run in turn on the shared
    table, each on the table as the one before left it. *)
Fixpoint outcomes (cs : list (string * check)) (df : DataFrame)
  : list (string * res pyval) :=
  match cs with
  | [] => []
  | c :: cs' => (fst c, fst (snd c df)) :: outcomes cs' (snd (snd c df))
  end.

(** What an outcome adds to [errors]. *)
Definition contribution (o : string * res pyval) : list error :=
  match snd o with
  | Ret v => if truthy v then as_list v else []
  | Raise _ => [FatalError (fst o)]
  end.

(** The five steps of [check_forecast_date], each with the message of its
    failure. *)
Section Steps.
Variable to_date : string -> option pydate.
Variable today : date.

Definition filename_prefix (filepath : string) : string :=
  take 10 (basename filepath).

Definition filename_date_step (filepath : string) : option error :=
  match to_date (filename_prefix filepath) with
  | None => Some (FilenameDateFormat (filename_prefix filepath))
  | Some _ => None
  end.

Definition unique_date_step (col : list (option string)) : option error :=
  if (1 <? nunique String.eqb col)%nat
  then Some (MultipleForecastDates (unique (opt_eqb String.eqb) col))
  else None.

Definition column_date_step (c : option string) : option error :=
  match cell_to_date to_date c with
  | None => Some (ColumnDateFormat c)
  | Some _ => None
  end.

Definition same_date_step (filepath : string) (c : option string)
  : option error :=
  match to_date (filename_prefix filepath), cell_to_date to_date c with
  | Some f, Some d =>
      if date_differs f d then Some (DateMismatch (basename filepath) d)
      else None
  | _, _ => None
  end.

Definition freshness_step (filepath : string) : option error :=
  match to_date (filename_prefix filepath) with
  | Some f =>
      if contains "retrospective" filepath then None
      else if stale today f then Some (NotMadeToday f today)
           else None
  | None => None
  end.

(** The message of the first step that fails, if one does. *)
Definition first_failure (steps : list (option error)) : pyval :=
  match dropna steps with
  | e :: _ => PyStr e
  | [] => PyNone
  end.
End Steps.

Definition raw_has (df : RawFrame) (name : string) : bool :=
  existsb (fun kc => String.eqb name (fst kc)) df.

Definition quantile_count (df : DataFrame) (r : Row) : cell :=
  Num (inject_Z (Z.of_nat (transform_nunique (filter not_mean (rows df)) r))).

(** The forecast of the two mean rows in a file without the column
    [horizon]. *)
Definition df_no_horizon : DataFrame :=
  mkDF ["location"; "age_group"; "forecast_date"; "target_end_date"; "type";
        "quantile"; "value"]
       [row_h1; row_h2].

(** ** A file system and a calendar for the examples *)

Module Examples.

Definition digit (a : ascii) : Z := (Z.of_nat (nat_of_ascii a) - 48)%Z.

Definition is_leap (y : Z) : bool :=
  ((y mod 4 =? 0) && (negb (y mod 100 =? 0) || (y mod 400 =? 0)))%Z.

Definition days_in_month (y m : Z) : Z :=
  if (m =? 2)%Z then (if is_leap y then 29 else 28)%Z
  else if ((m =? 4) || (m =? 6) || (m =? 9) || (m =? 11))%Z then 30%Z
  else 31%Z.

Definition days_before_month (m : Z) : Z :=
  nth (Z.to_nat (m - 1))
      [0; 31; 59; 90; 120; 151; 181; 212; 243; 273; 304; 334]%Z 0%Z.

(** The day number of a date: 1 is 1 January of the year 1. *)
Definition ordinal (y m d : Z) : Z :=
  (365 * (y - 1) + (y - 1) / 4 - (y - 1) / 100 + (y - 1) / 400 +
   days_before_month m + (if (2 <? m) && is_leap y then 1 else 0) + d)%Z.

(** The dates written [yyyy-mm-dd], a part of what [pd.to_datetime]
    reads. *)
Definition iso_date (s : string) : option pydate :=
  match s with
  | String y1 (String y2 (String y3 (String y4 (String _
      (String m1 (String m2 (String _ (String d1 (String d2 EmptyString)))))))))
    =>
      let y :=
        (1000 * digit y1 + 100 * digit y2 + 10 * digit y3 + digit y4)%Z in
      let m := (10 * digit m1 + digit m2)%Z in
      let d := (10 * digit d1 + digit d2)%Z in
      if date_shape s &&
         ((1 <=? y) && (1 <=? m) && (m <=? 12) && (1 <=? d) &&
          (d <=? days_in_month y m))%Z
      then Some (Day (ordinal y m d))
      else None
  | _ => None
  end.

Definition path : string :=
  "forecasts/submissions/a/b/c/2023-11-09-a-b-c.csv".

(** The forecast of 9 November 2023 with its two mean rows, as the two
    reads give it. *)
Definition raw_two_means : RawFrame :=
  [("location", [Some "DE"; Some "DE"]);
   ("age_group", [Some "00+"; Some "00+"]);
   ("forecast_date", [Some "2023-11-09"; Some "2023-11-09"]);
   ("target_end_date", [Some "2023-11-12"; Some "2023-11-19"]);
   ("horizon", [Some "1"; Some "2"]);
   ("type", [Some "mean"; Some "mean"]);
   ("quantile", [None; None]);
   ("value", [Some "10.5"; Some "12"])].

Definition read_csv (p : string) : res RawFrame :=
  if String.eqb p path then Ret raw_two_means else Raise ParserError.

Definition read_csv_parse_dates (p : string) : res DataFrame :=
  if String.eqb p path then Ret df_two_means else Raise ParserError.

(** The same file under a path that says [retrospective], and a read
    that gives the forecast whatever the path. *)
Definition path_retrospective : string :=
  "forecasts/submissions/retrospective/a/b/c/2023-11-09-a-b-c.csv".

Definition read_any (p : string) : res RawFrame := Ret raw_two_means.

(** A read that gives the forecast without its column [horizon]. *)
Definition read_no_horizon (p : string) : res DataFrame := Ret df_no_horizon.

(** A file with the header and no row, under a name whose date has no
    month 99. *)
Definition path_no_date : string :=
  "forecasts/submissions/a/b/c/2023-99-99-a-b-c.csv".

Definition raw_empty : RawFrame := map (fun c => (c, [])) VALID_COLUMNS.

Definition df_empty : DataFrame := mkDF VALID_COLUMNS [].

Definition read_empty (p : string) : res RawFrame := Ret raw_empty.

Definition read_empty_parse_dates (p : string) : res DataFrame := Ret df_empty.

(** A table without the column [forecast_date]. *)
Definition raw_no_forecast_date : RawFrame :=
  [("location", [Some "DE"]); ("value", [Some "10.5"])].

Definition read_no_forecast_date (p : string) : res RawFrame :=
  Ret raw_no_forecast_date.

End Examples.

(** ** Notions for the further properties *)

(** The messages a check returns; none when it raises. *)
Definition messages (out : res pyval) : list error :=
  match out with
  | Ret v => as_list v
  | Raise _ => []
  end.

Fixpoint string_forall (p : ascii -> bool) (s : string) : bool :=
  match s with
  | EmptyString => true
  | String a s' => p a && string_forall p s'
  end.

Fixpoint string_exists (p : ascii -> bool) (s : string) : bool :=
  match s with
  | EmptyString => false
  | String a s' => p a || string_exists p s'
  end.

(** The characters that count as numeric, by their numbers: 0 to 9 (48 to
    57), the superscripts two, three and one (178, 179, 185) and the
    fractions one quarter, one half and three quarters (188, 189, 190). *)
Definition numeric_char (a : ascii) : bool :=
  let n := nat_of_ascii a in
  ((48 <=? n) && (n <=? 57) || (n =? 178) || (n =? 179) || (n =? 185) ||
   (n =? 188) || (n =? 189) || (n =? 190))%nat.

(** Numeric characters and points only, with a numeric character among
    them. *)
Definition numerics_and_points (s : string) : bool :=
  string_forall (fun a => numeric_char a || Ascii.eqb a ".") s &&
  string_exists numeric_char s.

(** Cells of the [value] column as [astype(str)] shows them: a number, a
    number with an exponent as Python prints a small float, a missing cell
    and the fraction one half. *)
Definition df_values : DataFrame :=
  mkDF VALID_COLUMNS
       [mkRow "DE" "00+" 738833%Z 738836%Z 1%Z "mean" None (Some "10.5") [];
        mkRow "DE" "00+" 738833%Z 738836%Z 1%Z "mean" None (Some "1e-05") [];
        mkRow "DE" "00+" 738833%Z 738836%Z 1%Z "mean" None None [];
        mkRow "DE" "00+" 738833%Z 738836%Z 1%Z "mean" None
              (Some (String (ascii_of_nat 189) EmptyString)) []].

(** A row of type mean that carries a quantile. *)
Definition mean_with_quantile (r : Row) : bool :=
  String.eqb (type r) "mean" && negb (isnull (quantile r)).

(** The cells of the columns [check_column_values] looks at are all in
    their allowed sets; a null quantile is not looked at. *)
Definition valid_cells (r : Row) : Prop :=
  In (location r) LOCATION_CODES /\
  (forall q, quantile r = Some q -> exists v, In v VALID_QUANTILES /\ Qeq q v) /\
  In (type r) VALID_TYPES /\
  In (age_group r) VALID_AGE_GROUPS /\
  (-3 <= horizon r <= 4)%Z.

(** The columns each check of the loop reads, in the order it reads them. *)
Definition COLUMN_VALUES_COLUMNS : list string :=
  ["location"; "quantile"; "type"; "age_group"; "horizon"].

Definition TARGET_DATE_COLUMNS : list string :=
  ["target_end_date"; "forecast_date"; "horizon"].

Definition READS : list (string * list string) :=
  [("check_column_values", COLUMN_VALUES_COLUMNS);
   ("check_value", ["value"]);
   ("check_mean", ["type"; "quantile"]);
   ("check_duplicates", KEY7);
   ("check_target_dates", TARGET_DATE_COLUMNS);
   ("check_quantiles", QUANTILE_COLUMNS)].

(** The five lists [invalid_values] of [check_column_values], in the order
    of the dict. *)
Definition invalid_lists (df : DataFrame) : list (string * list cell) :=
  [("location",
    map Str (filter (not_in String.eqb LOCATION_CODES)
                    (unique String.eqb (map location (rows df)))));
   ("quantile",
    map Num (filter (not_in Qeq_bool VALID_QUANTILES)
                    (unique Qeq_bool (dropna (map quantile (rows df))))));
   ("type",
    map Str (filter (not_in String.eqb VALID_TYPES)
                    (unique String.eqb (map type (rows df)))));
   ("age_group",
    map Str (filter (not_in String.eqb VALID_AGE_GROUPS)
                    (unique String.eqb (map age_group (rows df)))));
   ("horizon",
    map (fun h => Num (inject_Z h))
        (filter (not_in Z.eqb VALID_HORIZONS)
                (unique Z.eqb (map horizon (rows df)))))].


(** A table with a location and a horizon outside their sets. *)
Definition row_abroad : Row :=
  mkRow "FR" "00+" 738833%Z 738878%Z 7%Z "mean" None (Some "10") [].

Definition df_abroad : DataFrame := mkDF VALID_COLUMNS [row_h1; row_abroad].

(** A row of type mean that carries the quantile 0.5, beside a proper mean
    row. *)
Definition row_mean_with_quantile : Row :=
  mkRow "DE" "00+" 738833%Z 738836%Z 1%Z "mean" (Some (1 # 2)%Q) (Some "10") [].

Definition df_mean_with_quantile : DataFrame :=
  mkDF VALID_COLUMNS [row_h1; row_mean_with_quantile].


(** The first of the columns [names] that the header lacks. *)
Definition first_missing (df : DataFrame) (names : list string)
  : option string :=
  find (fun c => negb (has df c)) names.

(** ** [main.py]: labels, the dict of errors and the verdict *)

Module Flow.
Import Main.

(** One turn of the loop over [forecasts] that sets [deleted_forecasts]
    and [changed_forecasts]. *)
Definition status_step (st : bool * bool) (f : File) : bool * bool :=
  let '(deleted_forecasts, changed_forecasts) := st in
  if String.eqb (status f) "removed" then (true, changed_forecasts)
  else if negb (String.eqb (status f) "added") then (deleted_forecasts, true)
  else (deleted_forecasts, changed_forecasts).

Definition status_flags (files_changed : list File) : bool * bool :=
  fold_left status_step (forecasts files_changed) (false, false).

(** The labels the script adds before it validates, in the order it adds
    them. *)
Definition labels_before (files_changed : list File) : list string :=
  (if (0 <? List.length (other_files files_changed))%nat &&
      (0 <? List.length (forecasts files_changed))%nat
   then ["other-files-updated"] else []) ++
  (if (0 <? List.length (forecasts files_changed))%nat
   then ["data-submission"] else []) ++
  (if fst (status_flags files_changed) then ["forecast-deleted"] else []) ++
  (if snd (status_flags files_changed) then ["forecast-updated"] else []).




End Flow.

(** * Properties *)

(** ** Facts about the table operations *)

Section UniqueFacts.
Context {A : Type} (eqb : A -> A -> bool).
Hypothesis eqb_eq : forall x y, eqb x y = true <-> x = y.

Lemma unique_In (l : list A) (x : A) : In x (unique eqb l) <-> In x l.
Proof.
  induction l as [|a l IH]; simpl; [tauto|].
  rewrite filter_In, IH. split.
  - intros [H|[H _]]; auto.
  - intros [H|H]; auto.
    destruct (eqb a x) eqn:E.
    + apply eqb_eq in E. auto.
    + right. split; auto.
Qed.

Lemma unique_NoDup (l : list A) : NoDup (unique eqb l).
Proof.
  induction l as [|a l IH]; simpl; constructor.
  - rewrite filter_In. intros [_ H].
    assert (E : eqb a a = true) by now apply eqb_eq.
    rewrite E in H. discriminate.
  - now apply NoDup_filter.
Qed.
End UniqueFacts.

Lemma lookup_upsert (name : string) (c : cell) (l : list (string * cell)) :
  lookup name (upsert name c l) = Some c.
Proof.
  induction l as [|[k c'] l IH]; simpl.
  - now rewrite String.eqb_refl.
  - destruct (String.eqb name k) eqn:E; simpl; rewrite E; auto.
Qed.

Lemma lookup_upsert_other (name k : string) (c : cell)
  (l : list (string * cell)) :
  String.eqb k name = false -> lookup k (upsert name c l) = lookup k l.
Proof.
  intros Hk. induction l as [|[k' c'] l IH]; simpl.
  - now rewrite Hk.
  - destruct (String.eqb name k') eqn:E; simpl.
    + apply String.eqb_eq in E. subst k'. now rewrite Hk.
    + destruct (String.eqb k k'); auto.
Qed.

Lemma other_set_other (name : string) (c : cell) (r : Row) :
  other name (set_other name c r) = c.
Proof. unfold other, set_other. simpl. now rewrite lookup_upsert. Qed.

Lemma other_set_other_neq (name k : string) (c : cell) (r : Row) :
  String.eqb k name = false -> other k (set_other name c r) = other k r.
Proof.
  intros H. unfold other, set_other. simpl. now rewrite lookup_upsert_other.
Qed.

Lemma filter_map_comm {A B} (f : A -> B) (p : B -> bool) (l : list A) :
  filter p (map f l) = map f (filter (fun a => p (f a)) l).
Proof.
  induction l as [|a l IH]; simpl; auto.
  destruct (p (f a)); simpl; now rewrite IH.
Qed.

Lemma missing_nil (df : DataFrame) (names : list string) :
  forallb (has df) names = true ->
  filter (fun c => negb (has df c)) names = [].
Proof.
  induction names as [|n names IH]; simpl; auto.
  destruct (has df n); simpl; [auto|discriminate].
Qed.

Lemma require_all (df : DataFrame) (e : string -> exn) (names : list string) :
  forallb (has df) names = true -> require df e names = Ret tt.
Proof.
  induction names as [|n names IH]; simpl; intros H; auto.
  apply andb_true_iff in H. destruct H as [H1 H2]. rewrite H1. auto.
Qed.

Lemma triple_eqb_eq (a b : triple) : triple_eqb a b = true <-> a = b.
Proof.
  destruct a as [[f1 t1] h1], b as [[f2 t2] h2]. unfold triple_eqb.
  rewrite !andb_true_iff, !Z.eqb_eq. split.
  - intros [[-> ->] ->]. reflexivity.
  - intros H. inversion H. auto.
Qed.

Lemma length_pos_iff {A} (l : list A) :
  (0 <? List.length l)%nat = true <-> l <> [].
Proof.
  destruct l; simpl; split; intros H; try congruence; auto.
  discriminate.
Qed.

(** ** Target dates *)

Lemma computes_iff (r : Row) : computes r = true <-> within_range r.
Proof.
  unfold computes, within_range, timedelta_fits, timestamp_fits,
    expected_target_date, EPOCH.
  change MAX_DAYS with 106751%Z.
  rewrite andb_true_iff, !Z.leb_le.
  replace (7 * horizon r + -4)%Z with (7 * horizon r - 4)%Z by lia.
  replace (forecast_date r + (7 * horizon r - 4) - 719163)%Z
    with (forecast_date r + 7 * horizon r - 4 - 719163)%Z by lia.
  tauto.
Qed.

Lemma computes_all (l : list Row) :
  forallb computes l = true <-> forall r, In r l -> within_range r.
Proof.
  rewrite forallb_forall. split; intros H r Hr; apply computes_iff; auto.
Qed.

Lemma target_flag_wrong (l : list Row) :
  filter (fun x => mask_of (other "invalid_target_date"
                              (set_other "invalid_target_date"
                                         (target_flag x) x))) l
  = filter wrong_target l.
Proof.
  apply filter_ext. intros a. rewrite other_set_other. simpl.
  unfold wrong_target, expected_target_date.
  replace (forecast_date a + (7 * horizon a + -4))%Z
    with (forecast_date a + 7 * horizon a - 4)%Z by lia.
  reflexivity.
Qed.

(** The table [check_target_dates] returns on: rows, the three columns,
    and every row within range. *)
Lemma check_target_dates_result (df : DataFrame) :
  rows df <> [] ->
  forallb (has df) ["target_end_date"; "forecast_date"; "horizon"] = true ->
  forallb computes (rows df) = true ->
  fst (check_target_dates df) =
  Ret (match unique triple_eqb
               (map triple_of (filter wrong_target (rows df))) with
       | [] => PyNone
       | ts => PyStr (WrongTargetDates ts)
       end).
Proof.
  intros Hrows Hcols Hfit. unfold check_target_dates.
  destruct (rows df) as [|r0 l] eqn:El; [congruence|].
  rewrite (require_all _ _ _ Hcols), Hfit. cbv zeta. cbn [negb].
  unfold assign. cbn [rows]. rewrite El.
  rewrite filter_map_comm, map_map, target_flag_wrong.
  rewrite (map_ext (fun x => triple_of (set_other "invalid_target_date"
                                          (target_flag x) x)) triple_of)
    by reflexivity.
  destruct (unique triple_eqb (map triple_of (filter wrong_target (r0 :: l))));
    reflexivity.
Qed.

(** What [check_target_dates] does on the other tables. *)
Lemma check_target_dates_raises (df : DataFrame) :
  (rows df = [] -> List.length (columns df) <> 1%nat ->
   check_target_dates df = (Raise ValueError, df)) /\
  (rows df = [] -> List.length (columns df) = 1%nat ->
   exists names,
     check_target_dates df
     = (Raise (KeyErrorIndex names),
        assign "invalid_target_date" target_flag df)) /\
  (rows df <> [] ->
   forall col,
     find (fun c => negb (has df c))
          ["target_end_date"; "forecast_date"; "horizon"] = Some col ->
     check_target_dates df = (Raise (AttributeError col), df)) /\
  (rows df <> [] ->
   forallb (has df) ["target_end_date"; "forecast_date"; "horizon"] = true ->
   forallb computes (rows df) = false ->
   check_target_dates df = (Raise OverflowError, df)).
Proof.
  unfold check_target_dates. split; [|split; [|split]].
  - intros Hr Hc. rewrite Hr.
    destruct (columns df) as [|c [|c' cs]]; auto. simpl in Hc. congruence.
  - intros Hr Hc. rewrite Hr.
    destruct (columns df) as [|c [|c' cs]]; try discriminate. eauto.
  - intros Hr col Hf. destruct (rows df) as [|r0 l]; [congruence|].
    simpl in Hf. simpl.
    destruct (has df "target_end_date"); simpl in *; [|congruence].
    destruct (has df "forecast_date"); simpl in *; [|congruence].
    destruct (has df "horizon"); simpl in *; [discriminate|congruence].
  - intros Hr Hcols Hfit. destruct (rows df) as [|r0 l]; [congruence|].
    now rewrite (require_all _ _ _ Hcols), Hfit.
Qed.

Lemma wrong_target_iff (r : Row) :
  wrong_target r = true <->
  target_end_date r <> (forecast_date r + 7 * horizon r - 4)%Z.
Proof.
  unfold wrong_target. rewrite negb_true_iff, Z.eqb_neq. tauto.
Qed.

(** C1, as amended. On a table that has at least one row and the three
    columns, and whose rows stay within the range of pandas' times,
    [check_target_dates] compares each row's [target_end_date] with
    [forecast_date + 7 * horizon - 4] days.  The triples [ts] it collects
    are the triples (forecast_date, target_end_date, horizon) of the rows
    that disagree, without repetition; it returns one error holding [ts]
    exactly when some row disagrees, and nothing otherwise.  A row that is
    off by one day is among the triples, and a table whose rows all agree
    gives no error. *)
Theorem check_target_dates_spec (df : DataFrame)
  (Hrows : rows df <> [])
  (Hcols : forallb (has df) ["target_end_date"; "forecast_date"; "horizon"]
           = true)
  (Hrange : forall r, In r (rows df) -> within_range r) :
  let expected r := (forecast_date r + 7 * horizon r - 4)%Z in
  exists ts : list (date * date * Z),
    NoDup ts /\
    (forall f t h, In (f, t, h) ts <->
       exists r, In r (rows df) /\ target_end_date r <> expected r /\
                 forecast_date r = f /\ target_end_date r = t /\
                 horizon r = h) /\
    fst (check_target_dates df) =
      Ret (match ts with [] => PyNone | _ => PyStr (WrongTargetDates ts) end) /\
    ((exists e, fst (check_target_dates df) = Ret (PyStr e)) <->
     (exists r, In r (rows df) /\ target_end_date r <> expected r)) /\
    (forall r, In r (rows df) ->
       Z.abs (target_end_date r - expected r) = 1%Z ->
       In (forecast_date r, target_end_date r, horizon r) ts /\
       fst (check_target_dates df) = Ret (PyStr (WrongTargetDates ts))) /\
    ((forall r, In r (rows df) -> target_end_date r = expected r) ->
     fst (check_target_dates df) = Ret PyNone).
Proof.
  intros expected.
  pose proof (check_target_dates_result df Hrows Hcols
                (proj2 (computes_all _) Hrange)) as R.
  set (ts := unique triple_eqb (map triple_of (filter wrong_target (rows df))))
    in *.
  assert (Hin : forall f t h, In (f, t, h) ts <->
             exists r, In r (rows df) /\ target_end_date r <> expected r /\
                       forecast_date r = f /\ target_end_date r = t /\
                       horizon r = h).
  { intros f t h. unfold ts. rewrite (unique_In _ triple_eqb_eq), in_map_iff.
    split.
    - intros [r [Ht Hr]]. apply filter_In in Hr. destruct Hr as [Hr Hw].
      apply wrong_target_iff in Hw. unfold triple_of in Ht.
      inversion Ht. subst. exists r. auto.
    - intros [r [Hr [Hw [<- [<- <-]]]]]. exists r. split; auto.
      apply filter_In. split; auto. now apply wrong_target_iff. }
  assert (Hne : ts <> [] <->
             exists r, In r (rows df) /\ target_end_date r <> expected r).
  { split.
    - intros Hts. destruct ts as [|[[f t] h] ts'] eqn:E; [congruence|].
      destruct (proj1 (Hin f t h) (or_introl eq_refl)) as [r [Hr [Hw _]]].
      eauto.
    - intros [r [Hr Hw]] Hts.
      assert (Ht : In (forecast_date r, target_end_date r, horizon r) ts).
      { apply Hin. exists r. auto. }
      rewrite Hts in Ht. destruct Ht. }
  assert (Hnd : NoDup ts) by apply (unique_NoDup _ triple_eqb_eq).
  clearbody ts.
  exists ts. split; [exact Hnd|]. split; [exact Hin|].
  split; [rewrite R; destruct ts; reflexivity|]. split; [|split].
  - split.
    + intros [e He]. apply Hne. rewrite R in He.
      destruct ts; [discriminate|congruence].
    + intros H. apply Hne in H. rewrite R.
      destruct ts; [congruence|eauto].
  - intros r Hr Hd.
    assert (Hw : target_end_date r <> expected r) by lia.
    split.
    + apply Hin. exists r. auto.
    + rewrite R.
      assert (Hts : ts <> []) by (apply Hne; eauto).
      destruct ts; [congruence|reflexivity].
  - intros Hall. rewrite R.
    destruct ts as [|t ts'] eqn:E; [reflexivity|].
    assert (Hts : t :: ts' <> []) by discriminate.
    apply Hne in Hts. destruct Hts as [r [Hr Hw]].
    elim Hw. now apply Hall.
Qed.

(** On the table with the row that is one day late, twice: its triple is
    reported. *)
Lemma check_target_dates_spec_witness :
  exists ts,
    NoDup ts /\ In (738833, 738844, 2)%Z ts /\
    fst (check_target_dates df_one_day_late)
    = Ret (PyStr (WrongTargetDates ts)).
Proof.
  assert (Hrange : forall r, In r (rows df_one_day_late) -> within_range r).
  { intros r [<-|[<-|[<-|[]]]]; unfold within_range; simpl; lia. }
  destruct (check_target_dates_spec df_one_day_late ltac:(discriminate)
              eq_refl Hrange) as [ts [Hnd [_ [_ [_ [H _]]]]]].
  exists ts. split; [exact Hnd|].
  apply (H row_one_day_late).
  - simpl. auto.
  - reflexivity.
Defined.

(** The claim as stated fails on the header without rows, where no row
    disagrees and the check raises, which the loop of [check_forecast]
    reports; and on a horizon too far for a [pd.Timedelta], where the row
    disagrees and the check raises as well. *)
Lemma check_target_dates_outside :
  (forall r, In r (rows df_header_only) ->
             target_end_date r = (forecast_date r + 7 * horizon r - 4)%Z) /\
  fst (check_target_dates df_header_only) = Raise ValueError /\
  contribution ("check_target_dates", fst (check_target_dates df_header_only))
  = [FatalError "check_target_dates"] /\
  (exists r, In r (rows df_far) /\
             target_end_date r <> (forecast_date r + 7 * horizon r - 4)%Z) /\
  fst (check_target_dates df_far) = Raise OverflowError.
Proof.
  split; [intros r []|]. split; [reflexivity|]. split; [reflexivity|].
  split; [|reflexivity].
  exists row_far. split; [left; reflexivity|]. discriminate.
Qed.

(** ** The value column *)

(** The two parts of [check_value] are independent: the count of nulls,
    and the non-null cells that are not digits once every point is gone. *)
Lemma check_value_result (df : DataFrame) :
  has df "value" = true ->
  let n := count isnull (map value (rows df)) in
  let bad :=
    filter (fun s => negb (isnumeric (remove_char "." s)))
           (dropna (map value (rows df))) in
  fst (check_value df) =
  Ret (return_if_any
         ((if (0 <? n)%nat then [MissingValues n] else []) ++
          (if (0 <? List.length bad)%nat then [NonNumeric bad] else []))).
Proof.
  intros Hv n bad. unfold check_value. simpl require. rewrite Hv.
  cbv zeta. fold n.
  assert (E : dropna (filter
                (fun c => negb (isnumeric (remove_char "." (astype_str c))))
                (map value (rows df))) = bad).
  { unfold bad. induction (map value (rows df)) as [|[s|] l IH]; simpl; auto.
    destruct (negb (isnumeric (remove_char "." s))); simpl; now rewrite IH. }
  rewrite E.
  destruct (0 <? n)%nat, (0 <? List.length bad)%nat; reflexivity.
Qed.

(** C3. The cell [1.2.3] is not numeric after stripping a single decimal
    point, yet [check_value] removes every point before it tests for
    digits, and reports nothing for a table holding that cell. *)
Theorem check_value_two_points :
  numeric_after_one_point "1.2.3" = false /\
  isnumeric (remove_char "." "1.2.3") = true /\
  fst (check_value df_two_points) = Ret PyNone.
Proof. repeat split. Qed.

(** ** Duplicates *)

Section SortFacts.
Context {A : Type} (leb : A -> A -> bool).

Lemma insert_perm (x : A) (l : list A) : Permutation (insert leb x l) (x :: l).
Proof.
  induction l as [|y l IH]; simpl; auto.
  destruct (leb x y); auto.
  rewrite IH. apply perm_swap.
Qed.

Lemma sort_perm (l : list A) : Permutation (sort leb l) l.
Proof.
  induction l as [|x l IH]; simpl; auto.
  unfold sort in *. simpl. rewrite insert_perm. now constructor.
Qed.
End SortFacts.

Lemma filter_perm {A} (p : A -> bool) (l l' : list A) :
  Permutation l l' -> Permutation (filter p l) (filter p l').
Proof.
  induction 1; simpl; auto.
  - destruct (p x); auto.
  - destruct (p x), (p y); auto. apply perm_swap.
  - etransitivity; eauto.
Qed.

Lemma count_perm {A} (p : A -> bool) (l l' : list A) :
  Permutation l l' -> count p l = count p l'.
Proof.
  intros H. unfold count. apply Permutation_length. now apply filter_perm.
Qed.

Lemma count_app {A} (p : A -> bool) (l1 l2 : list A) :
  count p (l1 ++ l2) = (count p l1 + count p l2)%nat.
Proof. unfold count. now rewrite filter_app, length_app. Qed.

Lemma count_pos {A} (p : A -> bool) (l : list A) :
  (0 < count p l)%nat <-> exists j x, nth_error l j = Some x /\ p x = true.
Proof.
  unfold count. split.
  - intros H. destruct (filter p l) as [|x t] eqn:E; [simpl in H; lia|].
    assert (Hx : In x (filter p l)) by (rewrite E; now left).
    apply filter_In in Hx. destruct Hx as [Hx Hp].
    apply In_nth_error in Hx. destruct Hx as [j Hj]. eauto.
  - intros [j [x [Hj Hp]]]. apply nth_error_In in Hj.
    assert (Hx : In x (filter p l)) by (apply filter_In; auto).
    destruct (filter p l); [destruct Hx|simpl; lia].
Qed.

Lemma nth_error_lt {A} (l : list A) (j : nat) (x : A) :
  nth_error l j = Some x -> (j < List.length l)%nat.
Proof. intros H. apply nth_error_Some. congruence. Qed.

Lemma Qeq_bool_refl (q : Q) : Qeq_bool q q = true.
Proof. apply Qeq_bool_iff. reflexivity. Qed.

Lemma key7_eqb_refl (r : Row) : key7_eqb r r = true.
Proof.
  unfold key7_eqb. rewrite !String.eqb_refl, !Z.eqb_refl. simpl.
  destruct (quantile r); simpl; auto using Qeq_bool_refl.
Qed.

(** A row at position [i] is marked by [duplicated] exactly when another
    position holds a row with the same key. *)
Lemma duplicated_iff (l : list Row) (i : nat) (r : Row) :
  nth_error l i = Some r ->
  (duplicated l r = true <->
   exists j r', j <> i /\ nth_error l j = Some r' /\ key7_eqb r r' = true).
Proof.
  intros Hi. unfold duplicated. rewrite Nat.ltb_lt.
  destruct (nth_error_split l i Hi) as [l1 [l2 [-> Hlen]]].
  rewrite count_app. unfold count at 2. simpl filter.
  rewrite key7_eqb_refl. simpl List.length.
  fold (count (key7_eqb r) l2).
  split.
  - intros H.
    assert (H' : (0 < count (key7_eqb r) l1)%nat \/
                 (0 < count (key7_eqb r) l2)%nat) by lia.
    destruct H' as [H'|H']; apply count_pos in H';
      destruct H' as [j [x [Hj Hp]]].
    + exists j, x. repeat split; auto.
      * apply nth_error_lt in Hj. lia.
      * rewrite nth_error_app1; auto. now apply nth_error_lt in Hj.
    + exists (S (List.length l1 + j))%nat, x. repeat split; auto.
      * lia.
      * rewrite nth_error_app2 by lia.
        replace (S (List.length l1 + j) - List.length l1)%nat with (S j) by lia.
        exact Hj.
  - intros [j [r' [Hne [Hj Hk]]]].
    destruct (Nat.lt_ge_cases j (List.length l1)) as [Hlt|Hge].
    + rewrite nth_error_app1 in Hj by auto.
      assert (0 < count (key7_eqb r) l1)%nat by (apply count_pos; eauto). lia.
    + rewrite nth_error_app2 in Hj by auto.
      destruct (j - List.length l1)%nat as [|k] eqn:Ek; [lia|].
      simpl in Hj.
      assert (0 < count (key7_eqb r) l2)%nat by (apply count_pos; eauto). lia.
Qed.

Lemma check_duplicates_result (df : DataFrame) :
  forallb (has df) KEY7 = true ->
  let dup := sort key7_leb (filter (duplicated (rows df)) (rows df)) in
  fst (check_duplicates df) =
  Ret (match dup with
       | [] => PyNone
       | _ => PyStr (Duplicated (List.length dup) dup)
       end).
Proof.
  intros Hcols dup. unfold check_duplicates.
  rewrite (missing_nil _ _ Hcols). cbv zeta. fold dup.
  destruct (rows df); destruct dup; reflexivity.
Qed.

Lemma opt_Qeq_iff (a b : option Q) :
  opt_eqb Qeq_bool a b = true <->
  match a, b with
  | Some q, Some q' => Qeq q q'
  | None, None => True
  | _, _ => False
  end.
Proof.
  destruct a as [q|], b as [q'|]; simpl; try tauto.
  - apply Qeq_bool_iff.
  - split; [discriminate|tauto].
  - split; [discriminate|tauto].
Qed.

Lemma key7_eqb_iff (r r' : Row) :
  key7_eqb r r' = true <->
  location r = location r' /\ age_group r = age_group r' /\
  forecast_date r = forecast_date r' /\
  target_end_date r = target_end_date r' /\
  horizon r = horizon r' /\ type r = type r' /\
  match quantile r, quantile r' with
  | Some q, Some q' => Qeq q q'
  | None, None => True
  | _, _ => False
  end.
Proof.
  unfold key7_eqb.
  rewrite !andb_true_iff, !String.eqb_eq, !Z.eqb_eq, opt_Qeq_iff. tauto.
Qed.

Lemma reported_rows_perm (df : DataFrame) :
  forallb (has df) KEY7 = true ->
  Permutation (reported_rows (fst (check_duplicates df)))
              (filter (duplicated (rows df)) (rows df)).
Proof.
  intros Hcols. rewrite (check_duplicates_result df Hcols).
  cbv zeta.
  pose proof (sort_perm key7_leb (filter (duplicated (rows df)) (rows df)))
    as P.
  destruct (sort key7_leb (filter (duplicated (rows df)) (rows df))); exact P.
Qed.

(** C8. On tables that have the seven key columns, a row is among those
    [check_duplicates] reports exactly when another position of the table
    holds a row that agrees with it on location, age_group, forecast_date,
    target_end_date, horizon, type and quantile (two null quantiles
    agree); and for a table with the same rows in another order the
    reported rows are the same, each as many times. *)
Theorem check_duplicates_permutation (df df' : DataFrame)
  (Hcols : forallb (has df) KEY7 = true)
  (Hcols' : forallb (has df') KEY7 = true)
  (Hperm : Permutation (rows df) (rows df')) :
  let agree (r r' : Row) :=
    location r = location r' /\ age_group r = age_group r' /\
    forecast_date r = forecast_date r' /\
    target_end_date r = target_end_date r' /\
    horizon r = horizon r' /\ type r = type r' /\
    match quantile r, quantile r' with
    | Some q, Some q' => Qeq q q'
    | None, None => True
    | _, _ => False
    end in
  (forall r, In r (reported_rows (fst (check_duplicates df))) <->
     exists i j r', i <> j /\ nth_error (rows df) i = Some r /\
                    nth_error (rows df) j = Some r' /\ agree r r') /\
  Permutation (reported_rows (fst (check_duplicates df)))
              (reported_rows (fst (check_duplicates df'))) /\
  (forall r, In r (reported_rows (fst (check_duplicates df))) <->
             In r (reported_rows (fst (check_duplicates df')))).
Proof.
  intros agree.
  assert (P : Permutation (reported_rows (fst (check_duplicates df)))
                          (reported_rows (fst (check_duplicates df')))).
  { rewrite (reported_rows_perm df Hcols), (reported_rows_perm df' Hcols').
    rewrite (filter_ext (duplicated (rows df)) (duplicated (rows df'))).
    - now apply filter_perm.
    - intros r. unfold duplicated. now rewrite (count_perm _ _ _ Hperm). }
  repeat split.
  - intros Hr.
    apply (Permutation_in _ (reported_rows_perm df Hcols)) in Hr.
    apply filter_In in Hr. destruct Hr as [Hr Hd].
    apply In_nth_error in Hr. destruct Hr as [i Hi].
    apply (duplicated_iff _ _ _ Hi) in Hd.
    destruct Hd as [j [r' [Hne [Hj Hk]]]].
    exists i, j, r'. apply key7_eqb_iff in Hk. auto.
  - intros [i [j [r' [Hne [Hi [Hj Hk]]]]]].
    apply (Permutation_in _ (Permutation_sym (reported_rows_perm df Hcols))).
    apply filter_In. split.
    + eapply nth_error_In; eauto.
    + apply (duplicated_iff _ _ _ Hi). exists j, r'.
      apply key7_eqb_iff in Hk. auto.
  - exact P.
  - apply Permutation_in. exact P.
  - apply Permutation_in. now apply Permutation_sym.
Qed.

(** The row that occurs twice is reported, in either order of the
    rows. *)
Lemma check_duplicates_permutation_witness :
  In row_h1 (reported_rows (fst (check_duplicates df_dup_a))) /\
  In row_h1 (reported_rows (fst (check_duplicates df_dup_b))).
Proof.
  assert (P : Permutation (rows df_dup_a) (rows df_dup_b))
    by (apply perm_skip; apply perm_swap).
  destruct (check_duplicates_permutation df_dup_a df_dup_b eq_refl eq_refl P)
    as [H1 [_ H3]].
  assert (Ha : In row_h1 (reported_rows (fst (check_duplicates df_dup_a)))).
  { apply H1. exists 0%nat, 2%nat, row_h1.
    repeat split; try reflexivity. discriminate. }
  split; [exact Ha|]. apply H3. exact Ha.
Defined.

(** ** Quantile completeness *)

Lemma unique_incl {A} (eqb : A -> A -> bool) (l : list A) (x : A) :
  In x (unique eqb l) -> In x l.
Proof.
  induction l as [|a l IH]; simpl; auto.
  rewrite filter_In. intros [H|[H _]]; auto.
Qed.

(** A value that is already there adds nothing to [unique]. *)
Lemma unique_snoc {A} (eqb : A -> A -> bool) (l : list A) (q : A) :
  unique eqb (l ++ [q]) =
  unique eqb l ++ (if existsb (fun y => eqb y q) l then [] else [q]).
Proof.
  induction l as [|x l IH]; simpl; auto.
  rewrite IH, filter_app. f_equal. f_equal.
  destruct (existsb (fun y => eqb y q) l); simpl.
  - now rewrite orb_true_r.
  - rewrite orb_false_r. now destruct (eqb x q).
Qed.

Lemma dropna_app {A} (l1 l2 : list (option A)) :
  dropna (l1 ++ l2) = dropna l1 ++ dropna l2.
Proof.
  induction l1 as [|[a|] l1 IH]; simpl; auto. now rewrite IH.
Qed.

Lemma dropna_In {A} (l : list (option A)) (a : A) :
  In a (dropna l) <-> In (Some a) l.
Proof.
  induction l as [|[b|] l IH]; simpl; [tauto| |].
  - rewrite IH. split; intros [H|H]; auto; left; congruence.
  - rewrite IH. split; auto. intros [H|H]; auto. discriminate.
Qed.

Lemma nunique_snoc_present (l : list (option Q)) (c : option Q) :
  In c l -> nunique Qeq_bool (l ++ [c]) = nunique Qeq_bool l.
Proof.
  intros Hc. unfold nunique. rewrite dropna_app.
  destruct c as [q|]; simpl; [|now rewrite app_nil_r].
  rewrite unique_snoc.
  assert (E : existsb (fun y => Qeq_bool y q) (dropna l) = true).
  { apply existsb_exists. exists q. split.
    - now apply dropna_In.
    - apply Qeq_bool_refl. }
  rewrite E. now rewrite app_nil_r.
Qed.


(** Duplicating a row of the table leaves every group's count of distinct
    quantiles as it was. *)
Lemma transform_nunique_duplicate (l : list Row) (r x : Row) :
  In r l ->
  transform_nunique (filter not_mean (l ++ [r])) x =
  transform_nunique (filter not_mean l) x.
Proof.
  intros Hr. unfold transform_nunique.
  rewrite filter_app, filter_app, map_app. simpl.
  destruct (not_mean r) eqn:Em; simpl; [|now rewrite app_nil_r].
  destruct (same_group x r) eqn:Eg; simpl; [|now rewrite app_nil_r].
  apply nunique_snoc_present. apply in_map.
  apply filter_In. split; auto. apply filter_In. auto.
Qed.

Lemma count_as_cell (n : nat) :
  ne_7 (Num (inject_Z (Z.of_nat n))) = negb (n =? 7)%nat.
Proof.
  unfold ne_7, Qeq_bool, inject_Z. simpl Qnum. simpl Qden. f_equal.
  destruct (n =? 7)%nat eqn:E.
  - apply Nat.eqb_eq in E. subst n. reflexivity.
  - apply Nat.eqb_neq in E. apply Z.eqb_neq. lia.
Qed.



Lemma quantiles_by_group_map (g : Row -> Row) (l : list Row) :
  (forall r, key4_of (g r) = key4_of r) ->
  (forall r, quantile (g r) = quantile r) ->
  quantiles_by_group (map g l) = quantiles_by_group l.
Proof.
  intros Hk Hq. unfold quantiles_by_group.
  rewrite map_map. rewrite (map_ext _ key4_of) by apply Hk.
  apply map_ext. intros k. f_equal. f_equal.
  rewrite filter_map_comm, map_map.
  rewrite (map_ext _ quantile) by apply Hq.
  f_equal. apply filter_ext. intros r. now rewrite Hk.
Qed.

Lemma forallb_map_comm {A B} (f : A -> B) (p : B -> bool) (l : list A) :
  forallb p (map f l) = forallb (fun a => p (f a)) l.
Proof. induction l as [|a l IH]; simpl; auto. now rewrite IH. Qed.

Lemma forallb_pointwise {A} (p q : A -> bool) (l : list A) :
  (forall a, p a = q a) -> forallb p l = forallb q l.
Proof. intros H. induction l as [|a l IH]; simpl; auto. now rewrite H, IH. Qed.

Lemma check_quantiles_outcome (df : DataFrame) :
  fst (check_quantiles df) =
  (_ <- require_quantile_columns df ;; Ret (quantiles_verdict df)).
Proof.
  unfold check_quantiles. fold (require_quantile_columns df).
  destruct (require_quantile_columns df) as [[]|e]; [|reflexivity].
  cbv zeta. unfold assign_where, quantiles_verdict. cbn [rows bind].
  set (sub := filter not_mean (rows df)).
  set (g := fun r : Row =>
              if not_mean r
              then set_other "no_quantiles"
                     (Num (inject_Z (Z.of_nat (transform_nunique sub r)))) r
              else if has df "no_quantiles" then r
                   else set_other "no_quantiles" NaN r).
  rewrite filter_map_comm.
  rewrite (filter_ext _ (incomplete_row df)).
  2:{ intros r. unfold g, incomplete_row. fold sub.
      destruct (not_mean r).
      - rewrite other_set_other, count_as_cell. cbn [notnull andb].
        apply andb_true_r.
      - destruct (has df "no_quantiles"); [reflexivity|].
        now rewrite other_set_other. }
  rewrite length_map.
  rewrite quantiles_by_group_map.
  2:{ intros r. unfold g.
      destruct (not_mean r), (has df "no_quantiles"); reflexivity. }
  2:{ intros r. unfold g.
      destruct (not_mean r), (has df "no_quantiles"); reflexivity. }
  assert (Em : forallb (fun r => String.eqb (type r) "mean") (map g (rows df))
               = only_mean (rows df)).
  { unfold only_mean. rewrite forallb_map_comm. apply forallb_pointwise.
    intros r. unfold g.
    destruct (not_mean r), (has df "no_quantiles"); reflexivity. }
  assert (Eq : forallb is_median (map quantile
                 (filter (fun r => String.eqb (type r) "quantile")
                         (map g (rows df))))
               = only_median (rows df)).
  { unfold only_median. rewrite filter_map_comm, map_map. f_equal.
    rewrite (map_ext _ quantile).
    - f_equal. apply filter_ext. intros r. unfold g.
      destruct (not_mean r), (has df "no_quantiles"); reflexivity.
    - intros r. unfold g.
      destruct (not_mean r), (has df "no_quantiles"); reflexivity. }
  rewrite Em, Eq.
  destruct ((0 <? List.length (filter (incomplete_row df) (rows df)))%nat &&
            negb (only_mean (rows df) || only_median (rows df))); reflexivity.
Qed.

Lemma require_quantile_columns_ok (df : DataFrame) :
  forallb (has df) QUANTILE_COLUMNS = true ->
  require_quantile_columns df = Ret tt.
Proof.
  intros Hcols. unfold QUANTILE_COLUMNS in Hcols. simpl in Hcols.
  repeat (apply andb_true_iff in Hcols; destruct Hcols as [? Hcols]).
  unfold require_quantile_columns. simpl.
  repeat match goal with
         | H : has df _ = true |- _ => rewrite H; clear H
         end.
  reflexivity.
Qed.

Lemma check_quantiles_result (df : DataFrame) :
  forallb (has df) QUANTILE_COLUMNS = true ->
  has df "no_quantiles" = false ->
  fst (check_quantiles df) =
  Ret (if (0 <? List.length (filter (incomplete (rows df)) (rows df)))%nat &&
          negb (only_mean (rows df) || only_median (rows df))
       then PyStr (IncompleteQuantiles
                     (quantiles_by_group
                        (filter (incomplete (rows df)) (rows df))))
       else PyNone).
Proof.
  intros Hcols Hfresh.
  rewrite check_quantiles_outcome, (require_quantile_columns_ok df Hcols).
  cbn [bind]. unfold quantiles_verdict.
  rewrite (filter_ext (incomplete_row df) (incomplete (rows df))).
  - reflexivity.
  - intros r. unfold incomplete_row, incomplete. rewrite Hfresh.
    now destruct (not_mean r).
Qed.


Lemma incomplete_iff (l : list Row) (r : Row) :
  incomplete l r = true <->
  type r <> "mean" /\ transform_nunique (filter not_mean l) r <> 7%nat.
Proof.
  unfold incomplete, not_mean.
  rewrite andb_true_iff, !negb_true_iff, String.eqb_neq, Nat.eqb_neq. tauto.
Qed.




Lemma some_incomplete_iff (l : list Row) :
  (0 <? List.length (filter (incomplete l) l))%nat = true <->
  exists r, In r l /\ type r <> "mean" /\
            transform_nunique (filter not_mean l) r <> 7%nat.
Proof.
  rewrite length_pos_iff. split.
  - intros H. destruct (filter (incomplete l) l) as [|r t] eqn:E; [congruence|].
    assert (Hr : In r (filter (incomplete l) l)) by (rewrite E; now left).
    apply filter_In in Hr. destruct Hr as [Hr Hi].
    apply incomplete_iff in Hi. exists r. tauto.
  - intros [r [Hr Hi]] E.
    assert (Hf : In r (filter (incomplete l) l)).
    { apply filter_In. split; auto. now apply incomplete_iff. }
    rewrite E in Hf. destruct Hf.
Qed.

Section UniqueUpTo.
Context {A : Type} (eqb : A -> A -> bool).
Hypothesis eqb_refl : forall x, eqb x x = true.
Hypothesis eqb_trans :
  forall x y z, eqb x y = true -> eqb y z = true -> eqb x z = true.

(** Every value of a column has a representative among its distinct
    values. *)
Lemma unique_repr (l : list A) (x : A) :
  In x l -> exists y, In y (unique eqb l) /\ eqb y x = true.
Proof.
  induction l as [|a l IH]; simpl; [tauto|].
  intros [->|Hx].
  - exists x. auto.
  - destruct (IH Hx) as [y [Hy E]].
    destruct (eqb a y) eqn:Ea.
    + exists a. split; auto. eapply eqb_trans; eauto.
    + exists y. split; auto. right. apply filter_In. split; auto.
      now rewrite Ea.
Qed.
End UniqueUpTo.

Lemma Qeq_bool_trans (x y z : Q) :
  Qeq_bool x y = true -> Qeq_bool y z = true -> Qeq_bool x z = true.
Proof.
  rewrite !Qeq_bool_iff. intros H1 H2. now rewrite H1.
Qed.













(** ** Patterns and what they denote *)

Module ReFacts.

Lemma append_assoc (a b c : string) : (a +++ b) +++ c = a +++ (b +++ c).
Proof. induction a as [|x a IH]; simpl; auto. now rewrite IH. Qed.

Lemma strip_prefix_iff (g s s' : string) :
  strip_prefix g s = Some s' <-> s = g +++ s'.
Proof.
  revert s. induction g as [|a g IH]; intros s; simpl.
  - split; congruence.
  - destruct s as [|b s]; [split; discriminate|].
    destruct (Ascii.eqb a b) eqn:E.
    + apply Ascii.eqb_eq in E. subst b. rewrite IH. split; congruence.
    + apply Ascii.eqb_neq in E. split; [discriminate|]. congruence.
Qed.

(** The backtracking matcher finds a match exactly when there is one. *)
Lemma matches_denotes (r : regex) :
  forall gs s, matches r gs s = true <-> denotes r gs s.
Proof.
  induction r as [|a r IH]; intros gs s; [simpl; tauto|].
  destruct a; simpl.
  - destruct s as [|b s].
    + split; [discriminate|]. intros [s' [E _]]. discriminate.
    + rewrite andb_true_iff, Ascii.eqb_eq, IH. split.
      * intros [-> H]. eauto.
      * intros [s' [E H]]. inversion E. subst. auto.
  - destruct s as [|b s].
    + split; [discriminate|]. intros [b [s' [E _]]]. discriminate.
    + rewrite andb_true_iff, IH. split.
      * intros [Hd H]. eauto.
      * intros [b' [s' [E [Hd H]]]]. inversion E. subst. auto.
  - destruct s as [|b s].
    + split; [discriminate|]. intros [b [s' [E _]]]. discriminate.
    + rewrite andb_true_iff, IH. split.
      * intros [Hd H]. eauto.
      * intros [b' [s' [E [Hd H]]]]. inversion E. subst. auto.
  - induction s as [|b s IHs].
    + rewrite IH. split.
      * intros H. exists EmptyString, EmptyString. auto.
      * intros [w [s' [E [_ H]]]]. destruct w; [|discriminate].
        simpl in E. now subst s'.
    + rewrite orb_true_iff, andb_true_iff, IHs, IH. split.
      * intros [[Hd [w [s' [E [Hw H]]]]]|H].
        -- exists (String b w), s'. simpl. rewrite Hd, Hw. subst s. auto.
        -- exists EmptyString, (String b s). auto.
      * intros [w [s' [E [Hw H]]]]. destruct w as [|c w].
        -- simpl in E. subst s'. auto.
        -- simpl in E, Hw. inversion E. subst c s.
           apply andb_true_iff in Hw. destruct Hw as [Hd Hw].
           left. split; auto. eauto.
  - assert (G : forall g0,
      (fix plus (g s0 : string) {struct s0} : bool :=
         match s0 with
         | EmptyString => false
         | String a s' =>
             dot a &&
             (plus (g +++ String a EmptyString) s' ||
              matches r (gs ++ [g +++ String a EmptyString]) s')
         end) g0 s = true <->
      exists h s', s = h +++ s' /\ h <> EmptyString /\ no_newline h = true /\
                   denotes r (gs ++ [g0 +++ h]) s').
    { induction s as [|b s IHs]; intros g0.
      - split; [discriminate|]. intros [h [s' [E [Hh _]]]].
        destruct h; [congruence|discriminate].
      - rewrite andb_true_iff, orb_true_iff, IHs, IH. split.
        + intros [Hd [[h [s' [E [Hh [Hn H]]]]]|H]].
          * exists (String b h), s'. simpl. rewrite Hd, Hn. subst s.
            rewrite append_assoc in H. simpl in H.
            repeat split; auto. discriminate.
          * exists (String b EmptyString), s. simpl. rewrite Hd.
            repeat split; auto. discriminate.
        + intros [h [s' [E [Hh [Hn H]]]]]. destruct h as [|c h]; [congruence|].
          simpl in E, Hn. inversion E. subst c s.
          apply andb_true_iff in Hn. destruct Hn as [Hd Hn].
          split; auto. destruct h as [|c h].
          * right. exact H.
          * left. exists (String c h), s'. rewrite append_assoc. simpl.
            repeat split; auto. discriminate. }
    rewrite G. simpl. tauto.
  - destruct (nth_error gs n) as [g|] eqn:En.
    + destruct (strip_prefix g s) as [s'|] eqn:Es.
      * rewrite IH. apply strip_prefix_iff in Es. split.
        -- intros H. eauto.
        -- intros [g' [s'' [Eg [E H]]]]. inversion Eg. subst g'.
           rewrite Es in E. clear - E H.
           assert (s' = s'').
           { revert E. clear. induction g; simpl; intros E; auto.
             inversion E. auto. }
           now subst.
      * split; [discriminate|]. intros [g' [s'' [Eg [E H]]]].
        inversion Eg. subst g'. apply strip_prefix_iff in E. congruence.
    + split; [discriminate|]. intros [g' [s'' [Eg _]]]. discriminate.
Qed.

(** The language of [SUBMISSION_PATTERN]. *)
Lemma submission_pattern_language (path : string) :
  re_match SUBMISSION_PATTERN path = true <->
  exists w A B C d x rest,
    path = "forecasts/submissions" +++ w +++ "/" +++ A +++ "/" +++ B +++
           "/" +++ C +++ "/" +++ d +++ "-" +++ A +++ "-" +++ B +++ "-" +++
           C +++ String x "csv" +++ rest /\
    no_newline w = true /\ segment A /\ segment B /\ segment C /\
    date_shape d = true /\ dot x = true.
Proof.
  unfold re_match. rewrite matches_denotes. unfold SUBMISSION_PATTERN.
  simpl. split.
  - intros H. break. subst.
    repeat match goal with
           | H : Some _ = Some _ |- _ => inversion H; clear H; subst
           end.
    match goal with
    | |- exists w A B C d x rest, ?lhs = _ /\ _ =>
        match lhs with
        | context [String "/" (String ?y1 (String ?y2 (String ?y3 (String ?y4
            (String "-" (String ?m1 (String ?m2 (String "-"
            (String ?d1 (String ?d2 (String "-" _)))))))))))] =>
            do 4 eexists;
            exists (String y1 (String y2 (String y3 (String y4 (String "-"
                   (String m1 (String m2 (String "-"
                   (String d1 (String d2 EmptyString))))))))))
        end
    end.
    do 2 eexists. split; [reflexivity|].
    unfold segment, date_shape.
    repeat match goal with H : is_digit _ = true |- _ => rewrite H; clear H end.
    auto 10.
  - unfold segment. intros H. break.
    match goal with H : date_shape _ = true |- _ => rename H into Hd end.
    match goal with H : date_shape ?d = true |- _ =>
      unfold date_shape in H;
      do 10 (destruct d as [|? d]; [discriminate|]);
      destruct d; [|discriminate]
    end.
    do 9 (apply andb_true_iff in Hd; destruct Hd as [Hd ?]).
    repeat match goal with
           | H : Ascii.eqb _ _ = true |- _ => apply Ascii.eqb_eq in H; subst
           end.
    subst. simpl.
    repeat first
      [ eexists; split; [reflexivity|]
      | do 2 eexists; split; [reflexivity|]; split; [eassumption|];
        split; [eassumption|]
      | do 2 eexists; split; [reflexivity|]; split; [eassumption|]
      | do 2 eexists; split; [reflexivity|]; split; [reflexivity|] ].
    exact I.
Qed.

End ReFacts.
Import ReFacts.

(** ** The path matcher *)

Lemma check_filepath_cases (path : string) :
  (check_filepath path = PyNone <-> re_match SUBMISSION_PATTERN path = true) /\
  (check_filepath path = PyStr NamingConvention <->
   re_match SUBMISSION_PATTERN path = false).
Proof.
  unfold check_filepath.
  destruct (re_match SUBMISSION_PATTERN path); split; split;
    congruence.
Qed.

(** C6, as amended. [check_filepath] returns nothing or the one message.
    It returns nothing for every path
    [forecasts/submissions<w>/<A>/<B>/<C>/dddd-dd-dd-<A>-<B>-<C>.csv] with
    non-empty [A], [B], [C] and decimal digits [d]; and it returns the
    message for every path that is not
    [forecasts/submissions<w>/<A>/<B>/<C>/dddd-dd-dd-<A>-<B>-<C>],
    one character that is not a newline, [csv], and anything after it:
    a wrong place, segments that do not come back in the file name, a
    date that is not of the shape, an ending that is not [csv]. *)
Theorem check_filepath_spec (path : string) :
  (check_filepath path = PyNone \/
   check_filepath path = PyStr NamingConvention) /\
  ((exists w A B C d,
      path = "forecasts/submissions" +++ w +++ "/" +++ A +++ "/" +++ B +++
             "/" +++ C +++ "/" +++ d +++ "-" +++ A +++ "-" +++ B +++ "-" +++
             C +++ ".csv" /\
      no_newline w = true /\ segment A /\ segment B /\ segment C /\
      date_shape d = true) ->
   check_filepath path = PyNone) /\
  (~ (exists w A B C d x rest,
        path = "forecasts/submissions" +++ w +++ "/" +++ A +++ "/" +++ B +++
               "/" +++ C +++ "/" +++ d +++ "-" +++ A +++ "-" +++ B +++
               "-" +++ C +++ String x "csv" +++ rest /\
        no_newline w = true /\ segment A /\ segment B /\ segment C /\
        date_shape d = true /\ x <> newline) ->
   check_filepath path = PyStr NamingConvention).
Proof.
  destruct (check_filepath_cases path) as [Hok Herr].
  split; [|split].
  - unfold check_filepath. destruct (re_match SUBMISSION_PATTERN path); auto.
  - intros [w [A [B [C [d [E H]]]]]]. apply Hok.
    apply submission_pattern_language.
    exists w, A, B, C, d, "."%char, EmptyString.
    split; [exact E|]. intuition.
  - intros Hno. apply Herr.
    destruct (re_match SUBMISSION_PATTERN path) eqn:Em; auto.
    elim Hno. apply submission_pattern_language in Em.
    destruct Em as (w & A & B & C & d & x & rest & E & Hw & HA & HB & HC & Hd & Hx).
    exists w, A, B, C, d, x, rest.
    repeat (split; [assumption|]).
    intros ->. discriminate.
Qed.

(** The path of the grammar is accepted; the same path with the ending
    [.txt], with a date of nine characters, and with a last segment that
    does not come back, are not. *)
Lemma check_filepath_spec_witness :
  check_filepath "forecasts/submissions/a/b/c/2023-11-09-a-b-c.csv" = PyNone /\
  check_filepath "forecasts/submissions/a/b/c/2023-11-09-a-b-c.txt"
  = PyStr NamingConvention /\
  check_filepath "forecasts/submissions/a/b/c/2023-11-9-a-b-c.csv"
  = PyStr NamingConvention /\
  check_filepath "forecasts/submissions/a/b/c/2023-11-09-a-b-d.csv"
  = PyStr NamingConvention.
Proof.
  split; [|split; [|split]].
  - apply (proj1 (proj2 (check_filepath_spec
             "forecasts/submissions/a/b/c/2023-11-09-a-b-c.csv"))).
    exists EmptyString, "a", "b", "c", "2023-11-09".
    unfold segment. repeat split; discriminate.
  - apply (proj2 (proj2 (check_filepath_spec
             "forecasts/submissions/a/b/c/2023-11-09-a-b-c.txt"))).
    intros (w & A & B & C & d & x & rest & E & Hw & HA & HB & HC & Hd & Hx).
    assert (M : re_match SUBMISSION_PATTERN
                  "forecasts/submissions/a/b/c/2023-11-09-a-b-c.txt" = true).
    { apply submission_pattern_language.
      exists w, A, B, C, d, x, rest. repeat (split; [assumption|]).
      unfold dot. apply negb_true_iff. now apply Ascii.eqb_neq. }
    vm_compute in M. discriminate.
  - apply (proj2 (proj2 (check_filepath_spec
             "forecasts/submissions/a/b/c/2023-11-9-a-b-c.csv"))).
    intros (w & A & B & C & d & x & rest & E & Hw & HA & HB & HC & Hd & Hx).
    assert (M : re_match SUBMISSION_PATTERN
                  "forecasts/submissions/a/b/c/2023-11-9-a-b-c.csv" = true).
    { apply submission_pattern_language.
      exists w, A, B, C, d, x, rest. repeat (split; [assumption|]).
      unfold dot. apply negb_true_iff. now apply Ascii.eqb_neq. }
    vm_compute in M. discriminate.
  - apply (proj2 (proj2 (check_filepath_spec
             "forecasts/submissions/a/b/c/2023-11-09-a-b-d.csv"))).
    intros (w & A & B & C & d & x & rest & E & Hw & HA & HB & HC & Hd & Hx).
    assert (M : re_match SUBMISSION_PATTERN
                  "forecasts/submissions/a/b/c/2023-11-09-a-b-d.csv" = true).
    { apply submission_pattern_language.
      exists w, A, B, C, d, x, rest. repeat (split; [assumption|]).
      unfold dot. apply negb_true_iff. now apply Ascii.eqb_neq. }
    vm_compute in M. discriminate.
Defined.

(** A path that follows the grammar of the spec, under [data/] instead of
    [forecasts/], gets the message. *)
Lemma check_filepath_outside_forecasts :
  submission_grammar "data/submissions/a/b/c/2023-11-09-a-b-c.csv" /\
  check_filepath "data/submissions/a/b/c/2023-11-09-a-b-c.csv"
  = PyStr NamingConvention.
Proof.
  split; [|reflexivity].
  exists "data", EmptyString, "a", "b", "c", "2023-11-09".
  repeat split; discriminate.
Qed.

(** What follows the repeated segments is matched by [.csv] with an
    unescaped point and no anchor at the end. *)
Example check_filepath_trailing :
  check_filepath "forecasts/submissions/a/b/c/2023-11-09-a-b-c_csv_old.csv"
  = PyNone.
Proof. reflexivity. Qed.

(** ** Forecasts and other files *)

Module MainFacts.
Import Main.

Lemma File_eqb_eq (a b : File) : File_eqb a b = true <-> a = b.
Proof.
  destruct a as [n1 s1], b as [n2 s2]. unfold File_eqb. simpl.
  rewrite andb_true_iff, !String.eqb_eq. split.
  - intros [-> ->]. reflexivity.
  - intros H. inversion H. auto.
Qed.

Lemma mem_File_In (f : File) (l : list File) :
  mem File_eqb f l = true <-> In f l.
Proof.
  unfold mem. rewrite existsb_exists. split.
  - intros [g [Hg E]]. apply File_eqb_eq in E. now subst.
  - intros H. exists f. split; auto. now apply File_eqb_eq.
Qed.

Lemma forecasts_In (files_changed : list File) (f : File) :
  In f (forecasts files_changed) <->
  In f files_changed /\ re_match pat (filename f) = true.
Proof. unfold forecasts. apply filter_In. Qed.

Lemma other_files_In (files_changed : list File) (f : File) :
  In f (other_files files_changed) <->
  In f files_changed /\ re_match pat (filename f) = false.
Proof.
  unfold other_files. rewrite filter_In, negb_true_iff. split.
  - intros [Hf Hm]. split; auto.
    destruct (re_match pat (filename f)) eqn:E; auto.
    assert (H : mem File_eqb f (forecasts files_changed) = true).
    { apply mem_File_In, forecasts_In. auto. }
    congruence.
  - intros [Hf Hm]. split; auto.
    destruct (mem File_eqb f (forecasts files_changed)) eqn:E; auto.
    apply mem_File_In, forecasts_In in E. destruct E. congruence.
Qed.

Lemma getitem_setitem (k : string) (v : list error) (d : dict) :
  getitem k (setitem k v d) = Some v.
Proof.
  induction d as [|[k' v'] d IH]; simpl.
  - now rewrite String.eqb_refl.
  - destruct (String.eqb k k') eqn:E; simpl; rewrite E; auto.
Qed.

Lemma getitem_setitem_other (k k0 : string) (v : list error) (d : dict) :
  String.eqb k k0 = false -> getitem k (setitem k0 v d) = getitem k d.
Proof.
  intros Hk. induction d as [|[k' v'] d IH]; simpl.
  - now rewrite Hk.
  - destruct (String.eqb k0 k') eqn:E; simpl.
    + apply String.eqb_eq in E. subst k'. now rewrite Hk.
    + destruct (String.eqb k k'); auto.
Qed.

(** Once a name holds the fixed message, later turns of the loop leave it
    there. *)
Lemma flag_loop_keeps (l : list File) (d : dict) (k : string) :
  getitem k d = Some [NotValidSubmission] ->
  getitem k (fold_left
               (fun d file => setitem (filename file) [NotValidSubmission] d)
               l d)
  = Some [NotValidSubmission].
Proof.
  revert d. induction l as [|f l IH]; simpl; intros d H; auto.
  apply IH. destruct (String.eqb k (filename f)) eqn:E.
  - apply String.eqb_eq in E. subst k. apply getitem_setitem.
  - now rewrite getitem_setitem_other.
Qed.

Lemma flag_loop_sets (l : list File) (d : dict) (f : File) :
  In f l ->
  getitem (filename f)
          (fold_left
             (fun d file => setitem (filename file) [NotValidSubmission] d)
             l d)
  = Some [NotValidSubmission].
Proof.
  revert d. induction l as [|g l IH]; simpl; intros d H; [destruct H|].
  destruct H as [->|H]; auto.
  apply flag_loop_keeps, getitem_setitem.
Qed.

End MainFacts.

(** C7, as amended. A changed file is taken as a forecast exactly when its
    name matches the pattern [pat] of [main.py]; every other changed file
    ends with the one-element list [File is not a valid submission.]
    under its name in [all_errors], whatever the validation of the
    forecasts has put there, and with no look at its content. *)
Theorem forecasts_by_pat (files_changed : list Main.File)
  (all_errors : Main.dict) :
  (forall f, In f (Main.forecasts files_changed) <->
     In f files_changed /\ re_match Main.pat (Main.filename f) = true) /\
  (forall f, In f (Main.other_files files_changed) <->
     In f files_changed /\ re_match Main.pat (Main.filename f) = false) /\
  (forall f, In f files_changed ->
             re_match Main.pat (Main.filename f) = false ->
             Main.getitem (Main.filename f)
                          (Main.flag_other_files files_changed all_errors)
             = Some [NotValidSubmission]).
Proof.
  split; [|split].
  - intros f. apply MainFacts.forecasts_In.
  - intros f. apply MainFacts.other_files_In.
  - intros f Hf Hm. unfold Main.flag_other_files.
    apply MainFacts.flag_loop_sets, MainFacts.other_files_In. auto.
Qed.

Lemma forecasts_by_pat_witness :
  Main.getitem "README.md" (Main.flag_other_files [readme] [])
  = Some [NotValidSubmission].
Proof.
  apply (proj2 (proj2 (forecasts_by_pat [readme] [])) readme).
  - left. reflexivity.
  - reflexivity.
Defined.

Lemma forecast_rejected_by_path_matcher :
  Main.forecasts [loose_forecast] = [loose_forecast] /\
  Main.other_files [loose_forecast] = [] /\
  check_filepath ("forecasts/" +++ Main.filename loose_forecast)
  = PyStr NamingConvention /\
  check_filepath (Main.filename loose_forecast) = PyStr NamingConvention.
Proof. repeat split. Qed.

(** And a file the path matcher accepts once downloaded, which [pat] does
    not take as a forecast. *)
Example accepted_path_not_a_forecast :
  Main.forecasts [Main.mkFile "submissions_old/a/b/c/2023-11-09-a-b-c.csv"
                              "added"] = [] /\
  check_filepath "forecasts/submissions_old/a/b/c/2023-11-09-a-b-c.csv"
  = PyNone.
Proof. split; reflexivity. Qed.

(** ** The orchestrator *)

Lemma run_checks_errors (cs : list (string * check)) :
  forall errors df,
    fst (fold_left run_check cs (errors, df)) =
    errors ++ flat_map contribution (outcomes cs df).
Proof.
  induction cs as [|[name c] cs IH]; intros errors df; simpl.
  - now rewrite app_nil_r.
  - unfold contribution at 1. simpl.
    destruct (c df) as [[v|e] df'] eqn:E; simpl; rewrite IH.
    + unfold extend. destruct (truthy v); simpl; auto.
      now rewrite <- app_assoc.
    + now rewrite <- app_assoc.
Qed.

Lemma outcomes_names (cs : list (string * check)) :
  forall df, map fst (outcomes cs df) = map fst cs.
Proof.
  induction cs as [|c cs IH]; intros df; simpl; auto. now rewrite IH.
Qed.

Lemma truthy_as_list (v : pyval) : truthy v = true -> as_list v <> [].
Proof.
  destruct v as [|e|l]; simpl; try discriminate.
  destruct l; simpl; discriminate.
Qed.

Lemma contribution_nil (o : string * res pyval) :
  contribution o = [] <-> exists v, snd o = Ret v /\ truthy v = false.
Proof.
  unfold contribution. destruct (snd o) as [v|e].
  - destruct (truthy v) eqn:E.
    + split.
      * intros H. now apply truthy_as_list in E.
      * intros [v' [Hv Ht]]. inversion Hv. congruence.
    + split; eauto.
  - split; [discriminate|]. intros [v [Hv _]]. discriminate.
Qed.

Lemma flat_map_nil {A B} (f : A -> list B) (l : list A) :
  flat_map f l = [] <-> forall x, In x l -> f x = [].
Proof.
  induction l as [|a l IH]; simpl.
  - split; auto. intros _ x [].
  - split.
    + intros H. apply app_eq_nil in H. destruct H as [Ha Hl].
      intros x [<-|Hx]; auto. now apply IH.
    + intros H. rewrite (H a) by auto. simpl. apply IH. auto.
Qed.

(** [needle in s]: the needle stands somewhere in the string. *)
Lemma prefix_iff (n s : string) :
  prefix n s = true <-> exists b, s = n +++ b.
Proof.
  revert s. induction n as [|a n IH]; intros s; simpl.
  - split; [intros _; exists s; reflexivity|now destruct s].
  - destruct s as [|b s]; simpl.
    + split; [discriminate|]. intros [t H]. discriminate.
    + destruct (ascii_dec a b) as [->|Hne].
      * rewrite IH. split; intros [t H]; exists t; congruence.
      * split; [discriminate|]. intros [t H]. congruence.
Qed.

Lemma contains_iff (n s : string) :
  contains n s = true <-> exists a b, s = a +++ n +++ b.
Proof.
  induction s as [|c s IH].
  - cbn [contains]. rewrite orb_false_r, prefix_iff. split.
    + intros [b H]. exists EmptyString, b. exact H.
    + intros [a [b H]]. destruct a; [eauto|discriminate].
  - cbn [contains]. rewrite orb_true_iff, IH, prefix_iff. split.
    + intros [[b H]|[a [b H]]].
      * exists EmptyString, b. exact H.
      * exists (String c a), b. simpl. now rewrite H.
    + intros [a [b H]]. destruct a as [|c' a].
      * left. exists b. exact H.
      * right. exists a, b. simpl in H. congruence.
Qed.

(** [nunique() > 1]: two cells that are not null differ. *)
Lemma nunique_two (col : list (option string)) :
  (1 <? nunique String.eqb col)%nat = true <->
  exists a b, In (Some a) col /\ In (Some b) col /\ a <> b.
Proof.
  unfold nunique. rewrite Nat.ltb_lt.
  pose proof (unique_NoDup String.eqb String.eqb_eq (dropna col)) as Hnd.
  pose proof (unique_In String.eqb String.eqb_eq (dropna col)) as Hin.
  destruct (unique String.eqb (dropna col)) as [|x [|y l]] eqn:E.
  - split; [simpl; lia|]. intros [a [b [Ha _]]].
    apply dropna_In, Hin in Ha. destruct Ha.
  - split; [simpl; lia|]. intros [a [b [Ha [Hb Hne]]]].
    apply dropna_In, Hin in Ha. apply dropna_In, Hin in Hb.
    destruct Ha as [<-|[]], Hb as [<-|[]]. congruence.
  - split; [|simpl; lia]. intros _. exists x, y.
    split; [|split].
    + apply dropna_In, Hin. simpl. auto.
    + apply dropna_In, Hin. simpl. auto.
    + inversion Hnd as [|? ? Hx _]. intros ->. apply Hx. simpl. auto.
Qed.

Lemma date_differs_iff (f d : pydate) :
  date_differs f d = false <-> exists x, f = Day x /\ d = Day x.
Proof.
  destruct f as [|x], d as [|y]; simpl.
  - split; [discriminate|]. intros [z [H _]]. discriminate.
  - split; [discriminate|]. intros [z [H _]]. discriminate.
  - split; [discriminate|]. intros [z [_ H]]. discriminate.
  - rewrite negb_false_iff, Z.eqb_eq. split.
    + intros ->. eauto.
    + intros [z [H1 H2]]. congruence.
Qed.

Section Orchestrator.
Variable to_date : string -> option pydate.
Variable today : date.
Variable read_csv : string -> res RawFrame.
Variable read_csv_parse_dates : string -> res DataFrame.

Lemma check_forecast_date_steps (filepath : string) (df : RawFrame)
  (c : option string) (rest : list (option string)) :
  read_csv filepath = Ret df ->
  raw_column df "forecast_date" = Ret (c :: rest) ->
  check_forecast_date to_date today read_csv filepath =
    Ret (first_failure
           [filename_date_step to_date filepath;
            unique_date_step (c :: rest);
            column_date_step to_date c;
            same_date_step to_date filepath c;
            freshness_step to_date today filepath]).
Proof.
  intros Hread Hcol.
  unfold check_forecast_date, first_failure, filename_date_step,
    unique_date_step, column_date_step, same_date_step, freshness_step,
    filename_prefix.
  destruct (to_date (take 10 (basename filepath))) as [f|]; [|reflexivity].
  rewrite Hread. cbn [bind]. rewrite Hcol. cbn [bind].
  destruct (1 <? nunique String.eqb (c :: rest))%nat; [reflexivity|].
  cbn [iloc0 bind].
  destruct (cell_to_date to_date c) as [d|]; [|reflexivity].
  destruct (date_differs f d); [reflexivity|]. cbn [dropna].
  destruct (contains "retrospective" filepath); cbn [negb andb];
    [reflexivity|].
  destruct (stale today f); reflexivity.
Qed.

(** C5. On a file whose table has a [forecast_date] column with a first
    cell, [check_forecast_date] returns the message of the first of its
    five steps that fails and nothing when none fails: never more than one
    message.  The steps, in their order: the first ten characters of the
    file name do not parse as a date; two cells of the column that are not
    null differ; the first cell does not parse as a date; the date of the
    file name and that of the first cell are not the same day (a null cell
    gives [NaT], which differs from every date); the date of the file name
    is more than one day away from [today], the current date in
    Europe/Berlin.  The last step is left out when [retrospective] stands
    somewhere in the path. *)
Theorem check_forecast_date_first_failure (filepath : string) (df : RawFrame)
  (c : option string) (rest : list (option string))
  (Hread : read_csv filepath = Ret df)
  (Hcol : raw_column df "forecast_date" = Ret (c :: rest)) :
  let out := check_forecast_date to_date today read_csv filepath in
  let name_date := to_date (filename_prefix filepath) in
  let two_dates :=
    exists a b, In (Some a) (c :: rest) /\ In (Some b) (c :: rest) /\ a <> b in
  let retrospective := exists a b, filepath = a +++ "retrospective" +++ b in
  out = Ret (first_failure
               [filename_date_step to_date filepath;
                unique_date_step (c :: rest);
                column_date_step to_date c;
                same_date_step to_date filepath c;
                freshness_step to_date today filepath]) /\
  (exists v, out = Ret v /\ (List.length (as_list v) <= 1)%nat) /\
  (name_date = None ->
   out = Ret (PyStr (FilenameDateFormat (filename_prefix filepath)))) /\
  (forall f, name_date = Some f ->
     (two_dates ->
      out = Ret (PyStr (MultipleForecastDates
                          (unique (opt_eqb String.eqb) (c :: rest))))) /\
     (~ two_dates ->
      (forall s, c = Some s -> to_date s = None ->
                 out = Ret (PyStr (ColumnDateFormat c))) /\
      (forall d, (c = None /\ d = NaT) \/
                 (exists s, c = Some s /\ to_date s = Some d) ->
         ((forall x, f = Day x -> d <> Day x) ->
          out = Ret (PyStr (DateMismatch (basename filepath) d))) /\
         (forall x, f = Day x -> d = Day x ->
            (retrospective -> out = Ret PyNone) /\
            (~ retrospective ->
             ((1 < Z.abs (x - today))%Z ->
              out = Ret (PyStr (NotMadeToday (Day x) today))) /\
             ((Z.abs (x - today) <= 1)%Z -> out = Ret PyNone)))))).
Proof.
  intros out name_date two_dates retrospective.
  pose proof (check_forecast_date_steps filepath df c rest Hread Hcol) as R.
  fold out in R.
  split; [exact R|]. split; [|split].
  - eexists. split; [exact R|]. unfold first_failure.
    destruct (dropna _); simpl; lia.
  - intros Hn. rewrite R. unfold filename_date_step. fold name_date.
    now rewrite Hn.
  - intros f Hf.
    assert (R1 : out = Ret (first_failure
               [unique_date_step (c :: rest);
                column_date_step to_date c;
                same_date_step to_date filepath c;
                freshness_step to_date today filepath])).
    { rewrite R. unfold filename_date_step. fold name_date.
      now rewrite Hf. }
    split.
    + intros H2. rewrite R1. unfold unique_date_step.
      now rewrite (proj2 (nunique_two _) H2).
    + intros H2.
      assert (E2 : (1 <? nunique String.eqb (c :: rest))%nat = false).
      { destruct (1 <? nunique String.eqb (c :: rest))%nat eqn:E; auto.
        apply nunique_two in E. contradiction. }
      assert (R2 : out = Ret (first_failure
               [column_date_step to_date c;
                same_date_step to_date filepath c;
                freshness_step to_date today filepath])).
      { rewrite R1. unfold unique_date_step. now rewrite E2. }
      split.
      * intros s -> Hs. rewrite R2. unfold column_date_step. simpl.
        now rewrite Hs.
      * intros d Hd.
        assert (Ec : cell_to_date to_date c = Some d).
        { destruct Hd as [[-> ->]|[s [-> Hs]]]; auto. }
        assert (R3 : out = Ret (first_failure
               [same_date_step to_date filepath c;
                freshness_step to_date today filepath])).
        { rewrite R2. unfold column_date_step. now rewrite Ec. }
        unfold same_date_step, freshness_step in R3.
        fold name_date in R3. rewrite Hf, Ec in R3.
        split.
        -- intros Hdiff.
           destruct (date_differs f d) eqn:E; [exact R3|].
           apply date_differs_iff in E. destruct E as [x [Ef Ed]].
           elim (Hdiff x Ef Ed).
        -- intros x -> ->.
           assert (E : date_differs (Day x) (Day x) = false).
           { apply date_differs_iff. eauto. }
           rewrite E in R3. unfold stale in R3.
           split.
           ++ intros Hr. apply contains_iff in Hr. now rewrite Hr in R3.
           ++ intros Hr.
              assert (Er : contains "retrospective" filepath = false).
              { destruct (contains "retrospective" filepath) eqn:Ec'; auto.
                apply contains_iff in Ec'. contradiction. }
              rewrite Er in R3. split.
              ** intros Hlt. apply Z.ltb_lt in Hlt. now rewrite Hlt in R3.
              ** intros Hle. apply Z.ltb_ge in Hle. now rewrite Hle in R3.
Qed.

Lemma raw_column_missing (df : RawFrame) (name : string) :
  raw_has df name = false -> raw_column df name = Raise (AttributeError name).
Proof.
  induction df as [|[k col] df IH]; simpl; auto.
  destruct (String.eqb name k); simpl; [discriminate|auto].
Qed.

(** C9, as amended. When the first ten characters of the file name parse
    as a date, and the file reads as a table that has no [forecast_date]
    column, or has the column and no row, [check_forecast_date] raises,
    and so does [check_forecast]: it returns no list of errors.  A check
    of the loop that raises adds one [Fatal error] message instead. *)
Theorem check_forecast_date_not_isolated (filepath : string) (df : RawFrame)
  (d : pydate)
  (Hname : to_date (filename_prefix filepath) = Some d)
  (Hread : read_csv filepath = Ret df) :
  (raw_has df "forecast_date" = false ->
   check_forecast_date to_date today read_csv filepath
   = Raise (AttributeError "forecast_date") /\
   check_forecast to_date today read_csv read_csv_parse_dates filepath
   = Raise (AttributeError "forecast_date")) /\
  (raw_column df "forecast_date" = Ret [] ->
   check_forecast_date to_date today read_csv filepath = Raise IndexError /\
   check_forecast to_date today read_csv read_csv_parse_dates filepath
   = Raise IndexError) /\
  (forall errors table name (c : check) e,
     fst (c table) = Raise e ->
     fst (run_check (errors, table) (name, c)) = errors ++ [FatalError name]).
Proof.
  unfold filename_prefix in Hname.
  split; [|split].
  - intros Hno.
    assert (E : check_forecast_date to_date today read_csv filepath
                = Raise (AttributeError "forecast_date")).
    { unfold check_forecast_date. rewrite Hname, Hread. cbn [bind].
      now rewrite (raw_column_missing _ _ Hno). }
    split; [exact E|]. unfold check_forecast. now rewrite E.
  - intros Hempty.
    assert (E : check_forecast_date to_date today read_csv filepath
                = Raise IndexError).
    { unfold check_forecast_date. rewrite Hname, Hread. cbn [bind].
      rewrite Hempty. reflexivity. }
    split; [exact E|]. unfold check_forecast. now rewrite E.
  - intros errors table name c e Hc. unfold run_check. simpl.
    destruct (c table) as [[v|e'] df']; simpl in *; [discriminate|].
    reflexivity.
Qed.

End Orchestrator.

(** ** The helper columns *)

Lemma has_add_column (cols : list string) (name : string) :
  existsb (String.eqb name) (add_column name cols) = true.
Proof.
  unfold add_column. destruct (existsb (String.eqb name) cols) eqn:E; auto.
  rewrite existsb_app. simpl. rewrite String.eqb_refl. apply orb_true_r.
Qed.

Lemma has_add_column_other (cols : list string) (name k : string) :
  String.eqb k name = false ->
  existsb (String.eqb k) (add_column name cols) = existsb (String.eqb k) cols.
Proof.
  intros Hk. unfold add_column.
  destruct (existsb (String.eqb name) cols); auto.
  rewrite existsb_app. simpl. rewrite Hk. now rewrite !orb_false_r.
Qed.

Lemma require_ext (df df' : DataFrame) (e : string -> exn)
  (names : list string) :
  (forall k, In k names -> has df' k = has df k) ->
  require df' e names = require df e names.
Proof.
  induction names as [|n names IH]; simpl; intros H; auto.
  rewrite (H n) by auto. destruct (has df n); auto.
Qed.

Section FrameRule.
Variable name : string.
Variable f : Row -> cell.
Hypothesis not_no_quantiles : String.eqb "no_quantiles" name = false.
Hypothesis not_schema :
  forall k, In k QUANTILE_COLUMNS -> String.eqb k name = false.

Let s (r : Row) : Row := set_other name (f r) r.

Lemma transform_nunique_assign (sub : list Row) (r : Row) :
  transform_nunique (map s sub) (s r) = transform_nunique sub r.
Proof.
  unfold transform_nunique. now rewrite filter_map_comm, map_map.
Qed.

Lemma incomplete_row_assign (df : DataFrame) (r : Row) :
  incomplete_row (assign name f df) (s r) = incomplete_row df r.
Proof.
  unfold incomplete_row, assign, has. cbn [rows columns].
  rewrite (has_add_column_other _ _ _ not_no_quantiles).
  rewrite filter_map_comm.
  change (not_mean (s r)) with (not_mean r).
  rewrite (filter_ext (fun a => not_mean (set_other name (f a) a)) not_mean)
    by reflexivity.
  fold s. rewrite transform_nunique_assign.
  unfold s at 1 2. now rewrite (other_set_other_neq _ _ _ _ not_no_quantiles).
Qed.

(** A column written under another name changes nothing for
    [check_quantiles]. *)
Lemma check_quantiles_assign (df : DataFrame) :
  fst (check_quantiles (assign name f df)) = fst (check_quantiles df).
Proof.
  rewrite !check_quantiles_outcome.
  assert (Hreq : require_quantile_columns (assign name f df)
                 = require_quantile_columns df).
  { unfold require_quantile_columns.
    rewrite (require_ext df (assign name f df) AttributeError ["type"]),
            (require_ext df (assign name f df) KeyError KEY4),
            (require_ext df (assign name f df) KeyError ["quantile"]);
      auto;
      intros k Hk; unfold has, assign; cbn [columns];
      apply has_add_column_other, not_schema; unfold QUANTILE_COLUMNS;
      simpl in *; tauto. }
  rewrite Hreq. destruct (require_quantile_columns df); [|reflexivity].
  cbn [bind]. f_equal. unfold quantiles_verdict.
  assert (Hrows : rows (assign name f df) = map s (rows df)) by reflexivity.
  rewrite Hrows, filter_map_comm.
  rewrite (filter_ext _ (incomplete_row df))
    by (intros r; apply incomplete_row_assign).
  rewrite length_map, quantiles_by_group_map by reflexivity.
  assert (Em : only_mean (map s (rows df)) = only_mean (rows df)).
  { unfold only_mean. now rewrite forallb_map_comm. }
  assert (Eq : only_median (map s (rows df)) = only_median (rows df)).
  { unfold only_median. now rewrite filter_map_comm, map_map. }
  now rewrite Em, Eq.
Qed.
End FrameRule.

(** The tables on which [check_target_dates] writes its column. *)
Lemma check_target_dates_table (df : DataFrame) :
  snd (check_target_dates df) =
  if match rows df with
     | [] => (List.length (columns df) =? 1)%nat
     | _ :: _ =>
         forallb (has df) ["target_end_date"; "forecast_date"; "horizon"] &&
         forallb computes (rows df)
     end
  then assign "invalid_target_date" target_flag df
  else df.
Proof.
  unfold check_target_dates.
  destruct (rows df) as [|r0 l] eqn:El.
  - destruct (columns df) as [|c [|c' cs]]; reflexivity.
  - destruct (forallb (has df) _) eqn:Hc.
    + rewrite (require_all _ _ _ Hc).
      destruct (forallb computes (r0 :: l)); cbn [negb andb]; [|reflexivity].
      cbv zeta. destruct (0 <? _)%nat; reflexivity.
    + cbn [andb]. cbn [forallb] in Hc. cbn [require].
      destruct (has df "target_end_date"); [|reflexivity].
      destruct (has df "forecast_date"); [|reflexivity].
      destruct (has df "horizon"); [discriminate|reflexivity].
Qed.

Lemma check_quantiles_table (df : DataFrame) :
  snd (check_quantiles df) =
  match require_quantile_columns df with
  | Ret _ => assign_where "no_quantiles" not_mean (quantile_count df) df
  | Raise _ => df
  end.
Proof.
  unfold check_quantiles. fold (require_quantile_columns df).
  destruct (require_quantile_columns df); [|reflexivity].
  cbv zeta. fold (quantile_count df).
  destruct (_ && _); reflexivity.
Qed.

Lemma check_quantiles_after_target_dates (df : DataFrame) :
  fst (check_quantiles (snd (check_target_dates df))) =
  fst (check_quantiles df).
Proof.
  rewrite check_target_dates_table.
  destruct (match rows df with [] => _ | _ :: _ => _ end); [|reflexivity].
  apply check_quantiles_assign; [reflexivity|].
  intros k Hk. unfold QUANTILE_COLUMNS in Hk. simpl in Hk.
  repeat (destruct Hk as [<-|Hk]; [reflexivity|]). destruct Hk.
Qed.

Lemma pure_checks_table (df : DataFrame) :
  snd (check_header df) = df /\
  snd (check_column_values df) = df /\
  snd (check_value df) = df /\
  snd (check_mean df) = df /\
  snd (check_duplicates df) = df.
Proof.
  repeat split.
  - unfold check_value. destruct (require df AttributeError _); reflexivity.
  - unfold check_mean. destruct (_ <- _ ;; _); [|reflexivity].
    destruct (0 <? _)%nat; reflexivity.
  - unfold check_duplicates.
    destruct (rows df), (filter (fun c => negb (has df c)) KEY7);
      try reflexivity; cbv zeta; destruct (0 <? _)%nat; reflexivity.
Qed.

(** Every check of the loop gives on the table it finds what it gives on
    the table as parsed. *)
Lemma outcomes_parsed (df : DataFrame) :
  outcomes checks df = map (fun c => (fst c, fst (snd c df))) checks.
Proof.
  pose proof (pure_checks_table df) as [P1 [P2 [P3 [P4 P5]]]].
  unfold checks. cbn [outcomes map fst snd].
  rewrite P1, P2, P3, P4, P5.
  now rewrite check_quantiles_after_target_dates.
Qed.

(** C10. [check_header], [check_column_values], [check_value],
    [check_mean] and [check_duplicates] leave the shared table as it is.
    [check_target_dates], on a table with rows and the columns it reads
    whose dates stay within range, writes the column
    [invalid_target_date] into it; where it raises it leaves the table as
    it is (a table without rows and with one column apart).
    [check_quantiles] writes the column [no_quantiles] when the table has
    the columns it reads.  A new column goes at the end of the header.
    The two are the last two checks of the loop, and every check of the
    loop gives on the table it finds what it gives on the table as
    parsed. *)
Theorem helper_columns_frame (df : DataFrame) :
  (snd (check_header df) = df /\
   snd (check_column_values df) = df /\
   snd (check_value df) = df /\
   snd (check_mean df) = df /\
   snd (check_duplicates df) = df) /\
  (rows df <> [] ->
   forallb (has df) ["target_end_date"; "forecast_date"; "horizon"] = true ->
   (forall r, In r (rows df) -> within_range r) ->
   snd (check_target_dates df) = assign "invalid_target_date" target_flag df /\
   has (snd (check_target_dates df)) "invalid_target_date" = true /\
   (has df "invalid_target_date" = false ->
    columns (snd (check_target_dates df))
    = columns df ++ ["invalid_target_date"])) /\
  ((exists e, fst (check_target_dates df) = Raise e) ->
   rows df <> [] \/ List.length (columns df) <> 1%nat ->
   snd (check_target_dates df) = df) /\
  (forallb (has df) QUANTILE_COLUMNS = true ->
   snd (check_quantiles df)
   = assign_where "no_quantiles" not_mean (quantile_count df) df /\
   has (snd (check_quantiles df)) "no_quantiles" = true /\
   (has df "no_quantiles" = false ->
    columns (snd (check_quantiles df)) = columns df ++ ["no_quantiles"])) /\
  (exists before,
     checks = before ++ [("check_target_dates", check_target_dates);
                         ("check_quantiles", check_quantiles)] /\
     forall c, In c before -> snd (snd c df) = df) /\
  outcomes checks df = map (fun c => (fst c, fst (snd c df))) checks.
Proof.
  pose proof (pure_checks_table df) as [P1 [P2 [P3 [P4 P5]]]].
  split; [auto|]. split; [|split; [|split; [|split]]].
  - intros Hrows Hcols Hrange. rewrite check_target_dates_table.
    destruct (rows df) as [|r0 l] eqn:El; [congruence|].
    rewrite Hcols, (proj2 (computes_all _) Hrange). cbn [andb].
    split; [reflexivity|]. split.
    + unfold has, assign. cbn [columns]. apply has_add_column.
    + intros Hfresh. unfold assign, add_column. cbn [columns].
      unfold has in Hfresh. now rewrite Hfresh.
  - intros [e He] Hne. rewrite check_target_dates_table.
    destruct (rows df) as [|r0 l] eqn:El.
    + destruct Hne as [Hne|Hne]; [congruence|].
      apply Nat.eqb_neq in Hne. now rewrite Hne.
    + destruct (forallb (has df) _ && forallb computes (r0 :: l)) eqn:E;
        [|reflexivity].
      apply andb_true_iff in E. destruct E as [Hc Hf].
      assert (Hrows : rows df <> []) by congruence.
      rewrite <- El in Hf.
      rewrite (check_target_dates_result df Hrows Hc Hf) in He.
      discriminate.
  - intros Hcols. rewrite check_quantiles_table.
    rewrite (require_quantile_columns_ok _ Hcols).
    split; [reflexivity|]. split.
    + unfold has, assign_where. cbn [columns]. apply has_add_column.
    + intros Hfresh. unfold assign_where, add_column. cbn [columns].
      unfold has in Hfresh. now rewrite Hfresh.
  - exists [("check_header", check_header);
            ("check_column_values", check_column_values);
            ("check_value", check_value);
            ("check_mean", check_mean);
            ("check_duplicates", check_duplicates)].
    split; [reflexivity|].
    intros c Hc. simpl in Hc.
    repeat (destruct Hc as [<-|Hc]; [assumption|]). destruct Hc.
  - apply outcomes_parsed.
Qed.

(** ** The loop of [check_forecast] *)

Section Loop.
Variable to_date : string -> option pydate.
Variable today : date.
Variable read_csv : string -> res RawFrame.
Variable read_csv_parse_dates : string -> res DataFrame.

(** C4. When [check_forecast_date] returns and the file parses,
    [check_forecast] runs [check_header], [check_column_values],
    [check_value], [check_mean], [check_duplicates], [check_target_dates]
    and [check_quantiles] in that order; each contributes the messages it
    returns on the parsed table, or, when it raises, the one [Fatal error]
    message with its name, and the checks after it still run.  The list
    returned is what the path check, the date check and the seven checks
    give, in that order; it is empty exactly when none of them reports
    anything and none of the seven raises. *)
Theorem check_forecast_concatenates (filepath : string) (r : pyval)
  (df : DataFrame)
  (Hdate : check_forecast_date to_date today read_csv filepath = Ret r)
  (Hparse : read_csv_parse_dates filepath = Ret df) :
  let part (name : string) (c : check) : list error :=
    match fst (c df) with
    | Ret v => if truthy v then as_list v else []
    | Raise _ => [FatalError name]
    end in
  check_forecast to_date today read_csv read_csv_parse_dates filepath =
    Ret ((if truthy (check_filepath filepath)
          then as_list (check_filepath filepath) else []) ++
         (if truthy r then as_list r else []) ++
         part "check_header" check_header ++
         part "check_column_values" check_column_values ++
         part "check_value" check_value ++
         part "check_mean" check_mean ++
         part "check_duplicates" check_duplicates ++
         part "check_target_dates" check_target_dates ++
         part "check_quantiles" check_quantiles) /\
  (check_forecast to_date today read_csv read_csv_parse_dates filepath
   = Ret [] <->
   check_filepath filepath = PyNone /\ truthy r = false /\
   forall c, In c [check_header; check_column_values; check_value;
                   check_mean; check_duplicates; check_target_dates;
                   check_quantiles] ->
             exists v, fst (c df) = Ret v /\ truthy v = false).
Proof.
  intros part.
  assert (R :
    check_forecast to_date today read_csv read_csv_parse_dates filepath =
    Ret ((if truthy (check_filepath filepath)
          then as_list (check_filepath filepath) else []) ++
         (if truthy r then as_list r else []) ++
         flat_map contribution (outcomes checks df))).
  { unfold check_forecast. rewrite Hdate. cbn [bind].
    rewrite Hparse. cbn [bind]. rewrite run_checks_errors.
    unfold extend. cbn [app].
    destruct (truthy (check_filepath filepath)), (truthy r);
      cbn [app]; rewrite ?app_nil_r, <- ?app_assoc; reflexivity. }
  assert (F : flat_map contribution (outcomes checks df) =
    part "check_header" check_header ++
    part "check_column_values" check_column_values ++
    part "check_value" check_value ++
    part "check_mean" check_mean ++
    part "check_duplicates" check_duplicates ++
    part "check_target_dates" check_target_dates ++
    part "check_quantiles" check_quantiles).
  { rewrite outcomes_parsed. unfold checks, contribution, part.
    cbn [map flat_map fst snd]. now rewrite app_nil_r. }
  rewrite F in R. split; [exact R|].
  assert (N : forall name c, part name c = [] <->
                exists v, fst (c df) = Ret v /\ truthy v = false).
  { intros name c. unfold part. destruct (fst (c df)) as [v|e].
    - destruct (truthy v) eqn:E.
      + split.
        * intros H. now apply truthy_as_list in E.
        * intros [v' [Hv Ht]]. inversion Hv. congruence.
      + split; eauto.
    - split; [discriminate|]. intros [v [Hv _]]. discriminate. }
  rewrite R. split.
  - intros H. inversion H as [H']. clear H.
    apply app_eq_nil in H'. destruct H' as [H1 H2].
    apply app_eq_nil in H2. destruct H2 as [H2 H3].
    split; [|split].
    + unfold check_filepath in *.
      destruct (re_match SUBMISSION_PATTERN filepath); [reflexivity|].
      discriminate.
    + destruct (truthy r) eqn:E; auto. now apply truthy_as_list in E.
    + repeat match type of H3 with
             | _ ++ _ = [] =>
                 apply app_eq_nil in H3;
                 let H := fresh "Hp" in destruct H3 as [H H3]
             end.
      intros c Hc. simpl in Hc.
      repeat (destruct Hc as [<-|Hc]; [eapply N; eassumption|]).
      destruct Hc.
  - intros [H1 [H2 H3]]. rewrite H1, H2. cbn [truthy app]. f_equal.
    rewrite (proj2 (N "check_header" check_header)),
            (proj2 (N "check_column_values" check_column_values)),
            (proj2 (N "check_value" check_value)),
            (proj2 (N "check_mean" check_mean)),
            (proj2 (N "check_duplicates" check_duplicates)),
            (proj2 (N "check_target_dates" check_target_dates)),
            (proj2 (N "check_quantiles" check_quantiles));
      try reflexivity; apply H3; simpl; tauto.
Qed.

End Loop.

(** ** The examples through the orchestrator *)

(** The forecast of 9 November 2023 looked at on 15 January 2024 (day
    738900): under a path that says [retrospective] nothing is returned,
    under the other path the forecast is not made today. *)
Lemma check_forecast_date_first_failure_witness :
  check_forecast_date Examples.iso_date 738900%Z Examples.read_any
                      Examples.path_retrospective
  = Ret PyNone /\
  check_forecast_date Examples.iso_date 738900%Z Examples.read_any
                      Examples.path
  = Ret (PyStr (NotMadeToday (Day 738833%Z) 738900%Z)).
Proof.
  split.
  - destruct (check_forecast_date_first_failure
                Examples.iso_date 738900%Z Examples.read_any
                Examples.path_retrospective Examples.raw_two_means
                (Some "2023-11-09") [Some "2023-11-09"] eq_refl eq_refl)
      as [_ [_ [_ H]]].
    destruct (H (Day 738833%Z) eq_refl) as [_ H2].
    assert (N2 : ~ (exists a b : string,
                      In (Some a) [Some "2023-11-09"; Some "2023-11-09"] /\
                      In (Some b) [Some "2023-11-09"; Some "2023-11-09"] /\
                      a <> b)).
    { intros [a [b [[Ha|[Ha|[]]] [[Hb|[Hb|[]]] Hne]]]]; congruence. }
    destruct (H2 N2) as [_ H3].
    destruct (H3 (Day 738833%Z)
                 (or_intror (ex_intro _ "2023-11-09" (conj eq_refl eq_refl))))
      as [_ H4].
    destruct (H4 738833%Z eq_refl eq_refl) as [H5 _].
    apply H5.
    exists "forecasts/submissions/", "/a/b/c/2023-11-09-a-b-c.csv".
    reflexivity.
  - destruct (check_forecast_date_first_failure
                Examples.iso_date 738900%Z Examples.read_any
                Examples.path Examples.raw_two_means
                (Some "2023-11-09") [Some "2023-11-09"] eq_refl eq_refl)
      as [_ [_ [_ H]]].
    destruct (H (Day 738833%Z) eq_refl) as [_ H2].
    assert (N2 : ~ (exists a b : string,
                      In (Some a) [Some "2023-11-09"; Some "2023-11-09"] /\
                      In (Some b) [Some "2023-11-09"; Some "2023-11-09"] /\
                      a <> b)).
    { intros [a [b [[Ha|[Ha|[]]] [[Hb|[Hb|[]]] Hne]]]]; congruence. }
    destruct (H2 N2) as [_ H3].
    destruct (H3 (Day 738833%Z)
                 (or_intror (ex_intro _ "2023-11-09" (conj eq_refl eq_refl))))
      as [_ H4].
    destruct (H4 738833%Z eq_refl eq_refl) as [_ H5].
    apply H5.
    + intros Hr. apply contains_iff in Hr. discriminate.
    + reflexivity.
Defined.

Lemma check_forecast_date_not_isolated_witness :
  check_forecast Examples.iso_date 738833%Z Examples.read_no_forecast_date
                 Examples.read_csv_parse_dates Examples.path
  = Raise (AttributeError "forecast_date").
Proof.
  exact (proj2 (proj1 (check_forecast_date_not_isolated
                         Examples.iso_date 738833%Z
                         Examples.read_no_forecast_date
                         Examples.read_csv_parse_dates Examples.path
                         Examples.raw_no_forecast_date (Day 738833%Z)
                         eq_refl eq_refl)
                      eq_refl)).
Defined.

(** A table with the header and no row, in a file whose name does not
    start with a date: the date check returns its first message without
    reading the table, and [check_forecast] returns a list. *)
Lemma filename_step_before_read :
  raw_column Examples.raw_empty "forecast_date" = Ret [] /\
  check_forecast_date Examples.iso_date 738833%Z Examples.read_empty
                      Examples.path_no_date
  = Ret (PyStr (FilenameDateFormat "2023-99-99")) /\
  exists errors,
    check_forecast Examples.iso_date 738833%Z Examples.read_empty
                   Examples.read_empty_parse_dates Examples.path_no_date
    = Ret errors.
Proof.
  split; [reflexivity|]. split; [reflexivity|].
  eexists. reflexivity.
Qed.

(** Without the column [horizon] four of the seven checks raise; each
    counts for one message and the others run. *)
Example missing_column_is_isolated :
  fst (fold_left run_check checks ([], df_no_horizon)) =
  [MissingColumns ["horizon"];
   FatalError "check_column_values";
   FatalError "check_duplicates";
   FatalError "check_target_dates";
   FatalError "check_quantiles"].
Proof. reflexivity. Qed.

(** The forecast read without its column [horizon]: the message of the
    header, and one [Fatal error] for each of the four checks that read
    the column. *)
Lemma check_forecast_concatenates_witness :
  check_forecast Examples.iso_date 738833%Z Examples.read_csv
                 Examples.read_no_horizon Examples.path
  = Ret [MissingColumns ["horizon"];
         FatalError "check_column_values";
         FatalError "check_duplicates";
         FatalError "check_target_dates";
         FatalError "check_quantiles"].
Proof.
  exact (proj1 (check_forecast_concatenates
                  Examples.iso_date 738833%Z Examples.read_csv
                  Examples.read_no_horizon Examples.path
                  PyNone df_no_horizon eq_refl eq_refl)).
Defined.

Lemma helper_columns_frame_witness :
  columns (snd (check_target_dates df_two_means))
  = VALID_COLUMNS ++ ["invalid_target_date"] /\
  columns (snd (check_quantiles df_two_means))
  = VALID_COLUMNS ++ ["no_quantiles"].
Proof.
  destruct (helper_columns_frame df_two_means) as [_ [T [_ [Q _]]]].
  split.
  - apply T; try reflexivity; try discriminate.
    intros r [<-|[<-|[]]]; unfold within_range; simpl; lia.
  - apply Q; reflexivity.
Defined.

(** * Further properties of the checks *)

(** ** The header *)

Lemma mem_string_In (c : string) (l : list string) :
  mem String.eqb c l = true <-> In c l.
Proof.
  unfold mem. rewrite existsb_exists. split.
  - intros [x [Hx E]]. apply String.eqb_eq in E. now subst.
  - intros H. exists c. split; auto. apply String.eqb_refl.
Qed.

Lemma not_in_string_iff (l : list string) (c : string) :
  not_in String.eqb l c = true <-> ~ In c l.
Proof.
  unfold not_in. rewrite negb_true_iff, <- mem_string_In.
  destruct (mem String.eqb c l); split; congruence.
Qed.

Lemma filter_nil_iff {A} (p : A -> bool) (l : list A) :
  filter p l = [] <-> forall x, In x l -> p x = false.
Proof.
  induction l as [|a l IH]; simpl.
  - split; auto. intros _ x [].
  - destruct (p a) eqn:E.
    + split; [discriminate|]. intros H. specialize (H a (or_introl eq_refl)).
      congruence.
    + rewrite IH. split.
      * intros H x [<-|Hx]; auto.
      * intros H x Hx. apply H. auto.
Qed.

Lemma check_header_result (df : DataFrame) :
  let m := filter (not_in String.eqb (columns df)) VALID_COLUMNS in
  let a := filter (not_in String.eqb VALID_COLUMNS) (columns df) in
  fst (check_header df) =
  Ret (return_if_any
         ((if (0 <? List.length m)%nat then [MissingColumns m] else []) ++
          (if (0 <? List.length a)%nat then [UnexpectedColumns a] else []))).
Proof.
  intros m a. unfold check_header. fold m a. cbn [fst].
  destruct (0 <? List.length m)%nat, (0 <? List.length a)%nat; reflexivity.
Qed.

(** [check_header] never raises and looks at the header only.  It returns
    nothing exactly when the header has the eight schema columns and no
    other, in whatever order.  Otherwise it names, once each and in the
    order of the schema, the schema columns the header lacks, and after
    them, in the order of the header, the columns outside the schema. *)
Theorem check_header_verdict (df : DataFrame) :
  (fst (check_header df) = Ret PyNone <->
   forall c, In c VALID_COLUMNS <-> In c (columns df)) /\
  (exists v, fst (check_header df) = Ret v) /\
  (forall df', columns df' = columns df ->
               fst (check_header df') = fst (check_header df)) /\
  (forall e, In e (messages (fst (check_header df))) ->
     (exists m, e = MissingColumns m /\ NoDup m /\
        forall c, In c m <-> In c VALID_COLUMNS /\ ~ In c (columns df)) \/
     (exists a, e = UnexpectedColumns a /\
        forall c, In c a <-> In c (columns df) /\ ~ In c VALID_COLUMNS)) /\
  ((exists c, In c VALID_COLUMNS /\ ~ In c (columns df)) ->
   exists m, hd_error (messages (fst (check_header df)))
             = Some (MissingColumns m)) /\
  ((exists c, In c (columns df) /\ ~ In c VALID_COLUMNS) ->
   exists a, In (UnexpectedColumns a) (messages (fst (check_header df)))).
Proof.
  pose proof (check_header_result df) as R. cbv zeta in R.
  set (m := filter (not_in String.eqb (columns df)) VALID_COLUMNS) in *.
  set (a := filter (not_in String.eqb VALID_COLUMNS) (columns df)) in *.
  assert (Hm : forall c, In c m <-> In c VALID_COLUMNS /\ ~ In c (columns df)).
  { intros c. unfold m. now rewrite filter_In, not_in_string_iff. }
  assert (Ha : forall c, In c a <-> In c (columns df) /\ ~ In c VALID_COLUMNS).
  { intros c. unfold a. now rewrite filter_In, not_in_string_iff. }
  assert (Hnd : NoDup m).
  { unfold m. apply NoDup_filter. unfold VALID_COLUMNS.
    repeat constructor; simpl; intuition discriminate. }
  clearbody m a.
  split; [|split; [|split; [|split; [|split]]]].
  - rewrite R. split.
    + intros H c.
      assert (m = [] /\ a = []) as [-> ->].
      { destruct m, a; simpl in H; try discriminate; auto. }
      split; intros Hc.
      * destruct (in_dec string_dec c (columns df)) as [|n]; auto.
        destruct (proj2 (Hm c) (conj Hc n)).
      * destruct (in_dec string_dec c VALID_COLUMNS) as [|n]; auto.
        destruct (proj2 (Ha c) (conj Hc n)).
    + intros H.
      assert (m = []).
      { destruct m as [|c m']; auto.
        destruct (proj1 (Hm c) (or_introl eq_refl)) as [H1 H2].
        elim H2. now apply H. }
      assert (a = []).
      { destruct a as [|c a']; auto.
        destruct (proj1 (Ha c) (or_introl eq_refl)) as [H1 H2].
        elim H2. now apply H. }
      subst. reflexivity.
  - eexists. exact R.
  - intros df' E. unfold check_header. now rewrite E.
  - intros e He. rewrite R in He.
    destruct m as [|c0 m'], a as [|c1 a']; simpl in He.
    + destruct He.
    + destruct He as [<-|[]]. right. eauto.
    + destruct He as [<-|[]]. left. eauto.
    + destruct He as [<-|[<-|[]]]; [left|right]; eauto.
  - intros [c Hc]. apply Hm in Hc. rewrite R.
    destruct m as [|c0 m']; [destruct Hc|].
    destruct a; simpl; eauto.
  - intros [c Hc]. apply Ha in Hc. rewrite R.
    destruct a as [|c0 a']; [destruct Hc|].
    destruct m; simpl; eauto.
Qed.

(** ** Values of the constrained columns *)

Lemma mem_Q_iff (q : Q) (l : list Q) :
  mem Qeq_bool q l = true <-> exists v, In v l /\ Qeq q v.
Proof.
  unfold mem. rewrite existsb_exists.
  split; intros [v [Hv E]]; exists v; split; auto; now apply Qeq_bool_iff.
Qed.

Lemma mem_horizon_iff (h : Z) :
  mem Z.eqb h VALID_HORIZONS = true <-> (-3 <= h <= 4)%Z.
Proof.
  unfold mem, VALID_HORIZONS. simpl.
  rewrite !orb_true_iff, !Z.eqb_eq. lia.
Qed.

Lemma map_nil_iff {A B} (f : A -> B) (l : list A) : map f l = [] <-> l = [].
Proof. destruct l; simpl; split; congruence. Qed.

(** No distinct value of a column is left over exactly when every cell of
    the column passes. *)
Lemma invalid_nil_iff {A} (eqb : A -> A -> bool) (ok : A -> bool)
  (l : list A) :
  (forall x, eqb x x = true) ->
  (forall x y z, eqb x y = true -> eqb y z = true -> eqb x z = true) ->
  (forall x y, eqb x y = true -> ok x = true -> ok y = true) ->
  (filter (fun x => negb (ok x)) (unique eqb l) = [] <->
   forall x, In x l -> ok x = true).
Proof.
  intros Hr Ht Hc. rewrite filter_nil_iff. split.
  - intros H x Hx. destruct (unique_repr eqb Hr Ht l x Hx) as [y [Hy E]].
    apply H in Hy. apply negb_false_iff in Hy. eauto.
  - intros H x Hx. apply unique_incl in Hx. apply negb_false_iff. auto.
Qed.

Lemma check_column_values_result (df : DataFrame) :
  forallb (has df) COLUMN_VALUES_COLUMNS = true ->
  fst (check_column_values df) =
  Ret (return_if_any (flat_map report_invalid (invalid_lists df))).
Proof.
  intros Hcols. unfold COLUMN_VALUES_COLUMNS in Hcols. simpl in Hcols.
  repeat (apply andb_true_iff in Hcols; destruct Hcols as [? Hcols]).
  unfold check_column_values. cbn [fst require].
  repeat match goal with
         | H : has df _ = true |- _ => rewrite H; clear H
         end.
  reflexivity.
Qed.

Lemma report_invalid_nil (kv : string * list cell) :
  report_invalid kv = [] <-> snd kv = [].
Proof.
  unfold report_invalid. destruct (snd kv); simpl; split; congruence.
Qed.

Lemma return_if_any_none (errors : list error) :
  return_if_any errors = PyNone <-> errors = [].
Proof.
  unfold return_if_any. destruct errors; simpl; split; congruence.
Qed.

Lemma messages_return_if_any (errors : list error) :
  messages (Ret (return_if_any errors)) = errors.
Proof. unfold return_if_any. now destruct errors. Qed.

Lemma valid_cells_iff (r : Row) :
  valid_cells r <->
  mem String.eqb (location r) LOCATION_CODES = true /\
  (forall q, quantile r = Some q -> mem Qeq_bool q VALID_QUANTILES = true) /\
  mem String.eqb (type r) VALID_TYPES = true /\
  mem String.eqb (age_group r) VALID_AGE_GROUPS = true /\
  mem Z.eqb (horizon r) VALID_HORIZONS = true.
Proof.
  unfold valid_cells. rewrite !mem_string_In, mem_horizon_iff.
  split; intros [H1 [H2 H3]]; repeat split; try tauto;
    intros q Hq; apply mem_Q_iff; auto.
Qed.

Lemma string_column_invalid_nil (proj : Row -> string) (allowed : list string)
  (l : list Row) :
  map Str (filter (not_in String.eqb allowed) (unique String.eqb (map proj l)))
  = [] <->
  forall r, In r l -> mem String.eqb (proj r) allowed = true.
Proof.
  rewrite map_nil_iff. unfold not_in.
  rewrite (invalid_nil_iff String.eqb (fun x => mem String.eqb x allowed)).
  - split.
    + intros H r Hr. apply H. now apply in_map.
    + intros H x Hx. apply in_map_iff in Hx. destruct Hx as [r [<- Hr]]. auto.
  - apply String.eqb_refl.
  - intros x y z H1 H2. apply String.eqb_eq in H1, H2. subst.
    apply String.eqb_refl.
  - intros x y E. apply String.eqb_eq in E. now subst.
Qed.

(** What a list of [invalid_values] for a text column holds. *)
Lemma string_column_invalid_In (proj : Row -> string) (allowed : list string)
  (l : list Row) :
  let vals := map Str (filter (not_in String.eqb allowed)
                              (unique String.eqb (map proj l))) in
  NoDup vals /\
  forall s, In (Str s) vals <->
            (exists r, In r l /\ proj r = s) /\ ~ In s allowed.
Proof.
  intros vals. split.
  - unfold vals. apply Finite.Injective_map_NoDup.
    + intros x y E. now inversion E.
    + apply NoDup_filter, unique_NoDup. apply String.eqb_eq.
  - intros s. unfold vals. rewrite in_map_iff. split.
    + intros [x [E Hx]]. inversion E. subst x.
      apply filter_In in Hx. destruct Hx as [Hx Hn].
      apply (proj1 (unique_In String.eqb String.eqb_eq _ _)) in Hx.
      apply in_map_iff in Hx. apply not_in_string_iff in Hn.
      destruct Hx as [r [Hr1 Hr2]]. eauto.
    + intros [[r [Hr E]] Hn]. exists s. split; auto.
      apply filter_In. split.
      * apply (proj2 (unique_In String.eqb String.eqb_eq _ _)).
        subst s. now apply in_map.
      * now apply not_in_string_iff.
Qed.

Lemma report_invalid_In (kv : string * list cell)
  (l : list (string * list cell)) :
  In kv l -> snd kv <> [] ->
  In (InvalidEntries (fst kv) (snd kv)) (flat_map report_invalid l).
Proof.
  intros Hkv Hn. apply in_flat_map. exists kv. split; auto.
  unfold report_invalid. destruct (snd kv); [congruence|]. now left.
Qed.

Lemma string_column_reported (df : DataFrame) (key : string)
  (proj : Row -> string) (allowed : list string) (r : Row) :
  In (key, map Str (filter (not_in String.eqb allowed)
                           (unique String.eqb (map proj (rows df)))))
     (invalid_lists df) ->
  In r (rows df) -> ~ In (proj r) allowed ->
  exists vals,
    In (InvalidEntries key vals) (flat_map report_invalid (invalid_lists df)) /\
    In (Str (proj r)) vals.
Proof.
  intros Hkv Hr Hn.
  assert (Hin : In (Str (proj r))
                   (map Str (filter (not_in String.eqb allowed)
                               (unique String.eqb (map proj (rows df)))))).
  { apply (proj2 (string_column_invalid_In proj allowed (rows df))).
    split; eauto. }
  eexists. split; [|exact Hin].
  apply (report_invalid_In _ _ Hkv). cbn [snd].
  intros E. rewrite E in Hin. destruct Hin.
Qed.

(** On a table that has the five columns, [check_column_values] returns
    nothing exactly when every location, type, age group and horizon and
    every quantile that is not null is in its allowed set; the horizons
    allowed are the integers from -3 to 4.  Otherwise it returns at most
    five messages, each with a list that is not empty; for a text column
    the list holds, once each, the values of the column that are outside
    the set.  Every column with a value outside its set has its message,
    and the value is in the list of that message; the messages come in
    the order location, quantile, type, age_group, horizon, no column
    twice. *)
Theorem check_column_values_verdict (df : DataFrame)
  (Hcols : forallb (has df) COLUMN_VALUES_COLUMNS = true) :
  (fst (check_column_values df) = Ret PyNone <->
   forall r, In r (rows df) -> valid_cells r) /\
  (List.length (messages (fst (check_column_values df))) <= 5)%nat /\
  (forall e, In e (messages (fst (check_column_values df))) ->
     exists key vals, e = InvalidEntries key vals /\
                      In key COLUMN_VALUES_COLUMNS /\ vals <> []) /\
  (forall key proj allowed vals,
     In (key, proj, allowed)
        [("location", location, LOCATION_CODES);
         ("type", type, VALID_TYPES);
         ("age_group", age_group, VALID_AGE_GROUPS)] ->
     In (InvalidEntries key vals) (messages (fst (check_column_values df))) ->
     NoDup vals /\
     forall s, In (Str s) vals <->
               (exists r, In r (rows df) /\ proj r = s) /\ ~ In s allowed) /\
  (forall r, In r (rows df) ->
     (~ In (location r) LOCATION_CODES ->
      exists vals,
        In (InvalidEntries "location" vals)
           (messages (fst (check_column_values df))) /\
        In (Str (location r)) vals) /\
     (forall q, quantile r = Some q ->
        (forall v, In v VALID_QUANTILES -> ~ Qeq q v) ->
        exists vals q',
          In (InvalidEntries "quantile" vals)
             (messages (fst (check_column_values df))) /\
          In (Num q') vals /\ Qeq q' q) /\
     (~ In (type r) VALID_TYPES ->
      exists vals,
        In (InvalidEntries "type" vals)
           (messages (fst (check_column_values df))) /\
        In (Str (type r)) vals) /\
     (~ In (age_group r) VALID_AGE_GROUPS ->
      exists vals,
        In (InvalidEntries "age_group" vals)
           (messages (fst (check_column_values df))) /\
        In (Str (age_group r)) vals) /\
     (~ (-3 <= horizon r <= 4)%Z ->
      exists vals,
        In (InvalidEntries "horizon" vals)
           (messages (fst (check_column_values df))) /\
        In (Num (inject_Z (horizon r))) vals)) /\
  (exists sel : string -> bool,
     map (fun e => match e with InvalidEntries key _ => key | _ => "" end)
         (messages (fst (check_column_values df)))
     = filter sel COLUMN_VALUES_COLUMNS).
Proof.
  rewrite (check_column_values_result df Hcols), messages_return_if_any.
  split; [|split; [|split; [|split; [|split]]]].
  - split.
    + intros H.
      assert (H' : return_if_any (flat_map report_invalid (invalid_lists df))
                   = PyNone) by congruence.
      apply (proj1 (return_if_any_none _)) in H'.
      pose proof (proj1 (flat_map_nil _ _) H') as H''. clear H'.
      rename H'' into H'.
      assert (L : forall kv, In kv (invalid_lists df) -> snd kv = []).
      { intros kv Hkv. apply report_invalid_nil. auto. }
      unfold invalid_lists in L.
      pose proof (L _ (or_introl eq_refl)) as L1.
      pose proof (L _ (or_intror (or_introl eq_refl))) as L2.
      pose proof (L _ (or_intror (or_intror (or_introl eq_refl)))) as L3.
      pose proof (L _ (or_intror (or_intror (or_intror (or_introl eq_refl)))))
        as L4.
      pose proof (L _ (or_intror (or_intror (or_intror (or_intror
                         (or_introl eq_refl)))))) as L5.
      clear L. cbn [snd] in *.
      rewrite string_column_invalid_nil in L1, L3, L4.
      rewrite map_nil_iff in L2. rewrite map_nil_iff in L5.
      unfold not_in in L2, L5.
      rewrite (invalid_nil_iff Qeq_bool
                 (fun x => mem Qeq_bool x VALID_QUANTILES)) in L2.
      2: apply Qeq_bool_refl.
      2: apply Qeq_bool_trans.
      2:{ intros x y E Hx. apply mem_Q_iff in Hx. apply mem_Q_iff.
          destruct Hx as [v [Hv Hq]]. exists v. split; auto.
          apply Qeq_bool_iff in E. now rewrite <- E. }
      rewrite (invalid_nil_iff Z.eqb (fun x => mem Z.eqb x VALID_HORIZONS))
        in L5.
      2: apply Z.eqb_refl.
      2:{ intros x y z E1 E2. apply Z.eqb_eq in E1, E2. subst.
          apply Z.eqb_refl. }
      2:{ intros x y E. apply Z.eqb_eq in E. now subst. }
      intros r Hr. apply valid_cells_iff. repeat split; auto.
      * intros q Hq. apply L2. apply dropna_In. rewrite <- Hq.
        now apply in_map.
      * apply L5. now apply in_map.
    + intros H. f_equal. apply return_if_any_none, flat_map_nil.
      assert (V : forall r, In r (rows df) ->
        mem String.eqb (location r) LOCATION_CODES = true /\
        (forall q, quantile r = Some q ->
                   mem Qeq_bool q VALID_QUANTILES = true) /\
        mem String.eqb (type r) VALID_TYPES = true /\
        mem String.eqb (age_group r) VALID_AGE_GROUPS = true /\
        mem Z.eqb (horizon r) VALID_HORIZONS = true).
      { intros r Hr. apply valid_cells_iff. auto. }
      intros kv Hkv. apply report_invalid_nil. unfold invalid_lists in Hkv.
      simpl in Hkv.
      destruct Hkv as [<-|[<-|[<-|[<-|[<-|[]]]]]]; cbn [snd].
      * apply string_column_invalid_nil. intros r Hr. apply V; auto.
      * apply map_nil_iff, filter_nil_iff. intros q Hq.
        apply unique_incl, dropna_In, in_map_iff in Hq.
        destruct Hq as [r [Hq Hr]]. unfold not_in. apply negb_false_iff.
        destruct (V r Hr) as [_ [V2 _]]. auto.
      * apply string_column_invalid_nil. intros r Hr. apply V; auto.
      * apply string_column_invalid_nil. intros r Hr. apply V; auto.
      * apply map_nil_iff, filter_nil_iff. intros h Hh.
        apply unique_incl, in_map_iff in Hh.
        destruct Hh as [r [<- Hr]]. unfold not_in. apply negb_false_iff.
        apply V; auto.
  - unfold invalid_lists. cbn [flat_map]. rewrite !length_app.
    unfold report_invalid.
    repeat match goal with
           | |- context [if ?b then _ else _] => destruct b
           end; simpl; lia.
  - intros e He. apply in_flat_map in He. destruct He as [kv [Hkv He]].
    unfold report_invalid in He.
    destruct (snd kv) as [|c vals] eqn:E; simpl in He; [destruct He|].
    destruct He as [<-|[]]. exists (fst kv), (c :: vals).
    split; [reflexivity|]. split; [|discriminate].
    unfold invalid_lists in Hkv. simpl in Hkv.
    destruct Hkv as [<-|[<-|[<-|[<-|[<-|[]]]]]]; simpl; auto 6.
  - intros key proj allowed vals Hk He.
    apply in_flat_map in He. destruct He as [kv [Hkv He]].
    unfold report_invalid in He.
    destruct (0 <? List.length (snd kv))%nat; [|destruct He].
    destruct He as [He|[]]. inversion He as [[Ek Ev]]. clear He.
    unfold invalid_lists in Hkv. simpl in Hk, Hkv.
    destruct Hk as [Hk|[Hk|[Hk|[]]]]; inversion Hk; subst key proj allowed;
      destruct Hkv as [<-|[<-|[<-|[<-|[<-|[]]]]]];
      cbn [fst snd] in *; try discriminate; subst vals;
      apply string_column_invalid_In.
  - intros r Hr. split; [|split; [|split; [|split]]].
    + apply (string_column_reported df "location" location); auto.
      unfold invalid_lists. simpl. auto.
    + intros q Hq Hv.
      assert (Hin : In q (dropna (map quantile (rows df)))).
      { apply dropna_In. rewrite <- Hq. now apply in_map. }
      destruct (unique_repr Qeq_bool Qeq_bool_refl Qeq_bool_trans _ _ Hin)
        as [q' [Hq' E]].
      apply Qeq_bool_iff in E.
      assert (Hn : In (Num q')
                 (map Num (filter (not_in Qeq_bool VALID_QUANTILES)
                    (unique Qeq_bool (dropna (map quantile (rows df))))))).
      { apply in_map, filter_In. split; auto. unfold not_in.
        apply negb_true_iff.
        destruct (mem Qeq_bool q' VALID_QUANTILES) eqn:M; auto.
        apply mem_Q_iff in M. destruct M as [v [Hv' Ev]].
        elim (Hv v Hv'). now rewrite <- E. }
      eexists. exists q'. split; [|split; [exact Hn|exact E]].
      apply (report_invalid_In
               ("quantile",
                map Num (filter (not_in Qeq_bool VALID_QUANTILES)
                   (unique Qeq_bool (dropna (map quantile (rows df))))))).
      * unfold invalid_lists. simpl. auto.
      * cbn [snd]. intros E'. rewrite E' in Hn. destruct Hn.
    + apply (string_column_reported df "type" type); auto.
      unfold invalid_lists. simpl. auto.
    + apply (string_column_reported df "age_group" age_group); auto.
      unfold invalid_lists. simpl. auto 6.
    + intros Hh.
      assert (Hn : In (Num (inject_Z (horizon r)))
                 (map (fun h => Num (inject_Z h))
                    (filter (not_in Z.eqb VALID_HORIZONS)
                       (unique Z.eqb (map horizon (rows df)))))).
      { apply (in_map (fun h => Num (inject_Z h))), filter_In. split.
        - apply (unique_In Z.eqb Z.eqb_eq). now apply in_map.
        - unfold not_in. apply negb_true_iff.
          destruct (mem Z.eqb (horizon r) VALID_HORIZONS) eqn:M; auto.
          apply mem_horizon_iff in M. contradiction. }
      eexists. split; [|exact Hn].
      apply (report_invalid_In
               ("horizon",
                map (fun h => Num (inject_Z h))
                    (filter (not_in Z.eqb VALID_HORIZONS)
                       (unique Z.eqb (map horizon (rows df)))))).
      * unfold invalid_lists. simpl. auto 6.
      * cbn [snd]. intros E'. rewrite E' in Hn. destruct Hn.
  - exists (fun key =>
              existsb (fun kv => String.eqb (fst kv) key &&
                                 (0 <? List.length (snd kv))%nat)
                      (invalid_lists df)).
    unfold invalid_lists, report_invalid, COLUMN_VALUES_COLUMNS.
    cbn [flat_map fst snd].
    generalize (map Str (filter (not_in String.eqb LOCATION_CODES)
                  (unique String.eqb (map location (rows df))))).
    generalize (map Num (filter (not_in Qeq_bool VALID_QUANTILES)
                  (unique Qeq_bool (dropna (map quantile (rows df)))))).
    generalize (map Str (filter (not_in String.eqb VALID_TYPES)
                  (unique String.eqb (map type (rows df))))).
    generalize (map Str (filter (not_in String.eqb VALID_AGE_GROUPS)
                  (unique String.eqb (map age_group (rows df))))).
    generalize (map (fun h => Num (inject_Z h))
                  (filter (not_in Z.eqb VALID_HORIZONS)
                     (unique Z.eqb (map horizon (rows df))))).
    intros l5 l4 l3 l2 l1.
    destruct l1, l2, l3, l4, l5; reflexivity.
Qed.

(** Of the table with the location FR and the horizon 7, both columns
    are reported, in this order. *)
Lemma check_column_values_verdict_witness :
  forallb (has df_abroad) COLUMN_VALUES_COLUMNS = true /\
  (exists vals,
     In (InvalidEntries "location" vals)
        (messages (fst (check_column_values df_abroad))) /\
     In (Str "FR") vals) /\
  (exists vals,
     In (InvalidEntries "horizon" vals)
        (messages (fst (check_column_values df_abroad))) /\
     In (Num (7 # 1)%Q) vals) /\
  messages (fst (check_column_values df_abroad))
  = [InvalidEntries "location" [Str "FR"];
     InvalidEntries "horizon" [Num (7 # 1)%Q]].
Proof.
  pose proof (check_column_values_verdict df_abroad eq_refl) as H.
  destruct H as [_ [_ [_ [_ [H _]]]]].
  destruct (H row_abroad (or_intror (or_introl eq_refl)))
    as [H1 [_ [_ [_ H5]]]].
  split; [reflexivity|]. split; [|split].
  - apply H1. simpl. intros F.
    repeat (destruct F as [F|F]; [discriminate|]). destruct F.
  - apply H5. simpl. lia.
  - reflexivity.
Defined.

(** ** Mean rows *)

Lemma check_mean_result (df : DataFrame) :
  forallb (has df) ["type"; "quantile"] = true ->
  let n := count mean_with_quantile (rows df) in
  fst (check_mean df) =
  Ret (if (0 <? n)%nat then PyStr (MeanWithQuantile n) else PyNone).
Proof.
  intros Hcols n. simpl in Hcols.
  repeat (apply andb_true_iff in Hcols; destruct Hcols as [? Hcols]).
  unfold check_mean. cbn [require bind].
  repeat match goal with
         | H : has df _ = true |- _ => rewrite H; clear H
         end.
  assert (E : count (fun q => negb (isnull q))
                (map quantile
                   (filter (fun r => String.eqb (type r) "mean") (rows df)))
              = n).
  { unfold n, count. induction (rows df) as [|r l IH]; simpl; auto.
    unfold mean_with_quantile at 1.
    destruct (String.eqb (type r) "mean"); simpl; auto.
    destruct (negb (isnull (quantile r))); simpl; now rewrite IH. }
  rewrite E. destruct (0 <? n)%nat; reflexivity.
Qed.

(** On a table that has the columns [type] and [quantile], [check_mean]
    returns nothing exactly when every row of type mean has a null
    quantile; otherwise it returns one message with the number of rows of
    type mean that carry a quantile.  The order of the rows does not
    matter. *)
Theorem check_mean_counts (df : DataFrame)
  (Hcols : forallb (has df) ["type"; "quantile"] = true) :
  (fst (check_mean df) = Ret PyNone <->
   forall r, In r (rows df) -> type r = "mean" -> quantile r = None) /\
  (forall e, fst (check_mean df) = Ret (PyStr e) ->
     e = MeanWithQuantile (List.length (filter mean_with_quantile (rows df)))
     /\ (0 < List.length (filter mean_with_quantile (rows df)))%nat) /\
  (forall df', forallb (has df') ["type"; "quantile"] = true ->
     Permutation (rows df) (rows df') ->
     fst (check_mean df') = fst (check_mean df)).
Proof.
  pose proof (check_mean_result df Hcols) as R. cbv zeta in R.
  split; [|split].
  - rewrite R. unfold count.
    rewrite <- (negb_involutive
                  (0 <? List.length (filter mean_with_quantile (rows df)))%nat).
    split.
    + intros H r Hr Ht.
      destruct (0 <? List.length (filter mean_with_quantile (rows df)))%nat
        eqn:E; simpl in H; [discriminate|].
      apply Nat.ltb_ge in E.
      destruct (quantile r) as [q|] eqn:Eq; auto.
      assert (Hin : In r (filter mean_with_quantile (rows df))).
      { apply filter_In. split; auto. unfold mean_with_quantile.
        rewrite Ht, Eq. reflexivity. }
      destruct (filter mean_with_quantile (rows df)); [destruct Hin|].
      simpl in E. lia.
    + intros H.
      destruct (filter mean_with_quantile (rows df)) as [|r t] eqn:E;
        [reflexivity|].
      assert (Hin : In r (filter mean_with_quantile (rows df)))
        by (rewrite E; now left).
      apply filter_In in Hin. destruct Hin as [Hr Hm].
      unfold mean_with_quantile in Hm. apply andb_true_iff in Hm.
      destruct Hm as [Ht Hq]. apply String.eqb_eq in Ht.
      rewrite (H r Hr Ht) in Hq. discriminate.
  - intros e He. rewrite R in He. unfold count in He.
    destruct (0 <? List.length (filter mean_with_quantile (rows df)))%nat
      eqn:E; [|discriminate].
    apply Nat.ltb_lt in E. split; auto. congruence.
  - intros df' Hcols' P.
    rewrite R, (check_mean_result df' Hcols').
    now rewrite (count_perm _ _ _ P).
Qed.

Lemma check_mean_counts_witness :
  forallb (has df_mean_with_quantile) ["type"; "quantile"] = true /\
  fst (check_mean df_mean_with_quantile)
  = Ret (PyStr (MeanWithQuantile 1)).
Proof.
  split; [reflexivity|].
  pose proof (proj1 (proj2 (check_mean_counts df_mean_with_quantile
                                              eq_refl))) as H.
  destruct (fst (check_mean df_mean_with_quantile))
    as [[|e|l]|x] eqn:E; try discriminate.
  destruct (H e eq_refl) as [-> _]. reflexivity.
Defined.

(** ** Cells of the value column *)

(** What passes the test of [check_value]. *)
Lemma is_numeric_char_spec (a : ascii) : is_numeric_char a = numeric_char a.
Proof.
  unfold is_numeric_char, numeric_char, is_digit. cbn [existsb].
  rewrite orb_false_r, !orb_assoc. reflexivity.
Qed.

Lemma isnumeric_without_points (s : string) :
  isnumeric (remove_char "." s) = numerics_and_points s.
Proof.
  unfold numerics_and_points.
  induction s as [|a s IH]; [reflexivity|].
  cbn [remove_char string_forall string_exists].
  destruct (Ascii.eqb a ".") eqn:E.
  - apply Ascii.eqb_eq in E. subst a. rewrite IH. reflexivity.
  - rewrite orb_false_r.
    assert (A : all_numeric (remove_char "." s)
                = string_forall (fun a => numeric_char a || Ascii.eqb a ".")
                                s).
    { clear. induction s as [|b s IH]; [reflexivity|]. simpl.
      destruct (Ascii.eqb b ".") eqn:E.
      - apply Ascii.eqb_eq in E. subst b. rewrite IH. reflexivity.
      - simpl. now rewrite IH, orb_false_r, is_numeric_char_spec. }
    cbn [isnumeric all_numeric]. rewrite A, is_numeric_char_spec.
    destruct (numeric_char a); simpl; auto. now rewrite andb_true_r.
Qed.

Lemma string_exists_forall (p q : ascii -> bool) (s : string) :
  string_exists p s = true ->
  (forall a, p a = true -> q a = false) ->
  string_forall q s = false.
Proof.
  intros H Hpq. induction s as [|a s IH]; [discriminate|]. simpl in *.
  destruct (p a) eqn:E.
  - now rewrite (Hpq a E).
  - simpl in H. rewrite (IH H). apply andb_false_r.
Qed.

Lemma value_messages_In (b1 b2 : bool) (n0 : nat) (bad : list string) :
  let msgs := (if b1 then [MissingValues n0] else []) ++
              (if b2 then [NonNumeric bad] else []) in
  (forall n, In (MissingValues n) msgs <-> b1 = true /\ n0 = n) /\
  (forall vals, In (NonNumeric vals) msgs <-> b2 = true /\ bad = vals).
Proof.
  destruct b1, b2; simpl; split; intros x; split; intros H;
    intuition (try discriminate; congruence).
Qed.

(** On a table that has the column [value], with each cell taken as
    [astype(str)] shows it, [check_value] returns nothing exactly when
    every cell is there and is made of numeric characters and points only,
    with a numeric character among them.  The message for missing cells
    carries their number and comes first; the message for cells that are
    not numeric lists, in the order of the rows and with repetitions, the
    cells that are not of that form.  So a cell that shows a sign, an
    exponent or any other character that is neither numeric nor a point is
    listed. *)
Theorem check_value_verdict (df : DataFrame)
  (Hcol : has df "value" = true) :
  let values := map value (rows df) in
  let msgs := messages (fst (check_value df)) in
  (fst (check_value df) = Ret PyNone <->
   forall c, In c values ->
             exists s, c = Some s /\ numerics_and_points s = true) /\
  (forall n, In (MissingValues n) msgs <->
             n = count isnull values /\ (0 < n)%nat) /\
  (forall vals, In (NonNumeric vals) msgs <->
     vals = filter (fun s => negb (numerics_and_points s)) (dropna values) /\
     vals <> []) /\
  (forall n vals, In (MissingValues n) msgs -> In (NonNumeric vals) msgs ->
                  msgs = [MissingValues n; NonNumeric vals]) /\
  (forall s a, In (Some s) values ->
     string_exists (Ascii.eqb a) s = true ->
     numeric_char a = false -> a <> "."%char ->
     exists vals, In (NonNumeric vals) msgs /\ In s vals).
Proof.
  intros values msgs.
  pose proof (check_value_result df Hcol) as R. cbv zeta in R.
  fold values in R.
  rewrite (filter_ext _ (fun s => negb (numerics_and_points s))) in R
    by (intros s; now rewrite isnumeric_without_points).
  set (n0 := count isnull values) in *.
  set (bad := filter (fun s => negb (numerics_and_points s)) (dropna values))
    in *.
  assert (M : msgs =
              (if (0 <? n0)%nat then [MissingValues n0] else []) ++
              (if (0 <? List.length bad)%nat then [NonNumeric bad] else [])).
  { unfold msgs. rewrite R. apply messages_return_if_any. }
  assert (Hn0 : (0 <? n0)%nat = false <-> forall c, In c values -> c <> None).
  { unfold n0, count. rewrite Nat.ltb_ge. split.
    - intros H c Hc ->.
      assert (Hin : In None (filter isnull values))
        by (apply filter_In; auto).
      destruct (filter isnull values); [destruct Hin|simpl in H; lia].
    - intros H. destruct (filter isnull values) as [|c t] eqn:E; auto.
      assert (Hin : In c (filter isnull values)) by (rewrite E; now left).
      apply filter_In in Hin. destruct Hin as [Hc Hnull].
      destruct c; [discriminate|]. now elim (H None Hc). }
  assert (Hbad : forall s, In s bad <->
                           In (Some s) values /\ numerics_and_points s = false).
  { intros s. unfold bad.
    now rewrite filter_In, dropna_In, negb_true_iff. }
  split; [|split; [|split; [|split]]].
  - rewrite R. rewrite <- M.
    assert (E : Ret (return_if_any msgs) = Ret PyNone <-> msgs = []).
    { rewrite <- return_if_any_none. split; congruence. }
    rewrite E, M. split.
    + intros H c Hc. apply app_eq_nil in H. destruct H as [H1 H2].
      destruct (0 <? n0)%nat eqn:E1; [discriminate|].
      destruct (0 <? List.length bad)%nat eqn:E2; [discriminate|].
      destruct c as [s|]; [|now elim (proj1 Hn0 eq_refl None Hc)].
      exists s. split; auto.
      destruct (numerics_and_points s) eqn:Ed; auto.
      assert (Hin : In s bad) by (apply Hbad; auto).
      apply Nat.ltb_ge in E2. destruct bad; [destruct Hin|simpl in E2; lia].
    + intros H.
      assert (E1 : (0 <? n0)%nat = false).
      { apply Hn0. intros c Hc ->. destruct (H None Hc) as [s [Es _]].
        discriminate. }
      assert (E2 : bad = []).
      { destruct bad as [|s t] eqn:Eb; auto.
        assert (Hin : In s (s :: t)) by now left.
        apply Hbad in Hin. destruct Hin as [Hs Hd].
        destruct (H _ Hs) as [s' [Es Hd']]. congruence. }
      rewrite E1, E2. reflexivity.
  - intros n. rewrite M, (proj1 (value_messages_In _ _ _ _)).
    rewrite Nat.ltb_lt. split; intros [H1 H2]; subst; auto.
  - intros vals. rewrite M, (proj2 (value_messages_In _ _ _ _) vals).
    rewrite length_pos_iff. split; intros [H1 H2]; subst; auto.
  - intros n vals. rewrite M.
    destruct (0 <? n0)%nat, (0 <? List.length bad)%nat; simpl;
      intuition (try discriminate; congruence).
  - intros s a Hs Ha Hd Hp.
    assert (Hin : In s bad).
    { apply Hbad. split; auto. unfold numerics_and_points.
      rewrite (string_exists_forall (Ascii.eqb a) _ s Ha); auto.
      intros b Hb. apply Ascii.eqb_eq in Hb. subst b. rewrite Hd.
      simpl. now apply Ascii.eqb_neq. }
    exists bad. split; auto. rewrite M. apply in_app_iff. right.
    destruct (0 <? List.length bad)%nat eqn:E; [now left|].
    apply Nat.ltb_ge in E. destruct bad; [destruct Hin|simpl in E; lia].
Qed.

(** Of the four cells of the example the missing one is counted and the
    one with the exponent is listed; the fraction one half passes. *)
Lemma check_value_verdict_witness :
  messages (fst (check_value df_values))
  = [MissingValues 1; NonNumeric ["1e-05"]].
Proof.
  pose proof (check_value_verdict df_values eq_refl) as H.
  cbv zeta in H. destruct H as [_ [H2 [H3 [H4 _]]]].
  apply H4.
  - apply H2. split; [reflexivity|]. simpl. lia.
  - apply H3. split; [reflexivity|discriminate].
Defined.

(** ** The table of duplicates *)

Section InsertionSort.
Context {A : Type} (leb : A -> A -> bool).
Hypothesis leb_total : forall x y, leb x y = false -> leb y x = true.


End InsertionSort.












(** ** Columns that are not there *)

Lemma require_first_missing (df : DataFrame) (e : string -> exn)
  (names : list string) :
  require df e names =
  match first_missing df names with
  | Some c => Raise (e c)
  | None => Ret tt
  end.
Proof.
  unfold first_missing.
  induction names as [|n names IH]; simpl; auto.
  destruct (has df n); simpl; auto.
Qed.

Lemma first_missing_app (df : DataFrame) (l1 l2 : list string) :
  first_missing df (l1 ++ l2) =
  match first_missing df l1 with
  | Some c => Some c
  | None => first_missing df l2
  end.
Proof.
  unfold first_missing. induction l1 as [|n l1 IH]; simpl; auto.
  destruct (negb (has df n)); auto.
Qed.

Lemma check_column_values_missing (df : DataFrame) (col : string) :
  first_missing df COLUMN_VALUES_COLUMNS = Some col ->
  check_column_values df = (Raise (AttributeError col), df) \/
  check_column_values df = (Raise (KeyError col), df).
Proof.
  unfold first_missing, COLUMN_VALUES_COLUMNS, check_column_values.
  cbn [find require].
  destruct (has df "location"); cbn [negb bind];
    [|intros H; inversion H; auto].
  destruct (has df "quantile"); cbn [negb bind];
    [|intros H; inversion H; auto].
  destruct (has df "type"); cbn [negb bind];
    [|intros H; inversion H; auto].
  destruct (has df "age_group"); cbn [negb bind];
    [|intros H; inversion H; auto].
  destruct (has df "horizon"); cbn [negb bind];
    [|intros H; inversion H; auto].
  discriminate.
Qed.

Lemma check_value_missing (df : DataFrame) (col : string) :
  first_missing df ["value"] = Some col ->
  check_value df = (Raise (AttributeError col), df).
Proof.
  intros H. unfold check_value. rewrite require_first_missing, H.
  reflexivity.
Qed.

Lemma check_mean_missing (df : DataFrame) (col : string) :
  first_missing df ["type"; "quantile"] = Some col ->
  check_mean df = (Raise (AttributeError col), df) \/
  check_mean df = (Raise (KeyError col), df).
Proof.
  unfold first_missing, check_mean. cbn [find require].
  destruct (has df "type"); cbn [negb bind];
    [|intros H; inversion H; auto].
  destruct (has df "quantile"); cbn [negb bind];
    [|intros H; inversion H; auto].
  discriminate.
Qed.

Lemma find_filter {A} (p : A -> bool) (l : list A) :
  find p l = hd_error (filter p l).
Proof.
  induction l as [|a l IH]; simpl; auto. destruct (p a); auto.
Qed.

Lemma check_duplicates_missing (df : DataFrame) (col : string) :
  first_missing df KEY7 = Some col ->
  exists e,
    check_duplicates df = (Raise e, df) /\
    (rows df <> [] ->
     exists names, e = KeyErrorIndex names /\
       forall k, In k names <-> In k KEY7 /\ has df k = false) /\
    (rows df = [] -> e = KeyError col).
Proof.
  unfold first_missing. rewrite find_filter. intros H.
  unfold check_duplicates.
  assert (Hin : forall k, In k (filter (fun c => negb (has df c)) KEY7) <->
                          In k KEY7 /\ has df k = false).
  { intros k. now rewrite filter_In, negb_true_iff. }
  destruct (filter (fun c => negb (has df c)) KEY7) as [|c missing];
    [discriminate|].
  simpl in H. inversion H. subst c.
  destruct (rows df) as [|r0 l].
  - eexists. split; [reflexivity|]. split; [congruence|auto].
  - eexists. split; [reflexivity|]. split; [|discriminate].
    intros _. eauto.
Qed.

Lemma check_target_dates_missing (df : DataFrame) (col : string) :
  first_missing df TARGET_DATE_COLUMNS = Some col ->
  exists e df',
    check_target_dates df = (Raise e, df') /\
    (rows df <> [] \/ List.length (columns df) <> 1%nat -> df' = df) /\
    (rows df <> [] -> e = AttributeError col) /\
    (rows df = [] -> e = ValueError \/ exists names, e = KeyErrorIndex names).
Proof.
  intros H.
  destruct (check_target_dates_raises df) as [R1 [R2 [R3 _]]].
  destruct (rows df) as [|r0 l] eqn:El.
  - destruct (Nat.eq_dec (List.length (columns df)) 1) as [E|E].
    + destruct (R2 eq_refl E) as [names Hn].
      exists (KeyErrorIndex names). eexists. split; [exact Hn|].
      split; [intros [N|N]; congruence|]. split; [congruence|eauto].
    + exists ValueError, df. split; [now apply R1|].
      split; [auto|]. split; [congruence|auto].
  - exists (AttributeError col), df. split.
    + apply R3; [discriminate|exact H].
    + split; [auto|]. split; [auto|discriminate].
Qed.

Lemma check_quantiles_missing (df : DataFrame) (col : string) :
  first_missing df QUANTILE_COLUMNS = Some col ->
  check_quantiles df = (Raise (AttributeError col), df) \/
  check_quantiles df = (Raise (KeyError col), df).
Proof.
  unfold QUANTILE_COLUMNS.
  change ("type" :: KEY4 ++ ["quantile"])
    with (["type"] ++ KEY4 ++ ["quantile"]).
  rewrite !first_missing_app. intros H.
  unfold check_quantiles. rewrite !require_first_missing.
  destruct (first_missing df ["type"]) as [c|].
  - inversion H. subst. auto.
  - cbn [bind]. destruct (first_missing df KEY4) as [c|].
    + inversion H. subst. auto.
    + cbn [bind]. rewrite H. auto.
Qed.

(** Each check of the loop gives on the table it finds what it gives on
    the table as parsed. *)
Lemma outcomes_on_parsed (df : DataFrame) :
  outcomes checks df = map (fun c => (fst c, fst (snd c df))) checks.
Proof.
  pose proof (pure_checks_table df) as [P1 [P2 [P3 [P4 P5]]]].
  unfold checks. cbn [outcomes map fst snd].
  rewrite P1, P2, P3, P4, P5.
  now rewrite check_quantiles_after_target_dates.
Qed.

(** When a column that a check of the loop reads is not in the header, the
    check raises and leaves the table as it is ([check_target_dates] on a
    table without rows and with one column apart), and in the loop of
    [check_forecast] this counts for the one message [Fatal error] with
    the name of the check.  [check_column_values], [check_value],
    [check_mean] and [check_quantiles] raise an [AttributeError] or a
    [KeyError] for the first such column in the order they read them.
    [check_duplicates] raises one [KeyError] that holds the key columns
    the header lacks, and on a table without rows one for the first of
    them.  [check_target_dates] raises an [AttributeError] for the first
    such column on a table with rows; on a table without rows it raises
    whatever the header. *)
Theorem missing_column_raises (df : DataFrame) (name : string) (c : check)
  (cols : list string) (col : string)
  (Hcheck : In (name, c) checks)
  (Hreads : In (name, cols) READS)
  (Hmiss : first_missing df cols = Some col) :
  In col cols /\ has df col = false /\
  exists e df',
    c df = (Raise e, df') /\
    (rows df <> [] \/ List.length (columns df) <> 1%nat -> df' = df) /\
    (forall errors, run_check (errors, df) (name, c)
                    = (errors ++ [FatalError name], df')) /\
    In (name, Raise e) (outcomes checks df) /\
    (In name ["check_column_values"; "check_value"; "check_mean";
              "check_quantiles"] ->
     e = AttributeError col \/ e = KeyError col) /\
    (name = "check_duplicates" ->
     (rows df <> [] ->
      exists names, e = KeyErrorIndex names /\
        forall k, In k names <-> In k KEY7 /\ has df k = false) /\
     (rows df = [] -> e = KeyError col)) /\
    (name = "check_target_dates" ->
     (rows df <> [] -> e = AttributeError col) /\
     (rows df = [] ->
      e = ValueError \/ exists names, e = KeyErrorIndex names)).
Proof.
  assert (Hcol : In col cols /\ has df col = false).
  { unfold first_missing in Hmiss. apply find_some in Hmiss.
    destruct Hmiss as [H1 H2]. apply negb_true_iff in H2. auto. }
  destruct Hcol as [Hc1 Hc2]. split; [exact Hc1|]. split; [exact Hc2|].
  assert (E : exists e df',
    c df = (Raise e, df') /\
    (rows df <> [] \/ List.length (columns df) <> 1%nat -> df' = df) /\
    (In name ["check_column_values"; "check_value"; "check_mean";
              "check_quantiles"] ->
     e = AttributeError col \/ e = KeyError col) /\
    (name = "check_duplicates" ->
     (rows df <> [] ->
      exists names, e = KeyErrorIndex names /\
        forall k, In k names <-> In k KEY7 /\ has df k = false) /\
     (rows df = [] -> e = KeyError col)) /\
    (name = "check_target_dates" ->
     (rows df <> [] -> e = AttributeError col) /\
     (rows df = [] ->
      e = ValueError \/ exists names, e = KeyErrorIndex names))).
  { unfold READS in Hreads. unfold checks in Hcheck.
    simpl in Hreads, Hcheck.
    destruct Hreads as [R|[R|[R|[R|[R|[R|[]]]]]]]; inversion R; subst name cols;
      clear R;
      destruct Hcheck as [C|[C|[C|[C|[C|[C|[C|[]]]]]]]]; inversion C; subst c;
      clear C.
    - assert (H : check_column_values df = (Raise (AttributeError col), df) \/
                  check_column_values df = (Raise (KeyError col), df))
        by exact (check_column_values_missing df col Hmiss).
      destruct H as [H|H]; eexists; exists df;
        (split; [exact H|]); (split; [auto|]);
        (split; [auto|]); split; discriminate.
    - pose proof (check_value_missing df col Hmiss) as H.
      eexists; exists df; (split; [exact H|]); (split; [auto|]);
        (split; [auto|]); split; discriminate.
    - destruct (check_mean_missing df col Hmiss) as [H|H];
        eexists; exists df; (split; [exact H|]); (split; [auto|]);
        (split; [auto|]); split; discriminate.
    - destruct (check_duplicates_missing df col Hmiss) as [e [H [H1 H2]]].
      exists e, df. split; [exact H|]. split; [auto|]. split.
      + simpl. intros [N|[N|[N|[N|[]]]]]; discriminate.
      + split; [auto|discriminate].
    - destruct (check_target_dates_missing df col Hmiss)
        as [e [df' [H [H0 [H1 H2]]]]].
      exists e, df'. split; [exact H|]. split; [exact H0|]. split.
      + simpl. intros [N|[N|[N|[N|[]]]]]; discriminate.
      + split; [discriminate|auto].
    - destruct (check_quantiles_missing df col Hmiss) as [H|H];
        eexists; exists df; (split; [exact H|]); (split; [auto|]);
        (split; [auto|]); split; discriminate. }
  destruct E as [e [df' [Hc [Hdf HQ]]]]. exists e, df'.
  split; [exact Hc|]. split; [exact Hdf|]. split; [|split; [|exact HQ]].
  - intros errors. unfold run_check. cbn [fst snd]. now rewrite Hc.
  - rewrite outcomes_parsed. apply in_map_iff.
    exists (name, c). cbn [fst snd]. rewrite Hc. auto.
Qed.

(** Without the column [horizon], [check_duplicates] raises the
    [KeyError] that holds [horizon] and the loop notes the one message. *)
Lemma missing_column_raises_witness :
  exists names,
    In "horizon" names /\
    run_check ([], df_no_horizon) ("check_duplicates", check_duplicates)
    = ([FatalError "check_duplicates"], df_no_horizon) /\
    fst (check_duplicates df_no_horizon) = Raise (KeyErrorIndex names).
Proof.
  destruct (missing_column_raises
              df_no_horizon "check_duplicates" check_duplicates
              KEY7 "horizon"
              (or_intror (or_intror (or_intror (or_intror
                 (or_introl eq_refl)))))
              (or_intror (or_intror (or_intror (or_introl eq_refl))))
              eq_refl)
    as [_ [_ [e [df' [Hc [Hdf [Hrun [_ [_ [Hd _]]]]]]]]]].
  assert (Hrows : rows df_no_horizon <> []) by discriminate.
  assert (Edf : df' = df_no_horizon) by (apply Hdf; left; exact Hrows).
  destruct (proj1 (Hd eq_refl) Hrows) as [names [He Hn]].
  exists names. split; [|split].
  - apply Hn. split; [simpl; tauto|reflexivity].
  - rewrite <- Edf at 2. exact (Hrun []).
  - rewrite Hc, He. reflexivity.
Defined.

(** ** What [check_forecast] raises, and how much it returns *)

Lemma date_message_single (v : pyval) (e : error) :
  v = PyStr e \/ v = PyNone -> (List.length (as_list v) <= 1)%nat.
Proof. intros [->| ->]; simpl; lia. Qed.

Lemma contribution_length (name : string) (out : res pyval) (k : nat) :
  (1 <= k)%nat ->
  (List.length (messages out) <= k)%nat ->
  (List.length (contribution (name, out)) <= k)%nat.
Proof.
  intros Hk H. unfold contribution. cbn [snd fst].
  destruct out as [v|e]; simpl in *; auto.
  destruct (truthy v); simpl; auto. lia.
Qed.

Lemma return_if_any_length (errors : list error) :
  List.length (as_list (return_if_any errors)) = List.length errors.
Proof. unfold return_if_any. now destruct errors. Qed.

Lemma check_header_bound (df : DataFrame) :
  (List.length (messages (fst (check_header df))) <= 2)%nat.
Proof.
  rewrite check_header_result. cbv zeta. rewrite messages_return_if_any.
  rewrite length_app.
  repeat match goal with
         | |- context [if ?b then _ else _] => destruct b
         end; simpl; lia.
Qed.

Lemma check_column_values_bound (df : DataFrame) :
  (List.length (messages (fst (check_column_values df))) <= 5)%nat.
Proof.
  unfold check_column_values. cbn [fst require].
  repeat match goal with
         | |- context [has df ?c] => destruct (has df c); cbn [bind messages]
         end; simpl; try lia.
  rewrite return_if_any_length, !length_app. unfold report_invalid.
  repeat match goal with
         | |- context [if ?b then _ else _] => destruct b
         end; simpl; lia.
Qed.

Lemma check_value_bound (df : DataFrame) :
  (List.length (messages (fst (check_value df))) <= 2)%nat.
Proof.
  unfold check_value. cbn [require].
  destruct (has df "value"); simpl; [|lia].
  rewrite return_if_any_length.
  repeat match goal with
         | |- context [if ?b then _ else _] => destruct b
         end; simpl; lia.
Qed.

Lemma check_mean_bound (df : DataFrame) :
  (List.length (messages (fst (check_mean df))) <= 1)%nat.
Proof.
  unfold check_mean. destruct (_ <- _ ;; _); simpl; [|lia].
  destruct (0 <? _)%nat; simpl; lia.
Qed.

Lemma check_duplicates_bound (df : DataFrame) :
  (List.length (messages (fst (check_duplicates df))) <= 1)%nat.
Proof.
  unfold check_duplicates.
  destruct (rows df), (filter (fun c => negb (has df c)) KEY7);
    cbv zeta; try (simpl; lia); destruct (0 <? _)%nat; simpl; lia.
Qed.

Lemma check_target_dates_bound (df : DataFrame) :
  (List.length (messages (fst (check_target_dates df))) <= 1)%nat.
Proof.
  unfold check_target_dates.
  destruct (rows df) as [|r0 l].
  - destruct (columns df) as [|c [|c' cs]]; simpl; lia.
  - destruct (require df AttributeError _); [|simpl; lia].
    destruct (negb (forallb computes (r0 :: l))); [simpl; lia|].
    cbv zeta. destruct (0 <? _)%nat; simpl; lia.
Qed.

Lemma check_quantiles_bound (df : DataFrame) :
  (List.length (messages (fst (check_quantiles df))) <= 1)%nat.
Proof.
  rewrite check_quantiles_outcome.
  destruct (require_quantile_columns df); simpl; [|lia].
  unfold quantiles_verdict. destruct (_ && _); simpl; lia.
Qed.

Lemma loop_bound (df : DataFrame) :
  (List.length (flat_map contribution (outcomes checks df)) <= 13)%nat.
Proof.
  rewrite outcomes_on_parsed. unfold checks. cbn [map flat_map fst snd].
  rewrite !length_app. cbn [List.length].
  pose proof (contribution_length "check_header" _ 2 ltac:(lia)
                (check_header_bound df)).
  pose proof (contribution_length "check_column_values" _ 5 ltac:(lia)
                (check_column_values_bound df)).
  pose proof (contribution_length "check_value" _ 2 ltac:(lia)
                (check_value_bound df)).
  pose proof (contribution_length "check_mean" _ 1 ltac:(lia)
                (check_mean_bound df)).
  pose proof (contribution_length "check_duplicates" _ 1 ltac:(lia)
                (check_duplicates_bound df)).
  pose proof (contribution_length "check_target_dates" _ 1 ltac:(lia)
                (check_target_dates_bound df)).
  pose proof (contribution_length "check_quantiles" _ 1 ltac:(lia)
                (check_quantiles_bound df)).
  lia.
Qed.

Section Fatal.
Variable to_date : string -> option pydate.
Variable today : date.
Variable read_csv : string -> res RawFrame.
Variable read_csv_parse_dates : string -> res DataFrame.

Lemma check_forecast_date_returns (filepath : string) (v : pyval) :
  check_forecast_date to_date today read_csv filepath = Ret v ->
  (exists e, v = PyStr e) \/ v = PyNone.
Proof.
  unfold check_forecast_date.
  destruct (to_date (take 10 (basename filepath))) as [f|];
    [|intros H; inversion H; eauto].
  destruct (read_csv filepath) as [df|x]; cbn [bind]; [|discriminate].
  destruct (raw_column df "forecast_date") as [col|x]; cbn [bind];
    [|discriminate].
  destruct (1 <? nunique String.eqb col)%nat;
    [intros H; inversion H; eauto|].
  destruct col as [|c rest]; cbn [iloc0 bind]; [discriminate|].
  destruct (cell_to_date to_date c) as [d|];
    [|intros H; inversion H; eauto].
  destruct (date_differs f d); [intros H; inversion H; eauto|].
  destruct (_ && _); intros H; inversion H; eauto.
Qed.

(** [check_forecast_date] raises exactly when the date of the file name
    parses and then the read of the file fails, or the table has no column
    [forecast_date], or the column has no cell.  [check_forecast] raises
    exactly when the date check raises or, after it has returned, the
    second read of the file fails: never because of a check of the
    loop. *)
Theorem check_forecast_raises_iff (filepath : string) (x : exn) :
  (check_forecast_date to_date today read_csv filepath = Raise x <->
   (exists f, to_date (filename_prefix filepath) = Some f) /\
   (read_csv filepath = Raise x \/
    exists df, read_csv filepath = Ret df /\
      (raw_column df "forecast_date" = Raise x \/
       raw_column df "forecast_date" = Ret [] /\ x = IndexError))) /\
  (check_forecast to_date today read_csv read_csv_parse_dates filepath
   = Raise x <->
   check_forecast_date to_date today read_csv filepath = Raise x \/
   (exists r, check_forecast_date to_date today read_csv filepath = Ret r) /\
   read_csv_parse_dates filepath = Raise x).
Proof.
  split.
  - unfold check_forecast_date, filename_prefix.
    destruct (to_date (take 10 (basename filepath))) as [f|].
    2:{ split; [discriminate|]. intros [[f Hf] _]. discriminate. }
    destruct (read_csv filepath) as [df|y] eqn:Er; cbn [bind].
    2:{ split.
        - intros H. split; [exists f; reflexivity|left; congruence].
        - intros [_ [H|[df [H _]]]]; [congruence|discriminate]. }
    destruct (raw_column df "forecast_date") as [col|y] eqn:Ec; cbn [bind].
    2:{ split.
        - intros H. split; [exists f; reflexivity|].
          right. exists df. split; [reflexivity|left; congruence].
        - intros [_ [H|[df' [H [H'|[H' _]]]]]]; try discriminate;
            inversion H; subst df'; congruence. }
    destruct (1 <? nunique String.eqb col)%nat eqn:En.
    { split; [discriminate|].
      intros [_ [H|[df' [H [H'|[H' _]]]]]]; try discriminate;
        inversion H; subst df'; try congruence.
      rewrite Ec in H'. inversion H'. subst col. discriminate. }
    destruct col as [|c rest]; cbn [iloc0 bind].
    { split.
      - intros H. inversion H. subst x. split; [exists f; reflexivity|].
        right. exists df. split; [reflexivity|right; auto].
      - intros [_ [H|[df' [H [H'|[H' ->]]]]]]; try discriminate; auto.
        inversion H; subst df'. congruence. }
    split.
    + destruct (cell_to_date to_date c) as [d|]; [|discriminate].
      destruct (date_differs f d); [discriminate|].
      destruct (_ && _); discriminate.
    + intros [_ [H|[df' [H [H'|[H' _]]]]]]; try discriminate;
        inversion H; subst df'; congruence.
  - unfold check_forecast.
    destruct (check_forecast_date to_date today read_csv filepath)
      as [r|y]; cbn [bind].
    + destruct (read_csv_parse_dates filepath) as [df|y]; cbn [bind].
      * split; [discriminate|]. intros [H|[_ H]]; discriminate.
      * split; [intros H; right; split; [eauto|congruence]|].
        intros [H|[_ H]]; [discriminate|congruence].
    + split; [intros H; left; congruence|].
      intros [H|[[r H] _]]; [congruence|discriminate].
Qed.

(** [check_forecast] never returns more than 15 messages for a file. *)
Theorem check_forecast_bound (filepath : string) (errors : list error)
  (Hret : check_forecast to_date today read_csv read_csv_parse_dates filepath
          = Ret errors) :
  (List.length errors <= 15)%nat.
Proof.
  unfold check_forecast in Hret. cbv zeta in Hret.
  destruct (check_forecast_date to_date today read_csv filepath)
    as [r|y] eqn:Ed; cbn [bind] in Hret; [|discriminate].
  destruct (read_csv_parse_dates filepath) as [df|y]; cbn [bind] in Hret;
    [|discriminate].
  assert (E : errors =
    fst (fold_left run_check checks
           (extend (extend [] (check_filepath filepath)) r, df)))
    by congruence.
  rewrite E, run_checks_errors, length_app.
  pose proof (loop_bound df).
  assert (List.length (extend (extend [] (check_filepath filepath)) r)
          <= 2)%nat; [|lia].
  unfold extend, check_filepath.
  destruct (check_forecast_date_returns _ _ Ed) as [[e ->]| ->];
    destruct (re_match SUBMISSION_PATTERN filepath); simpl; lia.
Qed.

End Fatal.

Lemma check_forecast_bound_witness :
  (List.length (@nil error) <= 15)%nat.
Proof.
  exact (check_forecast_bound Examples.iso_date 738833%Z Examples.read_csv
           Examples.read_csv_parse_dates Examples.path [] eq_refl).
Defined.

(** ** What the date check does not look at *)

(** [check_forecast_date] does not read the file when the file name has no
    date, does not depend on the current date when the path contains
    [retrospective], and, when the column holds at most one distinct date,
    looks at its first cell only. *)
Theorem check_forecast_date_ignores (to_date : string -> option pydate)
  (today today' : date) (read_csv read_csv' : string -> res RawFrame)
  (filepath : string) :
  (to_date (filename_prefix filepath) = None ->
   check_forecast_date to_date today' read_csv' filepath
   = check_forecast_date to_date today read_csv filepath) /\
  (contains "retrospective" filepath = true ->
   check_forecast_date to_date today' read_csv filepath
   = check_forecast_date to_date today read_csv filepath) /\
  (forall df df' c rest rest',
     read_csv filepath = Ret df -> read_csv' filepath = Ret df' ->
     raw_column df "forecast_date" = Ret (c :: rest) ->
     raw_column df' "forecast_date" = Ret (c :: rest') ->
     (nunique String.eqb (c :: rest) <= 1)%nat ->
     (nunique String.eqb (c :: rest') <= 1)%nat ->
     check_forecast_date to_date today read_csv' filepath
     = check_forecast_date to_date today read_csv filepath).
Proof.
  unfold filename_prefix, check_forecast_date. split; [|split].
  - intros H. now rewrite H.
  - intros Hr. rewrite Hr. cbn [negb andb].
    destruct (to_date (take 10 (basename filepath))) as [f|]; auto.
  - intros df df' c rest rest' E E' C C' N N'.
    rewrite E, E'. cbn [bind]. rewrite C, C'. cbn [bind].
    apply Nat.ltb_ge in N, N'. rewrite N, N'. reflexivity.
Qed.

(** * Further properties of [main.py] *)

Module FlowFacts.
Import Main Flow MainFacts.

Lemma filter_split_perm {A} (p : A -> bool) (l : list A) :
  Permutation (filter p l ++ filter (fun x => negb (p x)) l) l.
Proof.
  induction l as [|a l IH]; simpl; auto.
  destruct (p a); simpl.
  - now apply perm_skip.
  - apply Permutation_sym, Permutation_cons_app, Permutation_sym, IH.
Qed.

Lemma other_files_filter (files_changed : list File) :
  other_files files_changed
  = filter (fun f => negb (re_match pat (filename f))) files_changed.
Proof.
  unfold other_files. apply filter_ext_in. intros f Hf. f_equal.
  destruct (re_match pat (filename f)) eqn:E.
  - apply mem_File_In, forecasts_In. auto.
  - destruct (mem File_eqb f (forecasts files_changed)) eqn:M; auto.
    apply mem_File_In, forecasts_In in M. destruct M. congruence.
Qed.

Lemma status_fold (fs : list File) (d c : bool) :
  fold_left status_step fs (d, c)
  = (d || existsb (fun f => String.eqb (status f) "removed") fs,
     c || existsb (fun f => negb (String.eqb (status f) "removed") &&
                            negb (String.eqb (status f) "added")) fs).
Proof.
  revert d c. induction fs as [|f fs IH]; intros d c; simpl.
  - now rewrite !orb_false_r.
  - destruct (String.eqb (status f) "removed"); simpl.
    + rewrite IH. now rewrite orb_true_r.
    + destruct (String.eqb (status f) "added"); simpl; rewrite IH; auto.
      now rewrite orb_true_r.
Qed.









End FlowFacts.

(** ** The split of the changed files, and the labels *)

(** The two comprehensions split the changed files: every file of the pull
    request is in exactly one of [forecasts] and [other_files], as often
    as it occurs. *)
Theorem files_partition (files_changed : list Main.File) :
  Permutation (Main.forecasts files_changed ++ Main.other_files files_changed)
              files_changed /\
  (forall f, In f (Main.forecasts files_changed) ->
             ~ In f (Main.other_files files_changed)).
Proof.
  split.
  - rewrite FlowFacts.other_files_filter. unfold Main.forecasts.
    apply (FlowFacts.filter_split_perm
             (fun f => re_match Main.pat (Main.filename f))).
  - intros f Hf Ho. apply MainFacts.forecasts_In in Hf.
    apply MainFacts.other_files_In in Ho. destruct Hf, Ho. congruence.
Qed.

(** [deleted_forecasts] is set exactly when a changed file that matches
    [pat] has status [removed]; [changed_forecasts] exactly when one has a
    status other than [removed] and [added].  Files that do not match
    [pat] set neither. *)
Theorem status_flags_spec (files_changed : list Main.File) :
  (fst (Flow.status_flags files_changed) = true <->
   exists f, In f files_changed /\
             re_match Main.pat (Main.filename f) = true /\
             Main.status f = "removed") /\
  (snd (Flow.status_flags files_changed) = true <->
   exists f, In f files_changed /\
             re_match Main.pat (Main.filename f) = true /\
             Main.status f <> "removed" /\ Main.status f <> "added").
Proof.
  unfold Flow.status_flags. rewrite FlowFacts.status_fold. simpl.
  rewrite !existsb_exists. split; split.
  - intros [f [Hf E]]. apply MainFacts.forecasts_In in Hf.
    apply String.eqb_eq in E. exists f. tauto.
  - intros [f [Hf [Hm E]]]. exists f. split.
    + apply MainFacts.forecasts_In. auto.
    + now apply String.eqb_eq.
  - intros [f [Hf E]]. apply MainFacts.forecasts_In in Hf.
    apply andb_true_iff in E. destruct E as [E1 E2].
    apply negb_true_iff, String.eqb_neq in E1, E2. exists f. tauto.
  - intros [f [Hf [Hm [E1 E2]]]]. exists f. split.
    + apply MainFacts.forecasts_In. auto.
    + apply andb_true_iff. split; now apply negb_true_iff, String.eqb_neq.
Qed.

(** Before it validates, the script labels the pull request exactly when
    at least one changed file matches [pat], and [data-submission] is then
    among the labels: a pull request that changes other files only gets
    no label. *)
Theorem labels_before_spec (files_changed : list Main.File) :
  (Flow.labels_before files_changed = [] <->
   Main.forecasts files_changed = []) /\
  (Main.forecasts files_changed <> [] ->
   In "data-submission" (Flow.labels_before files_changed)).
Proof.
  unfold Flow.labels_before, Flow.status_flags.
  destruct (Main.forecasts files_changed) as [|f fs] eqn:E.
  - simpl. rewrite andb_false_r. simpl. tauto.
  - split.
    + split; [|discriminate]. intros H.
      apply app_eq_nil in H. destruct H as [_ H]. discriminate.
    + intros _. apply in_or_app. right. simpl. auto.
Qed.

(** ** The dict of errors and the verdict *)




(** ** The two patterns *)

Lemma no_newline_app (a b : string) :
  no_newline (a +++ b) = no_newline a && no_newline b.
Proof.
  induction a as [|x a IH]; simpl; auto. now rewrite IH, andb_assoc.
Qed.

(** The names [pat] takes: [submissions/<u>/<g>/dddd-dd-dd-<y><g>.csv]. *)
Lemma pat_accepts (u g d y rest : string) (x : ascii) :
  no_newline u = true -> segment g -> date_shape d = true ->
  no_newline y = true -> dot x = true ->
  re_match Main.pat
    ("submissions/" +++ u +++ "/" +++ g +++ "/" +++ d +++ "-" +++ y +++ g +++
     String x "csv" +++ rest) = true.
Proof.
  intros Hu [Hg Hn] Hd Hy Hx. unfold re_match. rewrite matches_denotes.
  unfold date_shape in Hd.
  do 10 (destruct d as [|? d]; [discriminate|]).
  destruct d; [|discriminate].
  do 9 (apply andb_true_iff in Hd; destruct Hd as [Hd ?]).
  repeat match goal with
         | H : Ascii.eqb _ _ = true |- _ => apply Ascii.eqb_eq in H; subst
         end.
  unfold Main.pat. simpl.
  do 12 (eexists; split; [reflexivity|]).
  exists u. eexists. split; [reflexivity|]. split; [exact Hu|].
  eexists. split; [reflexivity|].
  exists g. eexists. split; [reflexivity|]. split; [exact Hg|].
  split; [exact Hn|].
  eexists. split; [reflexivity|].
  repeat (do 2 eexists; split; [reflexivity|]; split; [eassumption|]).
  eexists. split; [reflexivity|].
  repeat (do 2 eexists; split; [reflexivity|]; split; [eassumption|]).
  eexists. split; [reflexivity|].
  repeat (do 2 eexists; split; [reflexivity|]; split; [eassumption|]).
  eexists. split; [reflexivity|].
  exists y. eexists. split; [reflexivity|]. split; [exact Hy|].
  exists g. eexists. split; [reflexivity|]. split; [reflexivity|].
  do 2 eexists. split; [reflexivity|]. split; [exact Hx|].
  do 3 (eexists; split; [reflexivity|]).
  exact I.
Qed.

(** A changed file under [submissions/] whose downloaded path passes
    [check_filepath] is taken as a forecast by [pat]: the script never
    flags such a file as not being a valid submission. *)
Theorem checked_path_is_forecast (s : string)
  (Hok : check_filepath ("forecasts/" +++ "submissions/" +++ s) = PyNone) :
  re_match Main.pat ("submissions/" +++ s) = true /\
  forall files_changed status,
    ~ In (Main.mkFile ("submissions/" +++ s) status)
         (Main.other_files files_changed).
Proof.
  assert (Hp : re_match Main.pat ("submissions/" +++ s) = true).
  { apply check_filepath_cases, submission_pattern_language in Hok.
    destruct Hok
      as (w & A & B & C & d & x & rest & E & Hw & HA & HB & HC & Hd & Hx).
    assert (E' : String "/" s =
                 w +++ "/" +++ A +++ "/" +++ B +++ "/" +++ C +++ "/" +++ d +++
                 "-" +++ A +++ "-" +++ B +++ "-" +++ C +++ String x "csv" +++
                 rest).
    { simpl in E. simpl. congruence. }
    clear E. destruct HA as [HA HA'], HB as [HB HB'].
    assert (Hy : no_newline (A +++ "-" +++ B +++ "-") = true).
    { rewrite !no_newline_app, HA', HB'. reflexivity. }
    destruct w as [|c w].
    - assert (Es : s = (A +++ "/" +++ B) +++ "/" +++ C +++ "/" +++ d +++
                       "-" +++ (A +++ "-" +++ B +++ "-") +++ C +++
                       String x "csv" +++ rest).
      { rewrite !append_assoc. simpl. simpl in E'. congruence. }
      rewrite Es.
      apply (pat_accepts (A +++ "/" +++ B) C d (A +++ "-" +++ B +++ "-")
               rest x); [|exact HC|exact Hd|exact Hy|exact Hx].
      rewrite !no_newline_app, HA', HB'. reflexivity.
    - assert (Es : s = (w +++ "/" +++ A +++ "/" +++ B) +++ "/" +++ C +++
                       "/" +++ d +++ "-" +++ (A +++ "-" +++ B +++ "-") +++
                       C +++ String x "csv" +++ rest).
      { rewrite !append_assoc. simpl. simpl in E'. congruence. }
      assert (Hw' : no_newline w = true).
      { simpl in Hw. apply andb_true_iff in Hw. tauto. }
      rewrite Es.
      apply (pat_accepts (w +++ "/" +++ A +++ "/" +++ B) C d
               (A +++ "-" +++ B +++ "-") rest x);
        [|exact HC|exact Hd|exact Hy|exact Hx].
      rewrite !no_newline_app, Hw', HA', HB'. reflexivity. }
  split; [exact Hp|].
  intros files_changed status Ho.
  apply MainFacts.other_files_In in Ho. cbn [Main.filename] in Ho.
  destruct Ho as [_ Ho]. congruence.
Qed.

Lemma checked_path_is_forecast_witness :
  re_match Main.pat ("submissions/" +++ "a/b/c/2023-11-09-a-b-c.csv") = true /\
  forall files_changed status,
    ~ In (Main.mkFile ("submissions/" +++ "a/b/c/2023-11-09-a-b-c.csv") status)
         (Main.other_files files_changed).
Proof.
  apply (checked_path_is_forecast "a/b/c/2023-11-09-a-b-c.csv").
  reflexivity.
Defined.

(** ** The file name of an accepted path *)

Lemma has_slash_no_slash (s : string) : has_slash s = negb (no_slash s).
Proof.
  induction s as [|a s IH]; simpl; auto.
  rewrite IH. now destruct (Ascii.eqb a "/"), (no_slash s).
Qed.

Lemma no_slash_app (a b : string) :
  no_slash (a +++ b) = no_slash a && no_slash b.
Proof.
  induction a as [|x a IH]; simpl; auto. now rewrite IH, andb_assoc.
Qed.

Lemma basename_after_slash (pre name : string) :
  no_slash name = true -> basename (pre +++ "/" +++ name) = name.
Proof.
  intros H. induction pre as [|c pre IH]; simpl.
  - rewrite has_slash_no_slash, H. reflexivity.
  - rewrite has_slash_no_slash, no_slash_app. simpl.
    rewrite andb_false_r. simpl. exact IH.
Qed.

Lemma is_digit_not_slash (a : ascii) :
  is_digit a = true -> Ascii.eqb a "/" = false.
Proof.
  intros H. destruct (Ascii.eqb a "/") eqn:E; auto.
  apply Ascii.eqb_eq in E. subst a. discriminate.
Qed.

Lemma date_shape_take (d t : string) :
  date_shape d = true -> no_slash d = true /\ take 10 (d +++ t) = d.
Proof.
  intros Hd. unfold date_shape in Hd.
  do 10 (destruct d as [|? d]; [discriminate|]).
  destruct d; [|discriminate].
  do 9 (apply andb_true_iff in Hd; destruct Hd as [Hd ?]).
  repeat match goal with
         | H : Ascii.eqb _ _ = true |- _ => apply Ascii.eqb_eq in H; subst
         end.
  split.
  - simpl.
    repeat match goal with
           | H : is_digit _ = true |- _ =>
               rewrite (is_digit_not_slash _ H); clear H
           end.
    reflexivity.
  - unfold take. simpl. destruct t; reflexivity.
Qed.

(** For a path of the shape [check_filepath] accepts, with no slash in the
    three repeated segments, the ten characters [check_forecast_date]
    cuts from the base name are the [dddd-dd-dd] part that the pattern
    matched. *)
Theorem accepted_path_date (w A B C d : string)
  (Hw : no_newline w = true)
  (HA : segment A) (HB : segment B) (HC : segment C)
  (SA : no_slash A = true) (SB : no_slash B = true) (SC : no_slash C = true)
  (Hd : date_shape d = true) :
  let path := "forecasts/submissions" +++ w +++ "/" +++ A +++ "/" +++ B +++
              "/" +++ C +++ "/" +++ d +++ "-" +++ A +++ "-" +++ B +++ "-" +++
              C +++ ".csv" in
  check_filepath path = PyNone /\ filename_prefix path = d.
Proof.
  intros path. split.
  - apply check_filepath_cases, submission_pattern_language.
    exists w, A, B, C, d, "."%char, EmptyString. tauto.
  - unfold filename_prefix, path.
    destruct (date_shape_take d
                ("-" +++ A +++ "-" +++ B +++ "-" +++ C +++ ".csv") Hd)
      as [Sd T].
    replace ("forecasts/submissions" +++ w +++ "/" +++ A +++ "/" +++ B +++
             "/" +++ C +++ "/" +++ d +++ "-" +++ A +++ "-" +++ B +++ "-" +++
             C +++ ".csv")
      with (("forecasts/submissions" +++ w +++ "/" +++ A +++ "/" +++ B +++
             "/" +++ C) +++ "/" +++
            (d +++ "-" +++ A +++ "-" +++ B +++ "-" +++ C +++ ".csv"))
      by (now rewrite !append_assoc).
    rewrite basename_after_slash; auto.
    rewrite !no_slash_app, Sd, SA, SB, SC. reflexivity.
Qed.

Lemma accepted_path_date_witness :
  check_filepath "forecasts/submissions/a/b/c/2023-11-09-a-b-c.csv" = PyNone /\
  filename_prefix "forecasts/submissions/a/b/c/2023-11-09-a-b-c.csv"
  = "2023-11-09".
Proof.
  apply (accepted_path_date EmptyString "a" "b" "c" "2023-11-09");
    try reflexivity; split; (discriminate || reflexivity).
Defined.

(** * The two checks that write into the table *)

Lemma upsert_twice (name : string) (c c' : cell) (l : list (string * cell)) :
  upsert name c (upsert name c' l) = upsert name c l.
Proof.
  induction l as [|[k c0] l IH]; simpl.
  - now rewrite String.eqb_refl.
  - destruct (String.eqb name k) eqn:E; simpl; rewrite E; auto.
    now rewrite IH.
Qed.

Lemma set_other_twice (name : string) (c c' : cell) (r : Row) :
  set_other name c (set_other name c' r) = set_other name c r.
Proof. unfold set_other. simpl. now rewrite upsert_twice. Qed.

Lemma add_column_twice (name : string) (cols : list string) :
  add_column name (add_column name cols) = add_column name cols.
Proof.
  unfold add_column at 1. now rewrite has_add_column.
Qed.

Lemma require_returns (df : DataFrame) (e : string -> exn)
  (names : list string) (u : unit) :
  require df e names = Ret u -> forallb (has df) names = true.
Proof.
  induction names as [|n names IH]; simpl; auto.
  destruct (has df n); simpl; auto. discriminate.
Qed.

Lemma pair_eq {A B} (p q : A * B) : fst p = fst q -> snd p = snd q -> p = q.
Proof. destruct p, q. simpl. congruence. Qed.

Lemma computes_set_other (name : string) (f : Row -> cell) (l : list Row) :
  forallb computes (map (fun r => set_other name (f r) r) l)
  = forallb computes l.
Proof. rewrite forallb_map_comm. reflexivity. Qed.

Lemma check_target_dates_rerun (df : DataFrame) :
  rows df <> [] \/ List.length (columns df) <> 1%nat \/
  columns df = ["invalid_target_date"] ->
  check_target_dates (snd (check_target_dates df)) = check_target_dates df.
Proof.
  intros H.
  set (df1 := snd (check_target_dates df)).
  assert (E : df1 = if match rows df with
                       | [] => (List.length (columns df) =? 1)%nat
                       | _ :: _ =>
                           forallb (has df) ["target_end_date";
                                             "forecast_date"; "horizon"] &&
                           forallb computes (rows df)
                       end
                    then assign "invalid_target_date" target_flag df
                    else df)
    by apply check_target_dates_table.
  destruct (rows df) as [|r0 l] eqn:El.
  - destruct H as [H|[H|H]]; [congruence| |].
    + apply Nat.eqb_neq in H. rewrite H in E. now rewrite E.
    + rewrite H in E. cbn [List.length Nat.eqb] in E.
      assert (E' : df1 = df).
      { rewrite E. destruct df as [cols rs]. cbn [rows columns] in *.
        subst. reflexivity. }
      now rewrite E'.
  - destruct (forallb (has df) _ && forallb computes (r0 :: l)) eqn:W;
      [|now rewrite E].
    apply andb_true_iff in W. destruct W as [Hcols Hfit].
    rewrite <- El in Hfit.
    assert (Hrows : rows df <> []) by congruence.
    assert (Hrows1 : rows df1 <> []).
    { rewrite E. unfold assign. cbn [rows]. rewrite El. discriminate. }
    assert (Hcols1 : forallb (has df1)
                       ["target_end_date"; "forecast_date"; "horizon"] = true).
    { rewrite E. etransitivity; [|exact Hcols]. unfold has, assign.
      cbn [columns forallb].
      rewrite !has_add_column_other by reflexivity. reflexivity. }
    assert (Hfit1 : forallb computes (rows df1) = true).
    { rewrite E. unfold assign. cbn [rows].
      now rewrite computes_set_other. }
    apply pair_eq.
    + rewrite (check_target_dates_result _ Hrows1 Hcols1 Hfit1),
              (check_target_dates_result _ Hrows Hcols Hfit).
      rewrite E. unfold assign. cbn [rows].
      rewrite filter_map_comm, map_map. reflexivity.
    + rewrite (check_target_dates_table df1).
      destruct (rows df1) as [|r1 l1] eqn:El1; [congruence|].
      rewrite Hcols1, Hfit1. cbn [andb].
      fold df1. rewrite E at 1. rewrite E. unfold assign.
      cbn [rows columns].
      rewrite add_column_twice, map_map. f_equal.
      apply map_ext. intros r. apply set_other_twice.
Qed.

Section Rerun.
Variable df : DataFrame.

Let g (r : Row) : Row :=
  if not_mean r then set_other "no_quantiles" (quantile_count df r) r
  else if has df "no_quantiles" then r
  else set_other "no_quantiles" NaN r.

Let df1 : DataFrame :=
  assign_where "no_quantiles" not_mean (quantile_count df) df.

Lemma rerun_rows : rows df1 = map g (rows df).
Proof. reflexivity. Qed.

Lemma rerun_fields (r : Row) :
  key4_of (g r) = key4_of r /\ quantile (g r) = quantile r /\
  type (g r) = type r.
Proof.
  unfold g. destruct (not_mean r), (has df "no_quantiles"); auto.
Qed.

Lemma rerun_not_mean (r : Row) : not_mean (g r) = not_mean r.
Proof. unfold not_mean. now rewrite (proj2 (proj2 (rerun_fields r))). Qed.

Lemma rerun_sub : filter not_mean (rows df1) = map g (filter not_mean (rows df)).
Proof.
  rewrite rerun_rows, filter_map_comm. f_equal.
  apply filter_ext. intros r. apply rerun_not_mean.
Qed.

Lemma rerun_count (r : Row) :
  transform_nunique (filter not_mean (rows df1)) (g r)
  = transform_nunique (filter not_mean (rows df)) r.
Proof.
  rewrite rerun_sub. unfold transform_nunique.
  rewrite filter_map_comm, map_map.
  rewrite (map_ext (fun x => quantile (g x)) quantile)
    by (intros x; apply rerun_fields).
  f_equal. f_equal. apply filter_ext. intros x. unfold same_group.
  now rewrite (proj1 (rerun_fields r)), (proj1 (rerun_fields x)).
Qed.

Lemma rerun_has : has df1 "no_quantiles" = true.
Proof. unfold has, df1, assign_where. cbn [columns]. apply has_add_column. Qed.

Lemma rerun_incomplete (r : Row) :
  incomplete_row df1 (g r) = incomplete_row df r.
Proof.
  unfold incomplete_row. rewrite rerun_not_mean, rerun_count, rerun_has.
  destruct (not_mean r) eqn:M; auto.
  unfold g. rewrite M.
  destruct (has df "no_quantiles"); auto.
  now rewrite other_set_other.
Qed.

Lemma rerun_verdict : quantiles_verdict df1 = quantiles_verdict df.
Proof.
  unfold quantiles_verdict. rewrite rerun_rows, filter_map_comm.
  rewrite (filter_ext _ (incomplete_row df)) by apply rerun_incomplete.
  rewrite length_map, quantiles_by_group_map
    by (intros r; apply rerun_fields).
  assert (Em : only_mean (map g (rows df)) = only_mean (rows df)).
  { unfold only_mean. rewrite forallb_map_comm. apply forallb_pointwise.
    intros r. now rewrite (proj2 (proj2 (rerun_fields r))). }
  assert (Eq : only_median (map g (rows df)) = only_median (rows df)).
  { unfold only_median. rewrite filter_map_comm, map_map.
    rewrite (map_ext (fun x => quantile (g x)) quantile)
      by (intros x; apply rerun_fields).
    do 2 f_equal. apply filter_ext. intros r.
    now rewrite (proj2 (proj2 (rerun_fields r))). }
  now rewrite Em, Eq.
Qed.

Lemma rerun_table :
  assign_where "no_quantiles" not_mean (quantile_count df1) df1 = df1.
Proof.
  unfold assign_where at 1. rewrite rerun_has.
  assert (Ec : add_column "no_quantiles" (columns df1) = columns df1).
  { unfold df1, assign_where. cbn [columns]. apply add_column_twice. }
  rewrite Ec. rewrite rerun_rows at 1.
  rewrite map_map.
  assert (Er : map (fun r => if not_mean (g r)
                             then set_other "no_quantiles"
                                    (quantile_count df1 (g r)) (g r)
                             else g r) (rows df)
               = map g (rows df)).
  { apply map_ext. intros r. rewrite rerun_not_mean.
    destruct (not_mean r) eqn:M; auto.
    unfold quantile_count. rewrite rerun_count.
    unfold g. rewrite M. apply set_other_twice. }
  rewrite Er. rewrite <- rerun_rows. now destruct df1.
Qed.

Lemma rerun_require :
  require_quantile_columns df = Ret tt ->
  require_quantile_columns df1 = Ret tt.
Proof.
  intros H. rewrite <- H. unfold require_quantile_columns.
  rewrite (require_ext df df1 AttributeError ["type"]),
          (require_ext df df1 KeyError KEY4),
          (require_ext df df1 KeyError ["quantile"]);
    auto;
    intros k Hk; unfold has, df1, assign_where; cbn [columns];
    apply has_add_column_other; simpl in Hk;
    repeat (destruct Hk as [<-|Hk]; [reflexivity|]); destruct Hk.
Qed.

End Rerun.

Lemma check_quantiles_rerun (df : DataFrame) :
  check_quantiles (snd (check_quantiles df)) = check_quantiles df.
Proof.
  destruct (require_quantile_columns df) as [[]|e] eqn:R.
  2:{ rewrite check_quantiles_table, R. reflexivity. }
  assert (E1 : snd (check_quantiles df)
               = assign_where "no_quantiles" not_mean (quantile_count df) df).
  { now rewrite check_quantiles_table, R. }
  pose proof (rerun_require df R) as R1.
  apply pair_eq.
  - rewrite !check_quantiles_outcome, E1, R1, R. cbn [bind].
    now rewrite rerun_verdict.
  - rewrite check_quantiles_table, E1, R1. apply rerun_table.
Qed.

(** On a table with at least one row and the columns the two checks read,
    whose dates stay within the range of pandas' times, [check_header] run
    after [check_target_dates] or after [check_quantiles] on the shared
    table reports the column that check has written as an unexpected one.
    The loop runs [check_header] first. *)
Theorem check_header_after_writers (df : DataFrame)
  (Hrows : rows df <> [])
  (Ht : forallb (has df) TARGET_DATE_COLUMNS = true)
  (Hq : forallb (has df) QUANTILE_COLUMNS = true)
  (Hrange : forall r, In r (rows df) -> within_range r) :
  (exists a, In "invalid_target_date" a /\
     In (UnexpectedColumns a)
        (messages (fst (check_header (snd (check_target_dates df)))))) /\
  (exists a, In "no_quantiles" a /\
     In (UnexpectedColumns a)
        (messages (fst (check_header (snd (check_quantiles df)))))) /\
  (exists rest, checks = ("check_header", check_header) :: rest).
Proof.
  assert (G : forall df' name,
            has df' name = true ->
            not_in String.eqb VALID_COLUMNS name = true ->
            exists a, In name a /\
              In (UnexpectedColumns a) (messages (fst (check_header df')))).
  { intros df' name Hh Hn.
    exists (filter (not_in String.eqb VALID_COLUMNS) (columns df')).
    assert (Hin : In name
              (filter (not_in String.eqb VALID_COLUMNS) (columns df'))).
    { apply filter_In. split; auto.
      unfold has in Hh. apply existsb_exists in Hh.
      destruct Hh as [x [Hx E]]. apply String.eqb_eq in E. now subst. }
    split; auto.
    rewrite check_header_result. cbv zeta.
    destruct (filter (not_in String.eqb VALID_COLUMNS) (columns df'))
      as [|x a] eqn:E; [destruct Hin|].
    cbn [List.length Nat.ltb Nat.leb].
    rewrite messages_return_if_any. apply in_or_app. right. simpl. auto. }
  split; [|split].
  - apply G; [|reflexivity].
    rewrite check_target_dates_table.
    unfold TARGET_DATE_COLUMNS in Ht.
    destruct (rows df) as [|r0 l] eqn:El; [congruence|].
    rewrite Ht, (proj2 (computes_all _) Hrange). cbn [andb].
    unfold has, assign. cbn [columns]. apply has_add_column.
  - apply G; [|reflexivity].
    rewrite check_quantiles_table, (require_quantile_columns_ok _ Hq).
    unfold has, assign_where. cbn [columns]. apply has_add_column.
  - eexists. reflexivity.
Qed.

Lemma check_header_after_writers_witness :
  (exists a, In "invalid_target_date" a /\
     In (UnexpectedColumns a)
        (messages (fst (check_header
                          (snd (check_target_dates df_two_means)))))) /\
  (exists a, In "no_quantiles" a /\
     In (UnexpectedColumns a)
        (messages (fst (check_header (snd (check_quantiles df_two_means)))))) /\
  (exists rest, checks = ("check_header", check_header) :: rest).
Proof.
  apply (check_header_after_writers df_two_means).
  - discriminate.
  - reflexivity.
  - reflexivity.
  - intros r [<-|[<-|[]]]; unfold within_range; simpl; lia.
Defined.

(** Running [check_target_dates] or [check_quantiles] again on the table
    it has left gives the same result and leaves the table as it is: the
    column it wrote is overwritten with the same cells.  For
    [check_target_dates] one table is to be set apart, the one without
    rows whose header is a single column: there the first run writes the
    column and raises on the selection, and the second is refused the
    assignment. *)
Theorem writers_idempotent (df : DataFrame)
  (Hshape : rows df <> [] \/ List.length (columns df) <> 1%nat \/
            columns df = ["invalid_target_date"]) :
  check_target_dates (snd (check_target_dates df)) = check_target_dates df /\
  check_quantiles (snd (check_quantiles df)) = check_quantiles df.
Proof.
  split; [now apply check_target_dates_rerun|apply check_quantiles_rerun].
Qed.

Lemma writers_idempotent_witness :
  check_target_dates (snd (check_target_dates df_one_day_late))
  = check_target_dates df_one_day_late /\
  check_quantiles (snd (check_quantiles df_one_day_late))
  = check_quantiles df_one_day_late.
Proof.
  apply (writers_idempotent df_one_day_late). left. discriminate.
Defined.

(** The table set apart: a header of one column and no row. *)
Example check_target_dates_one_column :
  check_target_dates df_one_column
  = (Raise (KeyErrorIndex ["forecast_date"; "target_end_date"; "horizon"]),
     mkDF ["location"; "invalid_target_date"] []) /\
  check_target_dates (snd (check_target_dates df_one_column))
  = (Raise ValueError, mkDF ["location"; "invalid_target_date"] []).
Proof. split; reflexivity. Qed.
